(** * edugen: the render service and its proxies

    A shallow embedding of the two Express programs of the repository:

    - the render service (POST /render, POST /asy) with its helpers
      [cmdExists], [cleanup], [findFileRecursive] and [findAsyOutput];
    - the web server's two proxy routes (POST /api/manim-proxy and
      POST /api/asy-proxy) with [safeJson], and its share store
      (POST /api/share, GET /s/:id.json) with [makeId] and [reqBaseUrl].

    Conventions.  A JavaScript string is a Rocq [string], one [ascii] per
    UTF-16 code unit; the development covers the strings whose code units
    are below 256.  [undefined] is [None] at type [option json].  JSON
    numbers are the integral ones, carried as [Z].  A handler is a function
    of the request and of an environment that answers every operating-system
    call; it threads a world (the effects performed so far, the scratch
    directories that exist, the [responded] flag) and ends in a value, a
    thrown exception, or an await that never resumes. *)

From Stdlib Require Import String Ascii List ZArith Bool Arith Lia DecimalString.
From Equations Require Import Equations.
From Equations.Prop Require Import Logic.
Import ListNotations.

Set Warnings "-register-all".
Open Scope string_scope.

(* ===================================================================== *)
(** ** JavaScript values and the string primitives the handlers use *)
(* ===================================================================== *)

Module JS.

Inductive json : Type :=
| JNull
| JBool (b : bool)
| JNum (n : Z)
| JStr (s : string)
| JArr (items : list json)
| JObj (fields : list (string * json)).

(** A thrown value: [message] is its [message] property (empty when it has
    none), [shown] is what [String(e)] yields. *)
Record exn : Type := Exn { message : string; shown : string }.

(** [!!v] *)
Definition truthy (v : option json) : bool :=
  match v with
  | None | Some JNull => false
  | Some (JBool b) => b
  | Some (JNum n) => negb (n =? 0)%Z
  | Some (JStr s) => negb (s =? "")
  | Some (JArr _) | Some (JObj _) => true
  end.

(** [typeof v === 'string'] *)
Definition is_string (v : option json) : bool :=
  match v with Some (JStr _) => true | _ => false end.

Definition Z_to_string (n : Z) : string :=
  NilZero.string_of_int (Z.to_int n).

(** [String(v)] for a value that came out of [JSON.parse]. *)
Fixpoint String_ (v : json) : string :=
  match v with
  | JNull => "null"
  | JBool true => "true"
  | JBool false => "false"
  | JNum n => Z_to_string n
  | JStr s => s
  | JArr items =>
      (fix join (l : list json) : string :=
         match l with
         | [] => ""
         | x :: rest =>
             let sx := match x with JNull => "" | _ => String_ x end in
             match rest with
             | [] => sx
             | _ :: _ => sx ++ "," ++ join rest
             end
         end) items
  | JObj _ => "[object Object]"
  end.

(** Property lookup on [req.body || {}]: anything but an object with the key
    yields [undefined]. *)
Fixpoint assoc (k : string) (fields : list (string * json)) : option json :=
  match fields with
  | [] => None
  | (k', v) :: rest => if k' =? k then Some v else assoc k rest
  end.

Definition field (body : option json) (k : string) : option json :=
  match body with
  | Some (JObj fields) => assoc k fields
  | _ => None
  end.

(** Destructuring default [x = d]: the default applies to [undefined] only. *)
Definition default (v : option json) (d : json) : json :=
  match v with Some x => x | None => d end.

(** *** Code units *)

Definition between (lo hi : nat) (c : ascii) : bool :=
  (lo <=? nat_of_ascii c)%nat && (nat_of_ascii c <=? hi)%nat.

Definition lower_unit (c : ascii) : ascii :=
  if between 65 90 c
     || (between 192 222 c && negb (nat_of_ascii c =? 215)%nat)
  then ascii_of_nat (nat_of_ascii c + 32)
  else c.

(** [s.toLowerCase()] *)
Fixpoint toLowerCase (s : string) : string :=
  match s with
  | EmptyString => EmptyString
  | String c rest => String (lower_unit c) (toLowerCase rest)
  end.

(** The class [\w] *)
Definition is_word (c : ascii) : bool :=
  between 48 57 c || between 65 90 c || between 97 122 c
  || (nat_of_ascii c =? 95)%nat.

(** The class [\s] *)
Definition is_space (c : ascii) : bool :=
  between 9 13 c || (nat_of_ascii c =? 32)%nat || (nat_of_ascii c =? 160)%nat.

Fixpoint strip_prefix (p s : string) : option string :=
  match p, s with
  | EmptyString, _ => Some s
  | String a p', String b s' => if Ascii.eqb a b then strip_prefix p' s' else None
  | String _ _, EmptyString => None
  end.

Fixpoint skip_spaces (s : string) : string :=
  match s with
  | String c rest => if is_space c then skip_spaces rest else s
  | EmptyString => EmptyString
  end.

(** [name\s*\(] anchored at the head of [s] *)
Definition call_at (name s : string) : bool :=
  match strip_prefix name s with
  | Some rest =>
      match skip_spaces rest with
      | String "(" _ => true
      | _ => false
      end
  | None => false
  end.

(** [\b] between the code unit before the position ([prev] tells whether it
    is a word character; [false] at the start) and the text [s] after it. *)
Definition word_boundary (prev : bool) (s : string) : bool :=
  xorb prev (match s with String c _ => is_word c | EmptyString => false end).

(** [/(\bMathTex\s*\(|\bTex\s*\()/] tried at every position of the text. *)
Fixpoint latex_re_from (prev : bool) (s : string) : bool :=
  (word_boundary prev s && (call_at "MathTex" s || call_at "Tex" s))
  || match s with
     | EmptyString => false
     | String c rest => latex_re_from (is_word c) rest
     end.

Definition latex_re (s : string) : bool := latex_re_from false s.

(** [/^q[lmhpk]$/] *)
Definition quality_re (s : string) : bool :=
  match s with
  | String "q" (String c EmptyString) =>
      existsb (Ascii.eqb c) ["l"; "m"; "h"; "p"; "k"]%char
  | _ => false
  end.

(** [list.includes(s)] on an array of strings *)
Definition includes (l : list string) (s : string) : bool :=
  existsb (String.eqb s) l.

(** [s.endsWith(suffix)] *)
Definition endsWith (s suffix : string) : bool :=
  (String.length suffix <=? String.length s)%nat
  && (substring (String.length s - String.length suffix)
                (String.length suffix) s =? suffix).

(** [path.join(dir, name)] for a normalised [dir] and an entry name. *)
Definition path_join (dir name : string) : string := dir ++ "/" ++ name.

End JS.
Import JS.


(* ===================================================================== *)
(** ** The artifact locators: [findFileRecursive] and [findAsyOutput] *)
(* ===================================================================== *)

Module Locator.

(** What [fs.readdir(dir, { withFileTypes: true })] lists: regular files,
    directories with their own listing, and entries that are neither
    (links, sockets, devices). *)
Inductive dirent : Type :=
| File (name : string)
| Dir (name : string) (children : list dirent)
| Other (name : string).

Definition ent_name (ent : dirent) : string :=
  match ent with File n | Dir n _ | Other n => n end.

(** A directory waiting on the stack: its path and its listing.  The head
    of the list is the end of the JavaScript array, where [push] and [pop]
    work. *)
Definition frame : Type := string * list dirent.

Fixpoint size (ent : dirent) : nat :=
  match ent with
  | Dir _ children => S (list_sum (map size children))
  | File _ | Other _ => 1
  end.

Definition weight_frame (f : frame) : nat := S (list_sum (map size (snd f))).

Definition weight (stack : list frame) : nat := list_sum (map weight_frame stack).

(** *** [findFileRecursive] *)

(** The [for (const ent of entries)] loop of one directory: [inl p] is the
    early [return p], [inr stack'] the stack once the listing is done. *)
Fixpoint scan_file (fileName cur : string) (entries : list dirent)
         (stack : list frame) : string + list frame :=
  match entries with
  | [] => inr stack
  | ent :: rest =>
      let p := path_join cur (ent_name ent) in
      match ent with
      | Dir _ children => scan_file fileName cur rest ((p, children) :: stack)
      | File name =>
          if name =? fileName then inl p
          else scan_file fileName cur rest stack
      | Other _ => scan_file fileName cur rest stack
      end
  end.

Lemma weight_cons (f : frame) (stack : list frame) :
  weight (f :: stack) = S (list_sum (map size (snd f))) + weight stack.
Proof. reflexivity. Qed.

Lemma scan_file_weight fileName cur entries :
  forall stack stack',
    scan_file fileName cur entries stack = inr stack' ->
    weight stack' <= list_sum (map size entries) + weight stack.
Proof.
  induction entries as [|ent rest IH]; intros stack stack' H; simpl in H.
  - inversion H; subst. simpl. lia.
  - destruct ent as [name|name children|name].
    + destruct (name =? fileName); [discriminate|].
      apply IH in H. simpl. lia.
    + apply IH in H. rewrite weight_cons in H. simpl in *. lia.
    + apply IH in H. simpl. lia.
Qed.

Lemma scan_file_decreases fileName cur entries stack stack' :
  scan_file fileName cur entries stack = inr stack' ->
  weight stack' < weight ((cur, entries) :: stack).
Proof.
  intros H. apply scan_file_weight in H. rewrite weight_cons. simpl. lia.
Qed.

(** The [while (stack.length)] loop. *)
Equations? walk_file (fileName : string) (stack : list frame) : option string
  by wf (weight stack) lt :=
  walk_file fileName [] := None;
  walk_file fileName ((cur, entries) :: stack)
    with inspect (scan_file fileName cur entries stack) => {
    | exist _ (inl p) _ := Some p;
    | exist _ (inr stack') Hscan := walk_file fileName stack' }.
Proof. eapply scan_file_decreases; eauto. Qed.

(** [findFileRecursive(dir, fileName)], [root] being the listing of [dir]. *)
Definition findFileRecursive (dir : string) (root : list dirent)
           (fileName : string) : option string :=
  walk_file fileName [(dir, root)].

(** *** [findAsyOutput] *)

(** [new Set([`${stem}.${ext}`, `${stem}-0.${ext}`, `${stem}-1.${ext}`])] *)
Definition preferred (stem ext : string) : list string :=
  [stem ++ "." ++ ext; stem ++ "-0." ++ ext; stem ++ "-1." ++ ext].

(** [candidates[0] || null] *)
Definition first_or_null (candidates : list string) : option string :=
  match candidates with
  | c :: _ => if c =? "" then None else Some c
  | [] => None
  end.

Fixpoint scan_asy (pref : list string) (ext cur : string) (entries : list dirent)
         (stack : list frame) (candidates : list string)
  : string + (list frame * list string) :=
  match entries with
  | [] => inr (stack, candidates)
  | ent :: rest =>
      let p := path_join cur (ent_name ent) in
      match ent with
      | Dir _ children =>
          scan_asy pref ext cur rest ((p, children) :: stack) candidates
      | File name =>
          if includes pref name then inl p
          else if endsWith name ("." ++ ext)
               then scan_asy pref ext cur rest stack (candidates ++ [p])
               else scan_asy pref ext cur rest stack candidates
      | Other _ => scan_asy pref ext cur rest stack candidates
      end
  end.

Lemma scan_asy_weight pref ext cur entries :
  forall stack candidates stack' candidates',
    scan_asy pref ext cur entries stack candidates = inr (stack', candidates') ->
    weight stack' <= list_sum (map size entries) + weight stack.
Proof.
  induction entries as [|ent rest IH]; intros stack cs stack' cs' H; simpl in H.
  - inversion H; subst. simpl. lia.
  - destruct ent as [name|name children|name].
    + destruct (includes pref name); [discriminate|].
      destruct (endsWith name _); apply IH in H; simpl; lia.
    + apply IH in H. rewrite weight_cons in H. simpl in *. lia.
    + apply IH in H. simpl. lia.
Qed.

Equations? walk_asy (pref : list string) (ext : string) (stack : list frame)
  (candidates : list string) : option string by wf (weight stack) lt :=
  walk_asy pref ext [] candidates := first_or_null candidates;
  walk_asy pref ext ((cur, entries) :: stack) candidates
    with inspect (scan_asy pref ext cur entries stack candidates) => {
    | exist _ (inl p) _ := Some p;
    | exist _ (inr (stack', candidates')) Hscan :=
        walk_asy pref ext stack' candidates' }.
Proof.
  apply scan_asy_weight in Hscan. rewrite weight_cons. simpl. lia.
Qed.

(** [findAsyOutput(dir, ext, stem)], [root] being the listing of [dir]. *)
Definition findAsyOutput (dir : string) (root : list dirent)
           (ext stem : string) : option string :=
  walk_asy (preferred stem ext) ext [(dir, root)] [].

(** *** The order in which the walk meets the regular files *)

(** A regular file met by the walk: its name and its path. *)
Definition visit : Type := string * string.

(** The files met from the moment the directory [ent], listed in [cur], is
    popped until the stack is back to what lay under it. *)
Fixpoint subtree (cur : string) (ent : dirent) : list visit :=
  match ent with
  | Dir name children =>
      (fix listing (entries : list dirent) : list visit :=
         match entries with
         | [] => []
         | e :: rest =>
             match e with
             | File n => (n, path_join (path_join cur name) n) :: listing rest
             | Dir _ _ => (listing rest ++ subtree (path_join cur name) e)%list
             | Other _ => listing rest
             end
         end) children
  | File _ | Other _ => []
  end.

(** The files met while the directory [cur], whose listing is [entries], is
    scanned and its subdirectories, last pushed first popped, are walked. *)
Fixpoint traversal (cur : string) (entries : list dirent) : list visit :=
  match entries with
  | [] => []
  | e :: rest =>
      match e with
      | File n => (n, path_join cur n) :: traversal cur rest
      | Dir _ _ => (traversal cur rest ++ subtree cur e)%list
      | Other _ => traversal cur rest
      end
  end.

(** The files directly in a listing, and the stack after the listing. *)
Fixpoint direct (cur : string) (entries : list dirent) : list visit :=
  match entries with
  | [] => []
  | File n :: rest => (n, path_join cur n) :: direct cur rest
  | _ :: rest => direct cur rest
  end.

Fixpoint pushed (cur : string) (entries : list dirent) (stack : list frame)
  : list frame :=
  match entries with
  | [] => stack
  | Dir name children :: rest =>
      pushed cur rest ((path_join cur name, children) :: stack)
  | _ :: rest => pushed cur rest stack
  end.

Definition order (stack : list frame) : list visit :=
  flat_map (fun f => traversal (fst f) (snd f)) stack.

(** The ordered lookup the specification describes for the vector-graphics
    locator: each preferred name in turn, then the first file with the
    extension, all in traversal order. *)
Definition findAsyOutput_spec (dir : string) (root : list dirent)
           (ext stem : string) : option string :=
  let met := traversal dir root in
  let by_name (n : string) := find (fun v : visit => fst v =? n) met in
  match by_name (stem ++ "." ++ ext) with
  | Some v => Some (snd v)
  | None =>
      match by_name (stem ++ "-0." ++ ext) with
      | Some v => Some (snd v)
      | None =>
          match by_name (stem ++ "-1." ++ ext) with
          | Some v => Some (snd v)
          | None =>
              option_map snd
                (find (fun v : visit => endsWith (fst v) ("." ++ ext)) met)
          end
      end
  end.

(** Whether a tree holds a regular file of the given name, at any depth. *)
Definition holds (dir : string) (root : list dirent) (name : string) : bool :=
  existsb (fun v : visit => fst v =? name) (traversal dir root).

End Locator.
Import Locator.


(* ===================================================================== *)
(** ** What a handler hands to Express *)
(* ===================================================================== *)

Module Express.

Inductive payload : Type :=
| Json (v : json)
| Binary (data : string).

(** A response: [res.status(n)] (200 when it is not called), the headers
    set with [res.setHeader], and what [res.json] or [res.send] is given. *)
Record response : Type := Response {
  status : nat;
  headers : list (string * json);
  content : payload
}.

(** The response of [res.status(code).json(v)] *)
Definition reply (code : nat) (v : json) : response :=
  {| status := code; headers := []; content := Json v |}.

(** [!v] on a string or [null] *)
Definition falsy (v : option string) : bool :=
  match v with
  | Some s => s =? ""
  | None => true
  end.

Definition string_of (v : option string) : string :=
  match v with Some s => s | None => "" end.

End Express.
Import Express.

(* ===================================================================== *)
(** ** The render service: POST /render and POST /asy *)
(* ===================================================================== *)

Module Render.

(** *** Configuration, read from [process.env] when the service starts *)

Record config : Type := Config {
  MANIM_BIN : option string;  (* [process.env.MANIM_BIN || null] *)
  PYTHON_BIN : string;
  ASY_BIN : string;
  XVFB_BIN : string;
  REPO_ROOT : string;
  tmpdir : string             (* [os.tmpdir()] *)
}.

(** [v || d] and [v || null] on an environment variable *)
Definition or_else (v : option string) (d : string) : string :=
  match v with
  | Some s => if s =? "" then d else s
  | None => d
  end.

Definition or_null (v : option string) : option string :=
  match v with
  | Some s => if s =? "" then None else Some s
  | None => None
  end.

Definition config_of (environ : string -> option string)
           (repo_root tmp : string) : config :=
  {| MANIM_BIN := or_null (environ "MANIM_BIN");
     PYTHON_BIN := or_else (environ "PYTHON_BIN") "python3";
     ASY_BIN := or_else (environ "ASY_BIN") "asy";
     XVFB_BIN := or_else (environ "XVFB_BIN") "xvfb-run";
     REPO_ROOT := repo_root;
     tmpdir := tmp |}.

(** *** Effects
    What a request does to the world, as it is recorded in its trace:
    - [Probe]: the [spawn(cmd, args, { stdio: 'ignore' })] of [cmdExists];
    - [Mkdtemp], [WriteFile], [Stat], [ReadFile]: the calls of [fs] by
      those names;
    - [Spawn]: [spawn(cmd, argv, { cwd })] of the renderer;
    - [Walk]: the [fs.readdir] calls of one walk of an artifact locator,
      answered together by the tree under the directory, or by the failure
      of one of them;
    - [Send]: a response handed to Express ([res.json] or [res.send]);
    - [Rm]: [fs.rm(dir, { recursive: true, force: true })].
    Console output is left out. *)

Inductive effect : Type :=
| Probe (cmd : string) (args : list string)
| Mkdtemp (prefix : string)
| WriteFile (file data : string)
| Stat (file : string)
| Spawn (cmd : string) (argv : list json) (cwd : string)
| Walk (dir : string)
| ReadFile (file : string)
| Send (r : response)
| Rm (dir : string).

(** *** Child processes *)

Inductive chunk : Type :=
| Out (d : string)
| Err (d : string).

(** How a child that [spawn] returned comes to an end: it exits (with a
    code, or [null] when a signal killed it), or it could not be started,
    or it never closes. *)
Inductive ending : Type :=
| Exits (code : option Z)
| SpawnFails (err : exn) (errno : positive)
| Hangs.

Record child : Type := Child { output : list chunk; ending_of : ending }.

Inductive event : Type :=
| StdoutData (d : string)
| StderrData (d : string)
| Error (err : exn)
| Close (code : option Z).

Definition data_event (k : chunk) : event :=
  match k with Out d => StdoutData d | Err d => StderrData d end.

(** The events Node emits on a child: its output, then ['close'] with the
    exit code; a child that could not be started emits ['error'] and then
    ['close'] with the negated error number.  ['close'] is the last event
    of a child, so that a listener runs to its end before the next event. *)
Definition events (c : child) : list event :=
  (map data_event (output c)
   ++ match ending_of c with
      | Exits code => [Close code]
      | SpawnFails err errno => [Error err; Close (Some (Z.neg errno))]
      | Hangs => []
      end)%list.

Definition closes (c : child) : bool :=
  match ending_of c with Hangs => false | _ => true end.

(** [code === n] *)
Definition code_is (code : option Z) (n : Z) : bool :=
  match code with Some c => (c =? n)%Z | None => false end.

Definition code_json (code : option Z) : json :=
  match code with Some c => JNum c | None => JNull end.

(** *** The environment
    Every answer may depend on the effects performed so far.  [inl] is a
    thrown exception or a rejected promise.  [send] answers [res.send] on
    the artifact; the JSON answers of the handlers do not fail. *)

Record env : Type := Env {
  probe : list effect -> string -> list string -> exn + child;
  mkdtemp : list effect -> string -> exn + string;
  writeFile : list effect -> string -> string -> exn + unit;
  stat : list effect -> string -> exn + unit;
  spawn : list effect -> string -> list json -> string -> exn + child;
  readdir : list effect -> string -> exn + list dirent;
  readFile : list effect -> string -> exn + string;
  send : list effect -> response -> exn + unit;
  rm : list effect -> string -> exn + unit
}.

(** *** The state of one request *)

Record state : Type := State {
  trace : list effect;    (* the effects performed, oldest first *)
  dirs : list string;     (* the scratch directories that exist *)
  responded : bool;       (* [let responded] *)
  stdout : string;        (* [let stdout] *)
  stderr : string         (* [let stderr] *)
}.

Definition init : state :=
  {| trace := []; dirs := []; responded := false; stdout := ""; stderr := "" |}.

Inductive outcome (A : Type) : Type :=
| Done (a : A)
| Thrown (e : exn)
| Pending.
Arguments Done {A} a.
Arguments Thrown {A} e.
Arguments Pending {A}.

Inductive promise (A : Type) : Type :=
| Fulfilled (a : A)
| Rejected (e : exn)
| Forever.
Arguments Fulfilled {A} a.
Arguments Rejected {A} e.
Arguments Forever {A}.

Definition M (A : Type) : Type := state -> state * outcome A.

Definition ret {A} (a : A) : M A := fun s => (s, Done a).

Definition bind {A B} (m : M A) (k : A -> M B) : M B :=
  fun s =>
    match m s with
    | (s', Done a) => k a s'
    | (s', Thrown e) => (s', Thrown e)
    | (s', Pending) => (s', Pending)
    end.

Definition throw {A} (e : exn) : M A := fun s => (s, Thrown e).

Definition pending {A} : M A := fun s => (s, Pending).

(** [try { m } catch (e) { h e }] *)
Definition try_catch {A} (m : M A) (h : exn -> M A) : M A :=
  fun s =>
    match m s with
    | (s', Thrown e) => h e s'
    | r => r
    end.

(** [try { m } finally { f }] *)
Definition try_finally {A} (m : M A) (f : M unit) : M A :=
  fun s =>
    match m s with
    | (s', Done a) => bind f (fun _ => ret a) s'
    | (s', Thrown e) => bind f (fun _ => throw e) s'
    | (s', Pending) => (s', Pending)
    end.

Declare Scope js_scope.
Delimit Scope js_scope with js.
Notation "x <- m ;; k" := (bind m (fun x => k))
  (at level 61, m at next level, right associativity) : js_scope.
Notation "m ;; k" := (bind m (fun _ => k))
  (at level 61, right associativity) : js_scope.
Open Scope js_scope.

(** [await p] *)
Definition await {A} (p : promise A) : M A :=
  fun s =>
    match p with
    | Fulfilled a => (s, Done a)
    | Rejected e => (s, Thrown e)
    | Forever => (s, Pending)
    end.

(** [p.catch(h)] *)
Definition promise_catch {A} (p : promise A) (h : exn -> A) : promise A :=
  match p with
  | Rejected e => Fulfilled (h e)
  | _ => p
  end.

(** [Promise.all([p, q])] *)
Definition promise_all {A B} (p : promise A) (q : promise B) : promise (A * B) :=
  match p, q with
  | Rejected e, _ => Rejected e
  | _, Rejected e => Rejected e
  | Fulfilled a, Fulfilled b => Fulfilled (a, b)
  | _, _ => Forever
  end.

(** A promise settles with the first call of [resolve]. *)
Definition first_call {A} (calls : list A) : promise A :=
  match calls with
  | a :: _ => Fulfilled a
  | [] => Forever
  end.

Definition set_trace (t : list effect) (s : state) : state :=
  {| trace := t; dirs := dirs s; responded := responded s;
     stdout := stdout s; stderr := stderr s |}.

Definition set_dirs (d : list string) (s : state) : state :=
  {| trace := trace s; dirs := d; responded := responded s;
     stdout := stdout s; stderr := stderr s |}.

Definition set_responded (b : bool) (s : state) : state :=
  {| trace := trace s; dirs := dirs s; responded := b;
     stdout := stdout s; stderr := stderr s |}.

Definition set_stdout (o : string) (s : state) : state :=
  {| trace := trace s; dirs := dirs s; responded := responded s;
     stdout := o; stderr := stderr s |}.

Definition set_stderr (o : string) (s : state) : state :=
  {| trace := trace s; dirs := dirs s; responded := responded s;
     stdout := stdout s; stderr := o |}.

Definition get {A} (proj : state -> A) : M A := fun s => (s, Done (proj s)).

Definition modify (f : state -> state) : M unit := fun s => (f s, Done tt).

(** A call into the operating system: recorded, then answered. *)
Definition call {A} (e : effect) (answer : list effect -> exn + A) : M A :=
  fun s =>
    (set_trace (trace s ++ [e]) s,
     match answer (trace s) with
     | inl x => Thrown x
     | inr a => Done a
     end).

(** What the [try] block of a handler leaves behind: nothing after an early
    [return], or the child, the scratch directory its listeners hold on to,
    and the listeners registered on it. *)
Record registered : Type := Registered {
  the_child : child;
  workdir : string;
  listener : event -> M unit
}.

Definition started : Type := option registered.

Section Handlers.

Variable E : env.
Variable C : config.

(** [res.status(code).json(v)] *)
Definition send_json (code : nat) (v : json) : M unit :=
  call (Send (reply code v)) (fun _ => inr tt).

(** [res.setHeader('Content-Type', ct); res.setHeader('Content-Length',
    data.length); res.send(data)] *)
Definition send_file (ct data : string) : M unit :=
  let r := {| status := 200;
              headers := [("Content-Type", JStr ct);
                          ("Content-Length", JNum (Z.of_nat (String.length data)))];
              content := Binary data |} in
  call (Send r) (fun h => send E h r).

(** [if (!responded) { responded = true; reply }] *)
Definition unless_responded (reply : M unit) : M unit :=
  b <- get responded ;;
  if negb b then modify (set_responded true) ;; reply else ret tt.

Definition remove_dir (dir : string) (s : state) : state :=
  set_dirs (filter (fun d => negb (d =? dir)) (dirs s)) s.

(** [cleanup(dir)]: [fs.rm(dir, { recursive: true, force: true }).catch(() => {})] *)
Definition cleanup (dir : string) : M unit :=
  try_catch (call (Rm dir) (fun h => rm E h dir) ;; modify (remove_dir dir))
            (fun _ => ret tt).

(** The calls of [resolve] that the two listeners of [cmdExists] make. *)
Definition resolve_calls (evs : list event) : list bool :=
  flat_map (fun ev =>
              match ev with
              | Error _ => [false]
              | Close code => [code_is code 0 || code_is code 1]
              | StdoutData _ | StderrData _ => []
              end) evs.

(** [cmdExists(cmd, args)] *)
Definition cmdExists (cmd : string) (args : list string) : M (promise bool) :=
  try_catch
    (c <- call (Probe cmd args) (fun h => probe E h cmd args) ;;
     ret (first_call (resolve_calls (events c))))
    (fun _ => ret (Fulfilled false)).

Definition walk_for_file (dir fileName : string) : M (option string) :=
  root <- call (Walk dir) (fun h => readdir E h dir) ;;
  ret (findFileRecursive dir root fileName).

Definition walk_for_asy (dir ext stem : string) : M (option string) :=
  root <- call (Walk dir) (fun h => readdir E h dir) ;;
  ret (findAsyOutput dir root ext stem).

Definition on_data (ev : event) : M unit :=
  match ev with
  | StdoutData d => modify (fun s => set_stdout (stdout s ++ d) s)
  | StderrData d => modify (fun s => set_stderr (stderr s ++ d) s)
  | _ => ret tt
  end.

Fixpoint deliver (listener : event -> M unit) (evs : list event) : M unit :=
  match evs with
  | [] => ret tt
  | ev :: rest => listener ev ;; deliver listener rest
  end.

(** Once the listeners are registered the handler returns; the request
    goes on with the child's events and stays pending when no ['close']
    ever comes. *)
Definition listen (listener : event -> M unit) (c : child) : M unit :=
  deliver listener (events c) ;;
  if closes c then ret tt else pending.

Definition failure_body (error : string) (code : option Z) : M json :=
  out <- get stdout ;;
  err <- get stderr ;;
  ret (JObj [("error", JStr error); ("code", code_json code);
             ("stdout", JStr out); ("stderr", JStr err)]).

Definition missing_output_body : M json :=
  out <- get stdout ;;
  err <- get stderr ;;
  ret (JObj [("error", JStr "Output not found");
             ("stdout", JStr out); ("stderr", JStr err)]).

Definition error_body (error : string) (e : exn) : json :=
  JObj [("error", JStr error); ("details", JStr (shown e))].

Definition missing_code : json :=
  JObj [("error", JStr "Missing `code` (string)")].

(** [!code || typeof code !== 'string'] *)
Definition bad_code (code : option json) : bool :=
  negb (truthy code) || negb (is_string code).

Definition text_of (code : option json) : string :=
  match code with Some (JStr s) => s | _ => "" end.

(** **** POST /render *)

Definition dq : string := String (ascii_of_nat 34) "".

Definition latex_hints : list json :=
  [JStr ("macOS: brew install --cask basictex && echo " ++ dq
         ++ "export PATH=/Library/TeX/texbin:$PATH" ++ dq ++ " >> ~/.zshrc");
   JStr "then: sudo tlmgr update --self && sudo tlmgr install dvisvgm cm-super type1cm amsfonts amsmath xcolor geometry standalone preview latexmk";
   JStr "Alternatively, avoid Tex/MathTex and use Text/MarkupText for non-LaTeX labels."].

Definition latex_missing (hasLatex hasDvisvgm : bool) : json :=
  JObj [("error", JStr "LaTeX toolchain not found");
        ("details", JStr "Your Manim code uses Tex/MathTex, which requires LaTeX (latex) and dvisvgm.");
        ("missing", JObj [("latex", JBool hasLatex); ("dvisvgm", JBool hasDvisvgm)]);
        ("hints", JArr latex_hints)].

Definition bad_quality : json :=
  JObj [("error", JStr "Invalid `quality` (use ql, qm, qh, qp, qk)")].

Definition bad_render_format : json :=
  JObj [("error", JStr "Invalid `format` (mp4|gif)")].

Definition render_on_error (work : string) (err : exn) : M unit :=
  unless_responded (send_json 500 (error_body "Failed to run manim" err)) ;;
  cleanup work.

Definition render_on_close (work fmt : string) (code : option Z) : M unit :=
  if negb (code_is code 0) then
    unless_responded (b <- failure_body "Manim render failed" code ;;
                      send_json 500 b) ;;
    cleanup work
  else
    try_finally
      (try_catch
         (let wanted := if fmt =? "gif" then "out.gif" else "out.mp4" in
          found <- walk_for_file work wanted ;;
          if falsy found then
            unless_responded (b <- missing_output_body ;; send_json 500 b) ;;
            cleanup work
          else
            data <- call (ReadFile (string_of found))
                         (fun h => readFile E h (string_of found)) ;;
            unless_responded
              (send_file (if fmt =? "gif" then "image/gif" else "video/mp4") data))
         (fun e =>
            unless_responded (send_json 500 (error_body "Failed to send file" e))))
      (cleanup work).

Definition render_listener (work fmt : string) (ev : event) : M unit :=
  match ev with
  | Error err => render_on_error work err
  | Close code => render_on_close work fmt code
  | _ => on_data ev
  end.


(** The [try] block of POST /render, on the destructured body. *)
Definition render_try (code : option json) (scene format quality : json) : M started :=
  if bad_code code then send_json 400 missing_code ;; ret None
  else
    let src := text_of code in
    let usesLatex := latex_re src in
    toolchain <-
      (if usesLatex then
         p <- cmdExists "latex" ["--version"] ;;
         q <- cmdExists "dvisvgm" ["--version"] ;;
         both <- await (promise_all p q) ;;
         let '(hasLatex, hasDvisvgm) := both in
         if negb hasLatex || negb hasDvisvgm then
           send_json 422 (latex_missing hasLatex hasDvisvgm) ;; ret false
         else ret true
       else ret true) ;;
    if negb toolchain then ret None
    else
      let qFlag := toLowerCase (String_ quality) in
      if negb (quality_re qFlag) then send_json 400 bad_quality ;; ret None
      else
        let fmt := toLowerCase (String_ format) in
        if negb (includes ["mp4"; "gif"] fmt) then
          send_json 400 bad_render_format ;; ret None
        else
          work <- call (Mkdtemp (path_join (tmpdir C) "manim-"))
                       (fun h => mkdtemp E h (path_join (tmpdir C) "manim-")) ;;
          modify (fun s => set_dirs (dirs s ++ [work]) s) ;;
          let pyFile := path_join work "scene.py" in
          call (WriteFile pyFile src) (fun h => writeFile E h pyFile src) ;;
          let outBase := "out" in
          let args := [JStr ("-" ++ qFlag); JStr "--format"; JStr fmt;
                       JStr "-o"; JStr outBase; JStr pyFile; scene] in
          preferredBin <-
            (if negb (falsy (MANIM_BIN C)) then ret (MANIM_BIN C)
             else
               let venvBin :=
                 path_join (path_join (path_join (REPO_ROOT C) ".manim-venv") "bin")
                           "manim" in
               try_catch
                 (call (Stat venvBin) (fun h => stat E h venvBin) ;;
                  ret (Some venvBin))
                 (fun _ => ret (MANIM_BIN C))) ;;
          let cmd := if negb (falsy preferredBin) then string_of preferredBin
                     else PYTHON_BIN C in
          let argv := if negb (falsy preferredBin) then args
                      else JStr "-m" :: JStr "manim" :: args in
          c <- call (Spawn cmd argv work) (fun h => spawn E h cmd argv work) ;;
          ret (Some (Registered c work (render_listener work fmt))).

Definition server_error (e : exn) : M started :=
  send_json 500 (error_body "Server error" e) ;; ret None.

Definition after_try (r : started) : M unit :=
  match r with
  | Some reg => listen (listener reg) (the_child reg)
  | None => ret tt
  end.

(** The [try { ... } catch (e) { ... }] of POST /render, [body] being
    [req.body]. *)
Definition render_setup (body : option json) : M started :=
  try_catch
    (render_try (field body "code")
                (default (field body "scene") (JStr "GeneratedScene"))
                (default (field body "format") (JStr "mp4"))
                (default (field body "quality") (JStr "ql")))
    server_error.

(** [app.post('/render', async (req, res) => ...)] and what its listeners
    do afterwards. *)
Definition post_render (body : option json) : M unit :=
  r <- render_setup body ;;
  after_try r.

(** **** POST /asy *)

Definition asy_missing : json :=
  JObj [("error", JStr "Asymptote not found");
        ("details", JStr "Install the `asymptote` binary in the environment.");
        ("hints", JArr [JStr "Debian/Ubuntu: apt-get update && apt-get install -y asymptote";
                        JStr "macOS: brew install asymptote"])].

Definition bad_asy_format : json :=
  JObj [("error", JStr "Invalid `format` (png|svg)")].

Definition asy_on_error (work : string) (err : exn) : M unit :=
  unless_responded (send_json 500 (error_body "Failed to run asymptote" err)) ;;
  cleanup work.

Definition asy_on_close (work fmt ext outStem : string) (code : option Z) : M unit :=
  if negb (code_is code 0) then
    unless_responded (b <- failure_body "Asymptote render failed" code ;;
                      send_json 500 b) ;;
    cleanup work
  else
    try_finally
      (try_catch
         (found <- walk_for_asy work ext outStem ;;
          if falsy found then
            unless_responded (b <- missing_output_body ;; send_json 500 b) ;;
            cleanup work
          else
            data <- call (ReadFile (string_of found))
                         (fun h => readFile E h (string_of found)) ;;
            unless_responded
              (send_file (if fmt =? "svg" then "image/svg+xml" else "image/png") data))
         (fun e =>
            unless_responded (send_json 500 (error_body "Failed to send file" e))))
      (cleanup work).

Definition asy_listener (work fmt ext outStem : string) (ev : event) : M unit :=
  match ev with
  | Error err => asy_on_error work err
  | Close code => asy_on_close work fmt ext outStem code
  | _ => on_data ev
  end.

(** The [try] block of POST /asy, on the destructured body. *)
Definition asy_try (code : option json) (format : json) : M started :=
  if bad_code code then send_json 400 missing_code ;; ret None
  else
    let src := text_of code in
    p <- cmdExists (ASY_BIN C) ["--version"] ;;
    hasAsy <- await p ;;
    if negb hasAsy then send_json 422 asy_missing ;; ret None
    else
      let fmt := toLowerCase (String_ format) in
      if negb (includes ["png"; "svg"] fmt) then
        send_json 400 bad_asy_format ;; ret None
      else
        work <- call (Mkdtemp (path_join (tmpdir C) "asy-"))
                     (fun h => mkdtemp E h (path_join (tmpdir C) "asy-")) ;;
        modify (fun s => set_dirs (dirs s ++ [work]) s) ;;
        let asyFile := path_join work "main.asy" in
        call (WriteFile asyFile src) (fun h => writeFile E h asyFile src) ;;
        let outStem := "out" in
        let ext := if fmt =? "svg" then "svg" else "png" in
        let args := [JStr "-f"; JStr fmt; JStr "-tex"; JStr "pdflatex";
                     JStr "-o"; JStr outStem; JStr asyFile] in
        x <- cmdExists (XVFB_BIN C) ["--help"] ;;
        useXvfb <- await (promise_catch x (fun _ => false)) ;;
        let cmd := if useXvfb then XVFB_BIN C else ASY_BIN C in
        let argv :=
          if useXvfb then
            JStr "-a" :: JStr "-s"
              :: JStr "-screen 0 1280x1024x24 -ac +extension GLX"
              :: JStr (ASY_BIN C) :: args
          else args in
        c <- call (Spawn cmd argv work) (fun h => spawn E h cmd argv work) ;;
        ret (Some (Registered c work (asy_listener work fmt ext outStem))).

Definition asy_setup (body : option json) : M started :=
  try_catch
    (asy_try (field body "code")
             (default (field body "format") (JStr "png")))
    server_error.

(** [app.post('/asy', async (req, res) => ...)] and what its listeners do
    afterwards. *)
Definition post_asy (body : option json) : M unit :=
  r <- asy_setup body ;;
  after_try r.

End Handlers.

(** One request, from the initial state. *)
Definition run_render (E : env) (C : config) (body : option json)
  : state * outcome unit :=
  post_render E C body init.

Definition run_asy (E : env) (C : config) (body : option json)
  : state * outcome unit :=
  post_asy E C body init.

(** *** Reading a trace *)

Definition is_send (e : effect) : bool :=
  match e with Send _ => true | _ => false end.

Definition is_rm (dir : string) (e : effect) : bool :=
  match e with Rm d => d =? dir | _ => false end.

Definition is_process (e : effect) : bool :=
  match e with Probe _ _ | Spawn _ _ _ => true | _ => false end.

Definition is_mkdtemp (e : effect) : bool :=
  match e with Mkdtemp _ => true | _ => false end.

Definition count (p : effect -> bool) (t : list effect) : nat :=
  length (filter p t).

Definition is_probe (e : effect) : bool :=
  match e with Probe _ _ => true | _ => false end.

Definition is_spawn (e : effect) : bool :=
  match e with Spawn _ _ _ => true | _ => false end.

(** The responses attempted in a run. *)
Definition sent (t : list effect) : list response :=
  flat_map (fun e => match e with Send r => [r] | _ => [] end) t.

(** The step of a request an effect belongs to: 1 the probe for a required
    tool, 2 the acquisition of the scratch directory, 3 the write of the
    source, 4 the choice of the command (the look for the bundled binary,
    the probe for the display wrapper), 5 the spawn, 6 the walk for the
    artifact, 7 its read, 8 the response, 9 the release.  A probe made
    once the directory exists chooses the command. *)
Definition rank (acquired : bool) (e : effect) : nat :=
  match e with
  | Probe _ _ => if acquired then 4 else 1
  | Mkdtemp _ => 2
  | WriteFile _ _ => 3
  | Stat _ => 4
  | Spawn _ _ _ => 5
  | Walk _ => 6
  | ReadFile _ => 7
  | Send _ => 8
  | Rm _ => 9
  end.

Fixpoint ranks (acquired : bool) (t : list effect) : list nat :=
  match t with
  | [] => []
  | e :: rest => rank acquired e :: ranks (acquired || is_mkdtemp e) rest
  end.

Fixpoint nondecreasing (l : list nat) : bool :=
  match l with
  | a :: (b :: _) as rest => (a <=? b)%nat && nondecreasing rest
  | _ => true
  end.

(** No effect of a later step comes before an effect of an earlier one. *)
Definition in_order (t : list effect) : bool := nondecreasing (ranks false t).

(** Nothing beyond the spawn has happened, and nothing out of order. *)
Definition quiet (t : list effect) : bool :=
  forallb (fun n => (n <=? 5)%nat) (ranks false t) && in_order t.

(** What the listeners add to the trace of a request whose child closes. *)
Inductive closing (work : string) : list effect -> Prop :=
| closing_exit r :
    status r = 500 -> closing work [Send r; Rm work]
| closing_unstarted r :
    status r = 500 -> closing work [Send r; Rm work; Rm work]
| closing_unreadable r :
    status r = 500 -> closing work [Walk work; Send r; Rm work]
| closing_missing r :
    status r = 500 -> closing work [Walk work; Send r; Rm work; Rm work]
| closing_found f r :
    status r = 200 \/ status r = 500 ->
    closing work [Walk work; ReadFile f; Send r; Rm work].

(** The output a child has written, appended to [stdout] and [stderr]. *)
Definition absorb (out : list chunk) (oe : string * string) : string * string :=
  fold_left (fun acc k => match k with
                          | Out d => (fst acc ++ d, snd acc)
                          | Err d => (fst acc, snd acc ++ d)
                          end) out oe.

(** What a run must satisfy, [setup] being what its [try] block left. *)
Definition sound_run (E : env) (setup : state * outcome started)
           (final : state * outcome unit) : Prop :=
  (forall e, snd final <> Thrown e)
  /\ in_order (trace (fst final)) = true
  /\ count is_send (trace (fst final)) <= 1
  /\ (snd final = Done tt -> count is_send (trace (fst final)) = 1)
  /\ forall reg,
      snd setup = Done (Some reg) ->
      closes (the_child reg) = true ->
      snd final = Done tt
      /\ dirs (fst setup) = [workdir reg]
      /\ 1 <= count (is_rm (workdir reg)) (trace (fst final)) <= 2
      /\ (forall d, In (Rm d) (trace (fst final)) -> d = workdir reg)
      /\ ((forall h, rm E h (workdir reg) = inr tt) ->
          ~ In (workdir reg) (dirs (fst final))).


(** The selectors of a request pass the validation of the route. *)
Definition render_selectors (format quality : json) : bool :=
  quality_re (toLowerCase (String_ quality))
  && includes ["mp4"; "gif"] (toLowerCase (String_ format)).

Definition asy_selector (format : json) : bool :=
  includes ["png"; "svg"] (toLowerCase (String_ format)).

(** What [cmdExists] resolves to, from what spawning the probe yields. *)
Definition availability (r : exn + child) : promise bool :=
  match r with
  | inl _ => Fulfilled false
  | inr c =>
      match ending_of c with
      | Exits code => Fulfilled (code_is code 0 || code_is code 1)
      | SpawnFails _ _ => Fulfilled false
      | Hangs => Forever
      end
  end.

End Render.

(* ===================================================================== *)
(** ** The web server's proxies: POST /api/manim-proxy, POST /api/asy-proxy *)
(* ===================================================================== *)

Module Proxy.

(** The request [fetch] is given. *)
Record request : Type := Request {
  url : string;
  method : string;
  req_headers : list (string * string);
  req_body : string
}.

(** The upstream's response as the handler reads it: [r.status],
    [r.headers.get('content-type')], and what [r.text()] and
    [r.arrayBuffer()] settle to. *)
Record upstream : Type := Upstream {
  up_status : nat;
  up_content_type : option string;
  up_text : exn + string;
  up_bytes : exn + string
}.

(** [r.ok] *)
Definition ok (r : upstream) : bool :=
  (200 <=? up_status r)%nat && (up_status r <=? 299)%nat.

(** [target.replace(/\/$/, '')] *)
Fixpoint strip_slash (s : string) : string :=
  match s with
  | EmptyString => EmptyString
  | String c rest =>
      if Ascii.eqb c "/" && (rest =? "") then EmptyString
      else String c (strip_slash rest)
  end.

(** [String(e?.message || e)] *)
Definition describe (e : exn) : string :=
  if message e =? "" then shown e else message e.

(** [req.body || {}] *)
Definition or_empty (body : option json) : json :=
  match body with
  | Some v => if truthy body then v else JObj []
  | None => JObj []
  end.

Definition and_then {A B} (m : exn + A) (k : A -> exn + B) : exn + B :=
  match m with
  | inl e => inl e
  | inr a => k a
  end.

Section Routes.

(** [JSON.parse] ([None] when it throws) and [JSON.stringify]. *)
Variable JSON_parse : string -> option json.
Variable JSON_stringify : json -> string.

(** [process.env.MANIM_SERVICE_URL] and the network. *)
Variable MANIM_SERVICE_URL : option string.
Variable fetch : request -> exn + upstream.

Definition safeJson (s : string) : json :=
  match JSON_parse s with
  | Some v => v
  | None => JStr s
  end.

Definition not_configured : response :=
  reply 500 (JObj [("error", JStr "MANIM_SERVICE_URL not configured")]).

(** The request a route sends upstream: [fetch(target.replace(/\/$/, '') +
    path, { method: 'POST', headers: {...}, body: JSON.stringify(req.body
    || {}) })]. *)
Definition forwarded (path : string) (body : option json) : request :=
  {| url := strip_slash (string_of MANIM_SERVICE_URL) ++ path;
     method := "POST";
     req_headers := [("Content-Type", "application/json")];
     req_body := JSON_stringify (or_empty body) |}.

(** [app.post('/api/manim-proxy', ...)]: the requests made and the reply. *)
Definition manim_proxy (body : option json) : list request * response :=
  let target := MANIM_SERVICE_URL in
  if falsy target then ([], not_configured)
  else
    let rq := forwarded "/render" body in
    ([rq],
     match
       and_then (fetch rq) (fun r =>
         if negb (ok r) then
           and_then (up_text r) (fun text =>
             inr (reply 502
                    (JObj [("error", JStr "Upstream manim error");
                           ("status", JNum (Z.of_nat (up_status r)));
                           ("body", safeJson text)])))
         else
           let ct := Render.or_else (up_content_type r) "application/octet-stream" in
           and_then (up_bytes r) (fun buf =>
             inr {| status := 200;
                    headers := [("Content-Type", JStr ct);
                                ("Content-Length", JNum (Z.of_nat (String.length buf)))];
                    content := Binary buf |}))
     with
     | inr reply => reply
     | inl e =>
         reply 502 (JObj [("error", JStr "Failed to reach manim service");
                               ("details", JStr (describe e))])
     end).

(** [app.post('/api/asy-proxy', ...)] *)
Definition asy_proxy (body : option json) : list request * response :=
  let target := MANIM_SERVICE_URL in
  if falsy target then ([], not_configured)
  else
    let rq := forwarded "/asy" body in
    ([rq],
     match
       and_then (fetch rq) (fun r =>
         if negb (ok r) then
           and_then (up_text r) (fun text =>
             inr (reply 502
                    (JObj [("error", JStr "Upstream asymptote error");
                           ("status", JNum (Z.of_nat (up_status r)));
                           ("body", safeJson text)])))
         else
           let ct := Render.or_else (up_content_type r) "application/octet-stream" in
           and_then (up_bytes r) (fun buf =>
             inr {| status := 200;
                    headers := [("Content-Type", JStr ct);
                                ("Content-Length", JNum (Z.of_nat (String.length buf)))];
                    content := Binary buf |}))
     with
     | inr reply => reply
     | inl e =>
         reply 502 (JObj [("error", JStr "Failed to reach asymptote service");
                               ("details", JStr (describe e))])
     end).

End Routes.

End Proxy.

Import Render.

(* ===================================================================== *)
(** ** Sample hosts and requests *)
(* ===================================================================== *)

Module Hosts.

Definition cfg : config := config_of (fun _ => None) "/srv/edugen" "/tmp".

Definition enoent (what : string) : exn :=
  {| message := what ++ " ENOENT"; shown := "Error: " ++ what ++ " ENOENT" |}.

Definition enospc : exn :=
  {| message := "ENOSPC: no space left on device, write";
     shown := "Error: ENOSPC: no space left on device, write" |}.

(** What the two tools leave in a scratch directory. *)
Definition rendered : list dirent :=
  [File "main.asy";
   Dir "media" [Dir "videos" [Dir "scene" [Dir "480p15" [File "out.mp4"]]]];
   File "out.png";
   File "out.svg";
   File "scene.py"].

(** A host on which every tool is installed and every call succeeds, the
    bundled virtual environment apart. *)
Definition host : env :=
  {| probe := fun _ _ _ => inr (Child [] (Exits (Some 0%Z)));
     mkdtemp := fun _ prefix => inr (prefix ++ "Ab12Cd");
     writeFile := fun _ _ _ => inr tt;
     stat := fun _ file => inl (enoent ("stat " ++ file));
     spawn := fun _ _ _ _ =>
                inr (Child [Err "rendering"; Out "done"] (Exits (Some 0%Z)));
     readdir := fun _ _ => inr rendered;
     readFile := fun _ _ => inr "artifact bytes";
     send := fun _ _ => inr tt;
     rm := fun _ _ => inr tt |}.

(** The host with one command missing from the path. *)
Definition without (tool : string) (E : env) : env :=
  {| probe := fun h cmd args =>
                if cmd =? tool
                then inr (Child [] (SpawnFails (enoent ("spawn " ++ tool)) 2))
                else probe E h cmd args;
     mkdtemp := mkdtemp E; writeFile := writeFile E; stat := stat E;
     spawn := spawn E; readdir := readdir E; readFile := readFile E;
     send := send E; rm := rm E |}.

(** The host with a full disk: the source cannot be written. *)
Definition disk_full (E : env) : env :=
  {| probe := probe E; mkdtemp := mkdtemp E;
     writeFile := fun _ _ _ => inl enospc;
     stat := stat E; spawn := spawn E; readdir := readdir E;
     readFile := readFile E; send := send E; rm := rm E |}.

(** The host on which the tool exits with 0 and leaves no artifact. *)
Definition no_artifact (E : env) : env :=
  {| probe := probe E; mkdtemp := mkdtemp E; writeFile := writeFile E;
     stat := stat E; spawn := spawn E;
     readdir := fun _ _ => inr [File "main.asy"; File "scene.py"];
     readFile := readFile E; send := send E; rm := rm E |}.

(** The host on which the renderer itself cannot be started. *)
Definition no_renderer (E : env) : env :=
  {| probe := probe E; mkdtemp := mkdtemp E; writeFile := writeFile E;
     stat := stat E;
     spawn := fun _ cmd _ _ =>
                inr (Child [] (SpawnFails (enoent ("spawn " ++ cmd)) 2));
     readdir := readdir E; readFile := readFile E; send := send E; rm := rm E |}.

(** The host on which [res.send] throws on the artifact. *)
Definition broken_pipe (E : env) : env :=
  {| probe := probe E; mkdtemp := mkdtemp E; writeFile := writeFile E;
     stat := stat E; spawn := spawn E; readdir := readdir E;
     readFile := readFile E;
     send := fun _ _ => inl {| message := "write EPIPE"; shown := "Error: write EPIPE" |};
     rm := rm E |}.

Definition request (fields : list (string * json)) : option json :=
  Some (JObj fields).

(** A serialiser that agrees with [JSON.stringify] on the values whose
    strings need no escape, and a parser that knows the one text the
    sample upstream answers with. *)
Fixpoint sample_stringify (v : json) : string :=
  match v with
  | JNull => "null"
  | JBool true => "true"
  | JBool false => "false"
  | JNum n => Z_to_string n
  | JStr s => dq ++ s ++ dq
  | JArr items => "[" ++ String.concat "," (map sample_stringify items) ++ "]"
  | JObj fields =>
      "{" ++ String.concat ","
               (map (fun kv => dq ++ fst kv ++ dq ++ ":" ++ sample_stringify (snd kv))
                    fields) ++ "}"
  end.

Definition sample_parse (s : string) : option json :=
  if s =? "{}" then Some (JObj []) else None.

(** An upstream that refuses what it is sent, and one that renders. *)
Definition refusing (rq : Proxy.request) : exn + Proxy.upstream :=
  inr {| Proxy.up_status := 400; Proxy.up_content_type := Some "application/json";
         Proxy.up_text := inr "{}"; Proxy.up_bytes := inr "{}" |}.

Definition rendering (rq : Proxy.request) : exn + Proxy.upstream :=
  inr {| Proxy.up_status := 200; Proxy.up_content_type := Some "video/mp4";
         Proxy.up_text := inr "artifact bytes";
         Proxy.up_bytes := inr "artifact bytes" |}.

End Hosts.
Import Hosts.

(* ===================================================================== *)
(** ** Where a tree holds a regular file *)
(* ===================================================================== *)

Module Tree.

(** [file_at cur entries name p]: under the directory [cur], whose listing
    is [entries], a regular file called [name] lies at the path [p], at
    any depth. *)
Inductive file_at : string -> list dirent -> string -> string -> Prop :=
| file_here cur entries name :
    In (File name) entries ->
    file_at cur entries name (path_join cur name)
| file_below cur entries d children name p :
    In (Dir d children) entries ->
    file_at (path_join cur d) children name p ->
    file_at cur entries name p.

(** The path [p] lies under the directory [dir]. *)
Definition inside (dir p : string) : Prop :=
  exists rest, p = path_join dir rest.

End Tree.
Import Tree.


(* ===================================================================== *)
(** ** What the render routes are expected to hand to the system *)
(* ===================================================================== *)

Module Expected.


(** [path.join(REPO_ROOT, '.manim-venv', 'bin', 'manim')] *)
Definition venv_bin (C : config) : string :=
  path_join (path_join (path_join (REPO_ROOT C) ".manim-venv") "bin") "manim".

(** The arguments of the animation tool, for the quality flag, the format,
    the scratch directory and the scene. *)
Definition manim_args (q fmt work : string) (scene : json) : list json :=
  [JStr ("-" ++ q); JStr "--format"; JStr fmt; JStr "-o"; JStr "out";
   JStr (path_join work "scene.py"); scene].

(** The arguments of the vector-graphics tool, and those of the display
    wrapper around it. *)
Definition asy_args (fmt work : string) : list json :=
  [JStr "-f"; JStr fmt; JStr "-tex"; JStr "pdflatex"; JStr "-o"; JStr "out";
   JStr (path_join work "main.asy")].

Definition xvfb_args (asy : string) (args : list json) : list json :=
  JStr "-a" :: JStr "-s" :: JStr "-screen 0 1280x1024x24 -ac +extension GLX"
    :: JStr asy :: args.

(** The response that carries an artifact. *)
Definition artifact_response (ct data : string) : response :=
  {| status := 200;
     headers := [("Content-Type", JStr ct);
                 ("Content-Length", JNum (Z.of_nat (String.length data)))];
     content := Binary data |}.

(** The content type of each route, from the lower-case format. *)
Definition render_type (fmt : string) : string :=
  if fmt =? "gif" then "image/gif" else "video/mp4".

Definition asy_type (fmt : string) : string :=
  if fmt =? "svg" then "image/svg+xml" else "image/png".

(** What the listeners may do once the child is there: walk and remove the
    scratch directory, read an artifact of it, answer 500, or answer with
    the bytes an artifact was read to hold.  [artifact] tells the paths
    the route takes for its artifacts. *)
Definition confined (E : env) (work ct : string) (artifact : string -> Prop)
           (e : effect) : Prop :=
  match e with
  | Walk d | Rm d => d = work
  | ReadFile f => artifact f
  | Send r =>
      status r = 500
      \/ exists h f data,
          artifact f /\ readFile E h f = inr data
          /\ r = artifact_response ct data
  | _ => False
  end.

(** The artifacts of the two routes: a file of the scratch directory
    called [out.<fmt>], and one whose name ends in [.<ext>]. *)
Definition render_artifact (work fmt f : string) : Prop :=
  inside work f /\ endsWith f ("/out." ++ fmt) = true.

Definition asy_artifact (work ext f : string) : Prop :=
  inside work f /\ endsWith f ("." ++ ext) = true.


(** What a child wrote on each of its two streams, in the order written. *)
Definition stdout_of (out : list chunk) : string :=
  String.concat "" (flat_map (fun k => match k with Out d => [d] | Err _ => [] end) out).

Definition stderr_of (out : list chunk) : string :=
  String.concat "" (flat_map (fun k => match k with Err d => [d] | Out _ => [] end) out).

End Expected.
Import Expected.


(* ===================================================================== *)
(** ** More sample hosts *)
(* ===================================================================== *)

Module Failures.

(** The host on which the tool stops with exit code 1 after it has
    written on both streams. *)
Definition crashing (E : env) : env :=
  {| probe := probe E; mkdtemp := mkdtemp E; writeFile := writeFile E;
     stat := stat E;
     spawn := fun _ _ _ _ =>
                inr (Child [Out "Manim Community v0.18"; Err "Traceback: ";
                            Out "."; Err "NameError"]
                           (Exits (Some 1%Z)));
     readdir := readdir E; readFile := readFile E; send := send E; rm := rm E |}.

(** The host on which the tool never exits and closes no stream. *)
Definition hanging (E : env) : env :=
  {| probe := probe E; mkdtemp := mkdtemp E; writeFile := writeFile E;
     stat := stat E;
     spawn := fun _ _ _ _ => inr (Child [Out "rendering"] Hangs);
     readdir := readdir E; readFile := readFile E; send := send E; rm := rm E |}.

End Failures.
Import Failures.


(* ===================================================================== *)
(** ** The render service at start-up: TeX binaries on the [PATH] *)
(* ===================================================================== *)

Module Startup.

(** [s.includes(sub)] on strings: [sub] occurs somewhere in [s]. *)
Fixpoint occurs (sub s : string) : bool :=
  prefix sub s
  || match s with
     | EmptyString => false
     | String _ rest => occurs sub rest
     end.

(** [const TEXBIN = process.env.TEXBIN || '/Library/TeX/texbin'] *)
Definition TEXBIN (environ : string -> option string) : string :=
  or_else (environ "TEXBIN") "/Library/TeX/texbin".

(** What [process.env.PATH] is once the module is loaded:
    [if (process.env.PATH && !process.env.PATH.includes(TEXBIN))
       process.env.PATH = `${TEXBIN}:${process.env.PATH}`] *)
Definition path_after (environ : string -> option string) : option string :=
  match environ "PATH" with
  | Some p =>
      if negb (p =? "") && negb (occurs (TEXBIN environ) p)
      then Some (TEXBIN environ ++ ":" ++ p)
      else Some p
  | None => None
  end.

(** [s.split(':')]: the entries of a [PATH]. *)
Fixpoint path_entries (s : string) : list string :=
  match s with
  | EmptyString => [EmptyString]
  | String c rest =>
      if Ascii.eqb c ":" then EmptyString :: path_entries rest
      else match path_entries rest with
           | e :: more => String c e :: more
           | [] => [String c EmptyString]
           end
  end.

(** The environment with [PATH] set to [v]. *)
Definition with_path (environ : string -> option string) (v : option string)
  : string -> option string :=
  fun k => if k =? "PATH" then v else environ k.

End Startup.
Import Startup.


(* ===================================================================== *)
(** ** The web server's share store: POST /api/share, GET /s/:id.json *)
(* ===================================================================== *)

Module Share.

(** What a handler reads of [req]: [req.headers] (Node gives the names in
    lower case), [req.protocol] and [req.body]. *)
Record inbound : Type := Inbound {
  in_headers : list (string * string);
  protocol : string;
  body : option json
}.

Fixpoint header (k : string) (hs : list (string * string)) : option string :=
  match hs with
  | [] => None
  | (k', v) :: rest => if k' =? k then Some v else header k rest
  end.

(** [reqBaseUrl(req)] *)
Definition reqBaseUrl (rq : inbound) : string :=
  let proto := or_else (header "x-forwarded-proto" (in_headers rq))
                       (or_else (Some (protocol rq)) "http") in
  let host := or_else (header "x-forwarded-host" (in_headers rq))
                      (or_else (header "host" (in_headers rq)) "localhost") in
  proto ++ "://" ++ host.

Definition chars : string := "abcdefghijklmnopqrstuvwxyz0123456789".

(** [chars[i]] as [s += chars[i]] appends it: out of range it is
    [undefined], which is appended as the text of that word. *)
Definition char_at (i : nat) : string :=
  match String.get i chars with
  | Some c => String c EmptyString
  | None => "undefined"
  end.

(** The files under [SHARE_DIR], by path, the latest write first, and the
    number of calls of [Math.random] made so far. *)
Record world : Type := World {
  files : list (string * string);
  drawn : nat
}.

(** *** [path.join] of Node, on POSIX
    [path.join] joins its arguments with a slash and normalises the
    result: empty segments and [.] are dropped, and [..] takes the segment
    before it away. *)

(** [s.split('/')] *)
Fixpoint segments (s : string) : list string :=
  match s with
  | EmptyString => [EmptyString]
  | String c rest =>
      if Ascii.eqb c "/" then EmptyString :: segments rest
      else match segments rest with
           | seg :: more => String c seg :: more
           | [] => [String c EmptyString]
           end
  end.

(** What [normalizeString] does at the end of one segment, [kept] being
    the segments of its result so far, the last one first. *)
Definition resolve_segment (allowAboveRoot : bool) (kept : list string)
           (seg : string) : list string :=
  if (seg =? "") || (seg =? ".") then kept
  else if seg =? ".." then
    match kept with
    | last :: before =>
        if last =? ".." then (if allowAboveRoot then ".." :: kept else kept)
        else before
    | [] => if allowAboveRoot then [".."] else []
    end
  else seg :: kept.

Definition normalizeString (path : string) (allowAboveRoot : bool) : string :=
  String.concat "/" (rev (fold_left (resolve_segment allowAboveRoot) (segments path) [])).

Fixpoint last_unit (s : string) : option ascii :=
  match s with
  | EmptyString => None
  | String c EmptyString => Some c
  | String _ rest => last_unit rest
  end.

Definition is_slash (c : option ascii) : bool :=
  match c with
  | Some c => Ascii.eqb c "/"
  | None => false
  end.

(** [path.normalize(path)] *)
Definition normalize (path : string) : string :=
  if path =? "" then "."
  else
    let isAbsolute := is_slash (String.get 0 path) in
    let trailingSeparator := is_slash (last_unit path) in
    let p := normalizeString path (negb isAbsolute) in
    if p =? "" then
      if isAbsolute then "/" else if trailingSeparator then "./" else "."
    else
      let p := if trailingSeparator then p ++ "/" else p in
      if isAbsolute then "/" ++ p else p.

(** [path.join(a, b)]: the arguments that are not empty, joined with a
    slash and normalised. *)
Definition join (a b : string) : string :=
  if a =? "" then (if b =? "" then "." else normalize b)
  else if b =? "" then normalize a
  else normalize (a ++ "/" ++ b).

(** [id] holds no separator. *)
Fixpoint plain (id : string) : bool :=
  match id with
  | EmptyString => true
  | String c rest => negb (Ascii.eqb c "/") && plain rest
  end.

(** [v && typeof v === 'object' ? v : {}] *)
Definition object_or_empty (v : option json) : json :=
  match v with
  | Some (JObj fields) => JObj fields
  | Some (JArr items) => JArr items
  | _ => JObj []
  end.

Section Server.

Variable JSON_stringify : json -> string.

(** [process.env.SHARE_DIR || path.join(os.tmpdir(), 'edugen-shares')] *)
Variable SHARE_DIR : string.

(** The [k]-th value of [Math.floor(Math.random() * chars.length)] since
    the server started. *)
Variable random_index : nat -> nat.

(** [new Date().toISOString()] while the request is handled. *)
Variable now : string.

(** The failure of [fs.writeFile] on a path, if it is to fail. *)
Variable write_error : string -> option exn.

(** The loop of [makeId]: [for (let i = 0; i < len; i++) s += chars[...]],
    [k] being the number of draws made before. *)
Fixpoint makeId_from (len k : nat) (s : string) : string :=
  match len with
  | 0 => s
  | S n => makeId_from n (S k) (s ++ char_at (random_index k))
  end.

(** [makeId(len)] *)
Definition makeId (len : nat) (w : world) : string * world :=
  (makeId_from len (drawn w) "",
   {| files := files w; drawn := drawn w + len |}).

(** [path.join(SHARE_DIR, `${id}.json`)] *)
Definition share_file (id : string) : string :=
  join SHARE_DIR (id ++ ".json").

(** [fs.access(p)] resolves, [fs.readFile(p, 'utf8')] *)
Definition readFile (w : world) (p : string) : option string :=
  header p (files w).

Definition access (w : world) (p : string) : bool :=
  match readFile w p with Some _ => true | None => false end.

(** [for (let i = 0; i < 5; i++) { try { await fs.access(...); id =
    makeId(10); } catch { break; } }], [rounds] being the rounds left. *)
Fixpoint avoid_collisions (rounds : nat) (id : string) (w : world) : string * world :=
  match rounds with
  | 0 => (id, w)
  | S n =>
      if access w (share_file id) then
        let '(id', w') := makeId 10 w in avoid_collisions n id' w'
      else (id, w)
  end.

Definition missing_md : response :=
  reply 400 (JObj [("error", JStr "Missing `md` (string)")]).

(** The [payload] of POST /api/share, for a body whose [md] is [md]. *)
Definition payload_of (rq : inbound) (md : string) : json :=
  JObj [("md", JStr md);
        ("images", object_or_empty (field (body rq) "images"));
        ("videos", object_or_empty (field (body rq) "videos"));
        ("interactive", object_or_empty (field (body rq) "interactive"));
        ("sizes", object_or_empty (field (body rq) "sizes"));
        ("createdAt", JStr now);
        ("version", JNum 1)].

(** [app.post('/api/share', ...)]; [ensureShareDir] swallows what
    [fs.mkdir] does. *)
Definition post_share (rq : inbound) (w : world) : world * response :=
  match field (body rq) "md" with
  | Some (JStr md) =>
      let '(id0, w0) := makeId 10 w in
      let '(id, w1) := avoid_collisions 5 id0 w0 in
      match write_error (share_file id) with
      | Some e =>
          (w1, reply 500 (JObj [("error", JStr "Failed to create share");
                                ("details", JStr (Proxy.describe e))]))
      | None =>
          ({| files := (share_file id, JSON_stringify (payload_of rq md)) :: files w1;
              drawn := drawn w1 |},
           reply 200 (JObj [("id", JStr id);
                            ("url", JStr (reqBaseUrl rq ++ "/s/" ++ id))]))
      end
  | _ => (w, missing_md)
  end.

(** [app.get('/s/:id.json', ...)], [id] being [req.params.id]. *)
Definition get_share (id : string) (w : world) : response :=
  match readFile w (share_file id) with
  | Some data =>
      {| status := 200;
         headers := [("Content-Type", JStr "application/json")];
         content := Binary data |}
  | None => reply 404 (JObj [("error", JStr "Share not found")])
  end.

(** The [j]-th identifier a request draws, its first draw being the
    [k]-th of the server. *)
Definition candidate (k j : nat) : string :=
  makeId_from 10 (k + 10 * j) "".

End Server.

(** The characters of a string. *)
Fixpoint units (s : string) : list ascii :=
  match s with
  | EmptyString => []
  | String c rest => c :: units rest
  end.

End Share.


(* ===================================================================== *)
(** ** Reading a share identifier *)
(* ===================================================================== *)

Module Identifier.

(** Every character of [s] is one of [chars]. *)
Definition alphanumeric (s : string) : bool :=
  forallb (fun c => existsb (Ascii.eqb c) (Share.units Share.chars)) (Share.units s).

(** A sample source of draws, and a sample request to share. *)
Definition sample_draws (k : nat) : nat := (7 * k + 3) mod 36.

Definition sample_share : Share.inbound :=
  {| Share.in_headers := [("host", "edugen.example"); ("x-forwarded-proto", "https")];
     Share.protocol := "http";
     Share.body := request [("md", JStr "# Notes"); ("images", JNull);
                            ("sizes", JObj [("fig1", JNum 320)])] |}.

Definition empty_world : Share.world := {| Share.files := []; Share.drawn := 0 |}.

End Identifier.
Import Identifier.


(* ===================================================================== *)
(** ** The step an effect belongs to *)
(* ===================================================================== *)

Module Steps.

(** The probes for a required tool are the calls [cmdExists(cmd,
    ['--version'])]: of [latex] and [dvisvgm] on POST /render, of
    [ASY_BIN] on POST /asy.  The probe for the display wrapper is
    [cmdExists(XVFB_BIN, ['--help'])]. *)
Definition is_version (args : list string) : bool :=
  match args with
  | [a] => a =? "--version"
  | _ => false
  end.

(** The step of a request an effect belongs to, wherever it stands in the
    trace: 1 the probe for a required tool, 2 the acquisition of the
    scratch directory, 3 the write of the source, 4 the choice of the
    command (the look for the bundled binary, the probe for the display
    wrapper), 5 the spawn, 6 the walk for the artifact, 7 its read, 8 the
    response, 9 the release. *)
Definition step (e : effect) : nat :=
  match e with
  | Probe _ args => if is_version args then 1 else 4
  | Mkdtemp _ => 2
  | WriteFile _ _ => 3
  | Stat _ => 4
  | Spawn _ _ _ => 5
  | Walk _ => 6
  | ReadFile _ => 7
  | Send _ => 8
  | Rm _ => 9
  end.

(** No effect of a later step comes before an effect of an earlier one. *)
Definition stepwise (t : list effect) : bool := nondecreasing (map step t).

End Steps.
Import Steps.


(* ===================================================================== *)
(** * Properties *)
(* ===================================================================== *)

(** ** The string primitives, on examples *)

Example latex_re_call : latex_re "x = MathTex (r'a')" = true.
Proof. reflexivity. Qed.

Example latex_re_inside_a_word : latex_re "SingleStringMathTex(1)" = false.
Proof. reflexivity. Qed.

Example toLowerCase_format : toLowerCase "MP4" = "mp4".
Proof. reflexivity. Qed.

Example String_of_array : String_ (JArr [JStr "MP4"]) = "MP4".
Proof. reflexivity. Qed.

(** ** The artifact locators *)

Example findFileRecursive_nested :
  findFileRecursive "/w" [File "scene.py"; Dir "media" [Dir "videos" [File "out.mp4"]]]
                    "out.mp4" = Some "/w/media/videos/out.mp4".
Proof. reflexivity. Qed.

Example findAsyOutput_below :
  findAsyOutput "/w" [File "main.asy"; File "fig.svg"; Dir "d" [File "out-1.svg"]]
                "svg" "out" = Some "/w/d/out-1.svg".
Proof. reflexivity. Qed.

Lemma subtree_dir cur name children :
  subtree cur (Dir name children) = traversal (path_join cur name) children.
Proof.
  simpl. induction children as [|e rest IH]; [reflexivity|].
  destruct e; simpl; rewrite IH; reflexivity.
Qed.

Lemma order_cons cur entries stack :
  order ((cur, entries) :: stack) = (traversal cur entries ++ order stack)%list.
Proof. reflexivity. Qed.

(** Scanning a listing meets its regular files first; what the pushed
    subdirectories hold comes after. *)
Lemma order_pushed cur entries :
  forall stack,
    (traversal cur entries ++ order stack
     = direct cur entries ++ order (pushed cur entries stack))%list.
Proof.
  induction entries as [|e rest IH]; intros stack; [reflexivity|].
  destruct e as [n|n children|n]; cbn [traversal direct pushed].
  - rewrite <- !app_comm_cons, IH. reflexivity.
  - rewrite <- app_assoc, subtree_dir, <- order_cons. apply IH.
  - apply IH.
Qed.

Lemma scan_file_spec fileName cur entries :
  forall stack,
    scan_file fileName cur entries stack
    = match find (fun v : visit => fst v =? fileName) (direct cur entries) with
      | Some v => inl (snd v)
      | None => inr (pushed cur entries stack)
      end.
Proof.
  induction entries as [|e rest IH]; intros stack; [reflexivity|].
  destruct e as [n|n children|n]; cbn [scan_file direct pushed find fst snd ent_name].
  - destruct (n =? fileName); [reflexivity | apply IH].
  - apply IH.
  - apply IH.
Qed.

Lemma find_app {A} (f : A -> bool) (l1 l2 : list A) :
  find f (l1 ++ l2) = match find f l1 with Some a => Some a | None => find f l2 end.
Proof.
  induction l1 as [|a l1 IH]; simpl; [reflexivity|].
  destruct (f a); [reflexivity | apply IH].
Qed.

Lemma walk_file_spec fileName stack :
  walk_file fileName stack
  = option_map snd (find (fun v : visit => fst v =? fileName) (order stack)).
Proof.
  funelim (walk_file fileName stack).
  - reflexivity.
  - clear H Heqcall.
    rewrite order_cons, order_pushed, find_app.
    rewrite scan_file_spec in e.
    destruct (find _ (direct cur entries)) as [v|]; [|discriminate].
    inversion e; subst. reflexivity.
  - clear H0 Heqcall.
    rewrite order_cons, order_pushed, find_app.
    rewrite scan_file_spec in Hscan.
    destruct (find _ (direct cur entries)) as [v|]; [discriminate|].
    inversion Hscan; subst. assumption.
Qed.

Lemma scan_asy_spec pref ext cur entries :
  forall stack candidates,
    scan_asy pref ext cur entries stack candidates
    = match find (fun v : visit => includes pref (fst v)) (direct cur entries) with
      | Some v => inl (snd v)
      | None =>
          inr (pushed cur entries stack,
               (candidates
                ++ map snd (filter (fun v : visit => endsWith (fst v) ("." ++ ext))
                                   (direct cur entries)))%list)
      end.
Proof.
  induction entries as [|e rest IH]; intros stack candidates.
  - simpl. rewrite app_nil_r. reflexivity.
  - destruct e as [n|n children|n];
      cbn [scan_asy direct pushed find filter fst snd ent_name map].
    + destruct (includes pref n); [reflexivity|].
      destruct (endsWith n _); rewrite IH;
        destruct (find _ (direct cur rest)); try reflexivity.
      cbn [map]. rewrite <- app_assoc. reflexivity.
    + apply IH.
    + apply IH.
Qed.

Lemma walk_asy_spec pref ext stack candidates :
  walk_asy pref ext stack candidates
  = match find (fun v : visit => includes pref (fst v)) (order stack) with
    | Some v => Some (snd v)
    | None =>
        first_or_null
          (candidates
           ++ map snd (filter (fun v : visit => endsWith (fst v) ("." ++ ext))
                              (order stack)))%list
    end.
Proof.
  funelim (walk_asy pref ext stack candidates).
  - simpl. rewrite app_nil_r. reflexivity.
  - clear H Heqcall.
    rewrite order_cons, order_pushed, find_app.
    rewrite scan_asy_spec in e.
    destruct (find _ (direct cur entries)) as [v|]; [|discriminate].
    inversion e; subst. reflexivity.
  - clear H0 Heqcall.
    rewrite order_cons, order_pushed, find_app, filter_app, map_app.
    rewrite scan_asy_spec in Hscan.
    destruct (find _ (direct cur entries)) as [v|]; [discriminate|].
    inversion Hscan; subst. rewrite H. rewrite <- app_assoc. reflexivity.
Qed.

(** Induction on a listing entry, with the statement at hand for every
    entry below a directory. *)
Lemma dirent_nested_ind (P : dirent -> Prop) :
  (forall n, P (File n)) ->
  (forall n, P (Other n)) ->
  (forall n children, Forall P children -> P (Dir n children)) ->
  forall e, P e.
Proof.
  intros HF HO HD.
  fix IH 1. intros [n|n children|n].
  - apply HF.
  - apply HD. induction children as [|c rest IHrest]; constructor.
    + apply IH.
    + apply IHrest.
  - apply HO.
Qed.

Lemma path_join_nonempty dir name : path_join dir name <> "".
Proof.
  unfold path_join. destruct dir; simpl; discriminate.
Qed.

Lemma traversal_paths_aux (children : list dirent) :
  Forall (fun e => forall cur v, In v (subtree cur e) -> snd v <> "") children ->
  forall cur v, In v (traversal cur children) -> snd v <> "".
Proof.
  induction 1 as [|e rest He _ IH]; intros cur v Hin; simpl in Hin; [contradiction|].
  destruct e as [n|n ch|n].
  - destruct Hin as [<-|Hin]; [apply path_join_nonempty | eauto].
  - apply in_app_or in Hin. destruct Hin as [Hin|Hin]; eauto.
  - eauto.
Qed.

Lemma subtree_paths e :
  forall cur v, In v (subtree cur e) -> snd v <> "".
Proof.
  induction e as [n|n|n children IH] using dirent_nested_ind; intros cur v Hin.
  - contradiction.
  - contradiction.
  - rewrite subtree_dir in Hin. eapply traversal_paths_aux; eauto.
Qed.

Lemma traversal_paths cur entries v :
  In v (traversal cur entries) -> snd v <> "".
Proof.
  apply traversal_paths_aux. apply Forall_forall. intros e _. apply subtree_paths.
Qed.

Lemma first_or_null_find (f : visit -> bool) (l : list visit) :
  (forall v, In v l -> snd v <> "") ->
  first_or_null (map snd (filter f l)) = option_map snd (find f l).
Proof.
  induction l as [|a l IH]; intros Hne; simpl; [reflexivity|].
  destruct (f a) eqn:Fa.
  - simpl. destruct (snd a =? "") eqn:Ea; [|reflexivity].
    apply String.eqb_eq in Ea. exfalso. apply (Hne a); [left; reflexivity | exact Ea].
  - apply IH. intros v Hv. apply Hne. right. exact Hv.
Qed.

Lemma direct_app cur l1 l2 :
  direct cur (l1 ++ l2) = (direct cur l1 ++ direct cur l2)%list.
Proof.
  induction l1 as [|e l1 IH]; [reflexivity|].
  destruct e; simpl; rewrite IH; reflexivity.
Qed.

Lemma direct_none cur (f : string -> bool) entries :
  (forall n, In (File n) entries -> f n = false) ->
  find (fun v : visit => f (fst v)) (direct cur entries) = None.
Proof.
  induction entries as [|e rest IH]; intros H; [reflexivity|].
  destruct e as [n|n ch|n]; simpl.
  - rewrite (H n) by (left; reflexivity). apply IH. intros m Hm. apply H. right. exact Hm.
  - apply IH. intros m Hm. apply H. right. exact Hm.
  - apply IH. intros m Hm. apply H. right. exact Hm.
Qed.

(** C4 (as amended).  [findAsyOutput] returns the first regular file met by
    the walk whose name is one of [stem.ext], [stem-0.ext], [stem-1.ext],
    whichever of the three the walk meets first; when the tree holds none of
    them, the first file met whose name ends in [.ext]; and [null] when no
    file matches.  In particular, when [out-0.svg] stands in the top-level
    listing and no regular file listed before it bears a preferred name, the
    result is the path of [out-0.svg]. *)
Theorem findAsyOutput_first_met dir root ext stem :
  findAsyOutput dir root ext stem
  = match find (fun v : visit => includes (preferred stem ext) (fst v))
               (traversal dir root) with
    | Some v => Some (snd v)
    | None =>
        option_map snd
          (find (fun v : visit => endsWith (fst v) ("." ++ ext)) (traversal dir root))
    end
  /\ forall before after,
      (forall n, In (File n) before -> includes (preferred "out" "svg") n = false) ->
      findAsyOutput dir (before ++ File "out-0.svg" :: after) "svg" "out"
      = Some (path_join dir "out-0.svg").
Proof.
  assert (Hgen : forall root' ext' stem',
    findAsyOutput dir root' ext' stem'
    = match find (fun v : visit => includes (preferred stem' ext') (fst v))
                 (traversal dir root') with
      | Some v => Some (snd v)
      | None =>
          option_map snd
            (find (fun v : visit => endsWith (fst v) ("." ++ ext')) (traversal dir root'))
      end).
  { intros root' ext' stem'. unfold findAsyOutput. rewrite walk_asy_spec.
    unfold order. cbn [flat_map fst snd]. rewrite app_nil_r.
    destruct (find _ (traversal dir root')); [reflexivity|].
    cbn [app]. apply first_or_null_find. intros v. apply traversal_paths. }
  split; [apply Hgen|].
  intros before after Hbefore. rewrite Hgen.
  pose proof (order_pushed dir (before ++ File "out-0.svg" :: after) []) as Hord.
  unfold order at 1 in Hord. cbn [flat_map] in Hord. rewrite app_nil_r in Hord.
  rewrite Hord, direct_app, !find_app.
  rewrite (direct_none dir (includes (preferred "out" "svg")) before Hbefore).
  reflexivity.
Qed.

Lemma findAsyOutput_first_met_witness :
  findAsyOutput "/tmp/asy-Ab12Cd"
                ([File "main.asy"; Dir "aux" [File "out.svg"]]
                   ++ File "out-0.svg" :: [File "out-1.svg"]) "svg" "out"
  = Some "/tmp/asy-Ab12Cd/out-0.svg".
Proof.
  apply (proj2 (findAsyOutput_first_met "/tmp/asy-Ab12Cd" [] "svg" "out")).
  intros n [H|[H|[]]]; [inversion H; reflexivity | discriminate].
Defined.

(** C4 (as stated) fails.  With [out-0.svg] and [out.svg] side by side the
    code returns [out-0.svg], which the walk meets first, where the ordered
    preference names [out.svg]; and in a tree that holds [out-0.svg] and
    [out-1.svg] but no [out.svg], with [out-0.svg] one level down, the code
    returns [out-1.svg]. *)
Lemma findAsyOutput_preference_unordered :
  findAsyOutput "/tmp/asy-Ab12Cd" [File "main.asy"; File "out-0.svg"; File "out.svg"]
                "svg" "out" = Some "/tmp/asy-Ab12Cd/out-0.svg"
  /\ findAsyOutput_spec "/tmp/asy-Ab12Cd"
                        [File "main.asy"; File "out-0.svg"; File "out.svg"]
                        "svg" "out" = Some "/tmp/asy-Ab12Cd/out.svg"
  /\ holds "/tmp/asy-Ab12Cd" [Dir "a" [File "out-0.svg"]; File "out-1.svg"] "out-0.svg" = true
  /\ holds "/tmp/asy-Ab12Cd" [Dir "a" [File "out-0.svg"]; File "out-1.svg"] "out-1.svg" = true
  /\ holds "/tmp/asy-Ab12Cd" [Dir "a" [File "out-0.svg"]; File "out-1.svg"] "out.svg" = false
  /\ findAsyOutput "/tmp/asy-Ab12Cd" [Dir "a" [File "out-0.svg"]; File "out-1.svg"]
                   "svg" "out" = Some "/tmp/asy-Ab12Cd/out-1.svg".
Proof. repeat split; reflexivity. Qed.

(** ** The availability prober *)

Lemma events_eq (c : child) :
  events c = (map data_event (output c)
              ++ match ending_of c with
                 | Exits code => [Close code]
                 | SpawnFails err errno => [Error err; Close (Some (Z.neg errno))]
                 | Hangs => []
                 end)%list.
Proof. reflexivity. Qed.

Lemma resolve_calls_output out rest :
  resolve_calls (map data_event out ++ rest) = resolve_calls rest.
Proof.
  induction out as [|k out IH]; [reflexivity|].
  destruct k; simpl; exact IH.
Qed.

Lemma cmdExists_eq E cmd args s :
  cmdExists E cmd args s
  = (set_trace (trace s ++ [Probe cmd args]) s,
     Done (availability (probe E (trace s) cmd args))).
Proof.
  unfold cmdExists, try_catch, bind, call, ret, availability.
  destruct (probe E (trace s) cmd args) as [e|c]; [reflexivity|].
  rewrite events_eq, resolve_calls_output.
  destruct (ending_of c); reflexivity.
Qed.

(** C3.  Whatever the command and the arguments, [cmdExists] returns a
    promise and throws nothing; when the probed process comes to an end the
    promise is fulfilled with a boolean, which is [true] exactly when the
    process ran to completion with exit code 0 or 1: a [spawn] that throws,
    a process that could not be started and every other exit status (a
    death by signal included) give [false]. *)
Theorem cmdExists_resolves E cmd args s :
  (forall c, probe E (trace s) cmd args = inr c -> closes c = true) ->
  exists b : bool,
    cmdExists E cmd args s
    = (set_trace (trace s ++ [Probe cmd args]) s, Done (Fulfilled b))
    /\ (b = true <->
        exists out code,
          probe E (trace s) cmd args = inr (Child out (Exits (Some code)))
          /\ (code = 0 \/ code = 1)%Z).
Proof.
  intros Hends. rewrite cmdExists_eq.
  destruct (probe E (trace s) cmd args) as [e|[out en]] eqn:Hp; simpl.
  - exists false. split; [reflexivity|]. split; [discriminate|].
    intros (o & c & H & _). discriminate.
  - destruct en as [code|err errno|].
    + exists (code_is code 0 || code_is code 1). split; [reflexivity|]. split.
      * intros H. destruct code as [z|]; [|discriminate].
        exists out, z. split; [reflexivity|].
        simpl in H. apply orb_true_iff in H. destruct H as [H|H];
          apply Z.eqb_eq in H; auto.
      * intros (o & z & H & Hz). inversion H; subst. simpl.
        destruct Hz as [-> | ->]; reflexivity.
    + exists false. split; [reflexivity|]. split; [discriminate|].
      intros (o & c & H & _). discriminate.
    + specialize (Hends _ eq_refl). discriminate.
Qed.

(** ** Running a handler symbolically *)

Lemma deliver_output (L : event -> M unit) out rest :
  (forall d, L (StdoutData d) = on_data (StdoutData d)) ->
  (forall d, L (StderrData d) = on_data (StderrData d)) ->
  forall t ds r o e,
    deliver L (map data_event out ++ rest)
            {| trace := t; dirs := ds; responded := r; stdout := o; stderr := e |}
    = deliver L rest
              {| trace := t; dirs := ds; responded := r;
                 stdout := fst (absorb out (o, e));
                 stderr := snd (absorb out (o, e)) |}.
Proof.
  intros H1 H2. induction out as [|k out IH]; intros t ds r o e; [reflexivity|].
  destruct k as [d|d]; cbn [map app deliver data_event].
  - unfold bind at 1. rewrite H1. cbn. apply IH.
  - unfold bind at 1. rewrite H2. cbn. apply IH.
Qed.

Ltac unfold_setup :=
  cbv [run_render run_asy post_render post_asy render_setup asy_setup
       render_try asy_try after_try
       server_error send_json call
       bind ret try_catch try_finally await modify get throw pending
       promise_all promise_catch set_trace set_dirs
       set_responded set_stdout set_stderr init
       trace dirs responded stdout stderr fst snd
       the_child workdir listener negb orb andb reply].

Ltac unfold_handlers :=
  unfold_setup;
  cbv [listen send_file unless_responded cleanup
       walk_for_file walk_for_asy failure_body
       missing_output_body render_listener asy_listener render_on_error
       render_on_close asy_on_error asy_on_close on_data remove_dir
       deliver closes output ending_of code_is
       bind ret try_catch try_finally modify get call send_json
       set_trace set_dirs set_responded set_stdout set_stderr
       trace dirs responded stdout stderr fst snd negb orb andb].

Ltac innermost x :=
  lazymatch x with
  | context [match ?y with _ => _ end] => innermost y
  | _ => x
  end.

Ltac break_match :=
  match goal with
  | |- context [match ?x with _ => _ end] =>
      let y := innermost x in
      first [ is_var y; destruct y | destruct y eqn:? ]
  end.

Ltac exec :=
  repeat first [ rewrite cmdExists_eq | progress unfold_handlers | break_match ].

Ltac exec_setup :=
  repeat first [ rewrite cmdExists_eq | progress unfold_setup | break_match ].

Lemma not_in_removed work (d : list string) :
  ~ In work (filter (fun x => if x =? work then false else true) d).
Proof.
  intros H. apply filter_In in H. destruct H as [_ H].
  rewrite String.eqb_refl in H. discriminate.
Qed.

Ltac rm_fails :=
  match goal with
  | H : forall h, rm _ h ?w = inr tt, H' : rm _ ?h ?w = inl _ |- _ =>
      rewrite H in H'; discriminate
  end.

Ltac absurd_code :=
  match goal with
  | H : (Z.neg _ =? _)%Z = true |- _ => discriminate H
  end.

Ltac close_shape :=
  first
    [ absurd_code
    | split; [reflexivity|];
      split;
      [ eexists; split;
        [ repeat rewrite <- app_assoc; cbn [app]; reflexivity
        | econstructor; first [ reflexivity | left; reflexivity | right; reflexivity ] ]
      | intros Hrm; first [ rm_fails | apply not_in_removed ] ] ].

(** Once the listeners of POST /render are registered: a child that closes
    brings the request to its end with one of the five closing sequences,
    a child that never closes leaves it pending with nothing done. *)
Lemma render_listen_shape E work fmt c t d o e :
  let '(s', r) :=
    listen (render_listener E work fmt) c
           {| trace := t; dirs := d; responded := false; stdout := o; stderr := e |} in
  match r with
  | Done _ =>
      closes c = true
      /\ (exists tail, trace s' = (t ++ tail)%list /\ closing work tail)
      /\ ((forall h, rm E h work = inr tt) -> ~ In work (dirs s'))
  | Pending => closes c = false /\ trace s' = t
  | Thrown _ => False
  end.
Proof.
  destruct c as [out en]. unfold listen. unfold bind at 1.
  rewrite events_eq. cbn [output ending_of].
  rewrite deliver_output by reflexivity.
  generalize (fst (absorb out (o, e))) (snd (absorb out (o, e))). intros o' e'.
  destruct en as [code|err errno|].
  - exec; close_shape.
  - exec; close_shape.
  - exec. split; reflexivity.
Qed.

Lemma asy_listen_shape E work fmt ext stem c t d o e :
  let '(s', r) :=
    listen (asy_listener E work fmt ext stem) c
           {| trace := t; dirs := d; responded := false; stdout := o; stderr := e |} in
  match r with
  | Done _ =>
      closes c = true
      /\ (exists tail, trace s' = (t ++ tail)%list /\ closing work tail)
      /\ ((forall h, rm E h work = inr tt) -> ~ In work (dirs s'))
  | Pending => closes c = false /\ trace s' = t
  | Thrown _ => False
  end.
Proof.
  destruct c as [out en]. unfold listen. unfold bind at 1.
  rewrite events_eq. cbn [output ending_of].
  rewrite deliver_output by reflexivity.
  generalize (fst (absorb out (o, e))) (snd (absorb out (o, e))). intros o' e'.
  destruct en as [code|err errno|].
  - exec; close_shape.
  - exec; close_shape.
  - exec. split; reflexivity.
Qed.

Ltac close_setup :=
  repeat split; try reflexivity;
  first [ eexists; reflexivity | do 3 eexists; reflexivity ].

(** The [try] block of POST /render: it ends with one response and no
    listener, or waits on a probe for ever, or leaves a child with its
    listeners, a scratch directory and no response yet. *)
Lemma render_setup_shape E C body :
  let '(s, r) := render_setup E C body init in
  responded s = false
  /\ match r with
     | Done (Some reg) =>
         count is_send (trace s) = 0
         /\ count (is_rm (workdir reg)) (trace s) = 0
         /\ quiet (trace s) = true
         /\ existsb is_mkdtemp (trace s) = true
         /\ dirs s = [workdir reg]
         /\ exists fmt, listener reg = render_listener E (workdir reg) fmt
     | Done None => count is_send (trace s) = 1 /\ in_order (trace s) = true
     | Pending => count is_send (trace s) = 0 /\ in_order (trace s) = true
     | Thrown _ => False
     end.
Proof.
  unfold render_setup.
  generalize (field body "code") (default (field body "scene") (JStr "GeneratedScene"))
             (default (field body "format") (JStr "mp4"))
             (default (field body "quality") (JStr "ql")).
  intros code scene format quality.
  exec_setup; close_setup.
Qed.

Lemma asy_setup_shape E C body :
  let '(s, r) := asy_setup E C body init in
  responded s = false
  /\ match r with
     | Done (Some reg) =>
         count is_send (trace s) = 0
         /\ count (is_rm (workdir reg)) (trace s) = 0
         /\ quiet (trace s) = true
         /\ existsb is_mkdtemp (trace s) = true
         /\ dirs s = [workdir reg]
         /\ exists fmt ext stem,
             listener reg = asy_listener E (workdir reg) fmt ext stem
     | Done None => count is_send (trace s) = 1 /\ in_order (trace s) = true
     | Pending => count is_send (trace s) = 0 /\ in_order (trace s) = true
     | Thrown _ => False
     end.
Proof.
  unfold asy_setup.
  generalize (field body "code") (default (field body "format") (JStr "png")).
  intros code format.
  exec_setup; close_setup.
Qed.

(** ** From the two halves of a request to the whole *)

Lemma count_app (p : effect -> bool) (t1 t2 : list effect) :
  count p (t1 ++ t2) = count p t1 + count p t2.
Proof. unfold count. rewrite filter_app, length_app. reflexivity. Qed.

Lemma ranks_app (t1 t2 : list effect) :
  forall a,
    ranks a (t1 ++ t2)
    = (ranks a t1 ++ ranks (a || existsb is_mkdtemp t1) t2)%list.
Proof.
  induction t1 as [|e t1 IH]; intros a; simpl.
  - rewrite orb_false_r. reflexivity.
  - rewrite IH, orb_assoc. reflexivity.
Qed.

Lemma nondecreasing_app (l1 l2 : list nat) :
  nondecreasing l1 = true ->
  forallb (fun n => (n <=? 5)%nat) l1 = true ->
  nondecreasing l2 = true ->
  forallb (fun n => (6 <=? n)%nat) l2 = true ->
  nondecreasing (l1 ++ l2) = true.
Proof.
  induction l1 as [|a l1 IH]; intros S1 B1 S2 B2; [exact S2|].
  cbn [forallb] in B1. apply andb_true_iff in B1. destruct B1 as [Ba B1].
  destruct l1 as [|b l1].
  - cbn [app]. destruct l2 as [|c l2]; [reflexivity|].
    cbn [forallb] in B2. apply andb_true_iff in B2. destruct B2 as [Bc _].
    apply Nat.leb_le in Ba, Bc.
    change (nondecreasing (a :: c :: l2)) with ((a <=? c)%nat && nondecreasing (c :: l2)).
    rewrite S2, andb_true_r. apply Nat.leb_le. lia.
  - change (nondecreasing ((a :: b :: l1) ++ l2))
      with ((a <=? b)%nat && nondecreasing ((b :: l1) ++ l2)).
    change (nondecreasing (a :: b :: l1))
      with ((a <=? b)%nat && nondecreasing (b :: l1)) in S1.
    apply andb_true_iff in S1. destruct S1 as [Sab S1].
    rewrite Sab. simpl andb. apply IH; assumption.
Qed.

Lemma quiet_no_rm (t : list effect) :
  forall a d, forallb (fun n => (n <=? 5)%nat) (ranks a t) = true -> ~ In (Rm d) t.
Proof.
  induction t as [|e t IH]; intros a d H Hin; [exact Hin|].
  simpl in H. apply andb_true_iff in H. destruct H as [He H].
  destruct Hin as [->|Hin]; [discriminate He | exact (IH _ _ H Hin)].
Qed.

Lemma closing_facts work tail :
  closing work tail ->
  nondecreasing (ranks true tail) = true
  /\ forallb (fun n => (6 <=? n)%nat) (ranks true tail) = true
  /\ count is_send tail = 1
  /\ 1 <= count (is_rm work) tail <= 2
  /\ (forall d, In (Rm d) tail -> d = work)
  /\ (forall x, In (Send x) tail -> status x = 200 \/ status x = 500).
Proof.
  intros H.
  destruct H as [r H|r H|r H|r H|f r H];
    unfold count; cbn [filter is_rm is_send length ranks rank nondecreasing
                              forallb Nat.leb andb is_mkdtemp orb];
    rewrite ?String.eqb_refl; cbn [length];
    (split; [reflexivity|]); (split; [reflexivity|]); (split; [reflexivity|]);
    (split; [lia|]); split;
    intros d Hin; cbn [In] in Hin;
    repeat match goal with
           | H : _ \/ _ |- _ => destruct H
           | H : False |- _ => destruct H
           | H : _ = Rm _ |- _ => inversion H; clear H
           | H : _ = Send _ |- _ => inversion H; subst; clear H
           end; auto.
Qed.

Section Compose.

Variable E : env.
Variable setup : M started.

(** The listeners a route registers for a scratch directory. *)
Variable registers : (event -> M unit) -> string -> Prop.

Hypothesis setup_shape :
  let '(s, r) := setup init in
  responded s = false
  /\ match r with
     | Done (Some reg) =>
         count is_send (trace s) = 0
         /\ count (is_rm (workdir reg)) (trace s) = 0
         /\ quiet (trace s) = true
         /\ existsb is_mkdtemp (trace s) = true
         /\ dirs s = [workdir reg]
         /\ registers (listener reg) (workdir reg)
     | Done None => count is_send (trace s) = 1 /\ in_order (trace s) = true
     | Pending => count is_send (trace s) = 0 /\ in_order (trace s) = true
     | Thrown _ => False
     end.

Hypothesis listen_shape :
  forall L work, registers L work ->
  forall c t d o e,
    let '(s', r) :=
      listen L c {| trace := t; dirs := d; responded := false;
                    stdout := o; stderr := e |} in
    match r with
    | Done _ =>
        closes c = true
        /\ (exists tail, trace s' = (t ++ tail)%list /\ closing work tail)
        /\ ((forall h, rm E h work = inr tt) -> ~ In work (dirs s'))
    | Pending => closes c = false /\ trace s' = t
    | Thrown _ => False
    end.

Lemma composed : sound_run E (setup init) (bind setup after_try init).
Proof.
  unfold sound_run, bind. destruct (setup init) as [s r].
  destruct setup_shape as [Hresp Hr].
  destruct r as [[reg|]|e|]; cbn [fst snd].
  - destruct Hr as (Hsend & Hrm & Hquiet & Hmk & Hdirs & Hreg).
    unfold quiet in Hquiet. apply andb_true_iff in Hquiet.
    destruct Hquiet as [Hle Hord].
    destruct s as [t d resp o e]. cbn [trace dirs responded] in *. subst resp.
    cbn [after_try].
    pose proof (listen_shape _ _ Hreg (the_child reg) t d o e) as HL.
    destruct (listen (listener reg) (the_child reg) _) as [s' r'].
    destruct r' as [[]|e'|]; [|contradiction|]; cbn [fst snd].
    + destruct HL as (Hcl & (tail & Htr & Htail) & Hgone).
      destruct (closing_facts _ _ Htail) as (T1 & T2 & T3 & T4 & T5 & _).
      rewrite Htr.
      assert (Hin : in_order (t ++ tail) = true).
      { unfold in_order. rewrite ranks_app, Hmk. apply nondecreasing_app; assumption. }
      rewrite !count_app, Hsend, T3.
      split; [discriminate|]. split; [exact Hin|]. split; [lia|]. split; [reflexivity|].
      intros reg' Heq _. inversion Heq; subst reg'.
      rewrite count_app, Hrm.
      split; [reflexivity|]. split; [exact Hdirs|]. split; [lia|].
      split; [|exact Hgone].
      intros d' Hd. apply in_app_or in Hd. destruct Hd as [Hd|Hd].
      * exfalso. exact (quiet_no_rm _ _ _ Hle Hd).
      * apply T5. exact Hd.
    + destruct HL as (Hcl & Htr). rewrite Htr, Hsend.
      split; [discriminate|]. split; [exact Hord|]. split; [lia|].
      split; [discriminate|].
      intros reg' Heq Hcl'. inversion Heq; subst reg'. congruence.
  - destruct Hr as (Hsend & Hord). cbv [after_try ret]. cbn [fst snd]. rewrite Hsend.
    split; [discriminate|]. split; [exact Hord|]. split; [lia|].
    split; [reflexivity|]. intros reg' Heq. discriminate.
  - contradiction.
  - destruct Hr as (Hsend & Hord). rewrite Hsend.
    split; [discriminate|]. split; [exact Hord|]. split; [lia|].
    split; [discriminate|]. intros reg' Heq. discriminate.
Qed.


End Compose.

Lemma render_sound E C body :
  sound_run E (render_setup E C body init) (run_render E C body).
Proof.
  apply (composed E (render_setup E C body)
                  (fun L work => exists fmt, L = render_listener E work fmt)).
  - apply render_setup_shape.
  - intros L work [fmt ->]. apply render_listen_shape.
Qed.



Lemma asy_sound E C body :
  sound_run E (asy_setup E C body init) (run_asy E C body).
Proof.
  apply (composed E (asy_setup E C body)
                  (fun L work => exists fmt ext stem,
                       L = asy_listener E work fmt ext stem)).
  - apply asy_setup_shape.
  - intros L work (fmt & ext & stem & ->). apply asy_listen_shape.
Qed.

(** ** One response for a request *)

(** The two listeners both fire when the renderer cannot be started: the
    ['error'] listener answers and cleans up, the ['close'] listener only
    cleans up. *)
Example both_listeners_fire :
  trace (fst (run_render (no_renderer host) cfg
                         (request [("code", JStr "class S(Scene): pass")])))
  = [Mkdtemp "/tmp/manim-";
     WriteFile "/tmp/manim-Ab12Cd/scene.py" "class S(Scene): pass";
     Stat "/srv/edugen/.manim-venv/bin/manim";
     Spawn "python3"
           [JStr "-m"; JStr "manim"; JStr "-ql"; JStr "--format"; JStr "mp4";
            JStr "-o"; JStr "out"; JStr "/tmp/manim-Ab12Cd/scene.py";
            JStr "GeneratedScene"]
           "/tmp/manim-Ab12Cd";
     Send (reply 500 (error_body "Failed to run manim" (enoent "spawn python3")));
     Rm "/tmp/manim-Ab12Cd"; Rm "/tmp/manim-Ab12Cd"].
Proof. reflexivity. Qed.

(** When [res.send] throws on the artifact the [catch] finds [responded]
    set and stays silent: the attempt is the only response. *)
Example failing_send_is_not_answered_again :
  sent (trace (fst (run_asy (broken_pipe host) cfg
                            (request [("code", JStr "draw(unitcircle);");
                                      ("format", JStr "SVG")]))))
  = [{| status := 200;
        headers := [("Content-Type", JStr "image/svg+xml");
                    ("Content-Length", JNum 14)];
        content := Binary "artifact bytes" |}]
  /\ count (is_rm "/tmp/asy-Ab12Cd")
           (trace (fst (run_asy (broken_pipe host) cfg
                                (request [("code", JStr "draw(unitcircle);");
                                          ("format", JStr "SVG")]))))
     = 1.
Proof. split; reflexivity. Qed.

(** ** Validation of the source text *)

Lemma bad_code_cases (code : option json) :
  code = None \/ is_string code = false \/ code = Some (JStr "") ->
  bad_code code = true.
Proof.
  unfold bad_code. intros [->|[H| ->]]; [reflexivity| |reflexivity].
  rewrite H. apply orb_true_r.
Qed.

Lemma render_bad_code E C body :
  bad_code (field body "code") = true ->
  run_render E C body
  = ({| trace := [Send (reply 400 missing_code)]; dirs := [];
        responded := false; stdout := ""; stderr := "" |}, Done tt).
Proof.
  intros H. unfold run_render, post_render, render_setup, render_try.
  rewrite H. reflexivity.
Qed.

Lemma asy_bad_code E C body :
  bad_code (field body "code") = true ->
  run_asy E C body
  = ({| trace := [Send (reply 400 missing_code)]; dirs := [];
        responded := false; stdout := ""; stderr := "" |}, Done tt).
Proof.
  intros H. unfold run_asy, post_asy, asy_setup, asy_try.
  rewrite H. reflexivity.
Qed.

(** C8.  A request to POST /render or POST /asy whose body has no [code],
    a [code] that is not a string, or the empty string as [code], is
    answered 400 and that response is the only effect of the request: no
    scratch directory is created and no process is spawned, not even a
    probe. *)
Theorem missing_code_rejected E C body :
  field body "code" = None
  \/ is_string (field body "code") = false
  \/ field body "code" = Some (JStr "") ->
  (trace (fst (run_render E C body)) = [Send (reply 400 missing_code)]
   /\ dirs (fst (run_render E C body)) = []
   /\ snd (run_render E C body) = Done tt)
  /\ (trace (fst (run_asy E C body)) = [Send (reply 400 missing_code)]
      /\ dirs (fst (run_asy E C body)) = []
      /\ snd (run_asy E C body) = Done tt).
Proof.
  intros H. apply bad_code_cases in H.
  rewrite (render_bad_code E C body H), (asy_bad_code E C body H).
  repeat split.
Qed.

Lemma missing_code_rejected_witness :
  trace (fst (run_render host cfg (request [("code", JStr ""); ("format", JStr "mp4")])))
  = [Send (reply 400 missing_code)]
  /\ trace (fst (run_asy host cfg (request [("code", JNum 7)])))
     = [Send (reply 400 missing_code)].
Proof.
  split.
  - apply (missing_code_rejected host cfg
             (request [("code", JStr ""); ("format", JStr "mp4")])).
    right. right. reflexivity.
  - apply (missing_code_rejected host cfg (request [("code", JNum 7)])).
    right. left. reflexivity.
Defined.

(** ** The typesetting toolchain *)

(** C2.  When the source text of a POST /render request matches the
    typesetting pattern and the two probes settle with at least one of
    them [false], the request performs the two probes and nothing else but
    one response: 422, with [missing.latex] and [missing.dvisvgm] the two
    booleans the probes gave, and three hints.  No scratch directory is
    created and no render process is spawned. *)
Theorem latex_toolchain_missing E C body src hasLatex hasDvisvgm :
  field body "code" = Some (JStr src) ->
  latex_re src = true ->
  snd (cmdExists E "latex" ["--version"] init) = Done (Fulfilled hasLatex) ->
  snd (cmdExists E "dvisvgm" ["--version"]
                 (fst (cmdExists E "latex" ["--version"] init)))
  = Done (Fulfilled hasDvisvgm) ->
  hasLatex && hasDvisvgm = false ->
  trace (fst (run_render E C body))
  = [Probe "latex" ["--version"]; Probe "dvisvgm" ["--version"];
     Send (reply 422 (latex_missing hasLatex hasDvisvgm))]
  /\ dirs (fst (run_render E C body)) = []
  /\ snd (run_render E C body) = Done tt
  /\ field (Some (latex_missing hasLatex hasDvisvgm)) "missing"
     = Some (JObj [("latex", JBool hasLatex); ("dvisvgm", JBool hasDvisvgm)])
  /\ exists hint hints,
      field (Some (latex_missing hasLatex hasDvisvgm)) "hints"
      = Some (JArr (hint :: hints)).
Proof.
  intros Hcode Hre H1 H2 Hmissing.
  rewrite !cmdExists_eq in H2. rewrite cmdExists_eq in H1.
  cbn [fst snd set_trace trace init app] in H1, H2.
  inversion H1 as [A1]. inversion H2 as [A2]. clear H1 H2.
  assert (Hbad : bad_code (field body "code") = false).
  { rewrite Hcode. pose proof Hre as Hne. destruct src; [discriminate|reflexivity]. }
  unfold run_render, post_render, render_setup, render_try.
  rewrite Hbad, Hcode. cbn [text_of]. rewrite Hre.
  unfold_setup. rewrite cmdExists_eq. cbn [trace set_trace app].
  rewrite A1. rewrite cmdExists_eq. cbn [trace set_trace app]. rewrite A2.
  destruct hasLatex, hasDvisvgm; try discriminate Hmissing;
    unfold_setup; repeat split; eexists; eexists; reflexivity.
Qed.

Lemma latex_toolchain_missing_witness :
  trace (fst (run_render (without "dvisvgm" host) cfg
                         (request [("code", JStr "t = MathTex(r'x^2')")])))
  = [Probe "latex" ["--version"]; Probe "dvisvgm" ["--version"];
     Send (reply 422 (latex_missing true false))].
Proof.
  apply (latex_toolchain_missing (without "dvisvgm" host) cfg
           (request [("code", JStr "t = MathTex(r'x^2')")])
           "t = MathTex(r'x^2')" true false); reflexivity.
Defined.

Lemma cmdExists_resolves_witness :
  exists b : bool,
    cmdExists (without "latex" host) "latex" ["--version"] init
    = (set_trace [Probe "latex" ["--version"]] init, Done (Fulfilled b)).
Proof.
  destruct (cmdExists_resolves (without "latex" host) "latex" ["--version"] init)
    as [b [H _]].
  - intros c Hc. inversion Hc. reflexivity.
  - exists b. exact H.
Defined.

(** ** Release of the scratch directory *)

(** C1 (as amended).  When the [try] block of POST /render or POST /asy has
    created the scratch directory, started the child and registered its
    listeners, and the child comes to an end, the request ends, and on
    every path to that end [cleanup] has asked for the removal of that
    directory, and of no other, once or twice; a removal that fails is
    swallowed, and when removal succeeds the directory no longer exists at
    the end of the request. *)
Theorem workspace_released E C body :
  (forall s reg,
      render_setup E C body init = (s, Done (Some reg)) ->
      closes (the_child reg) = true ->
      snd (run_render E C body) = Done tt
      /\ dirs s = [workdir reg]
      /\ 1 <= count (is_rm (workdir reg)) (trace (fst (run_render E C body))) <= 2
      /\ (forall d, In (Rm d) (trace (fst (run_render E C body))) -> d = workdir reg)
      /\ ((forall h, rm E h (workdir reg) = inr tt) ->
          ~ In (workdir reg) (dirs (fst (run_render E C body)))))
  /\ (forall s reg,
      asy_setup E C body init = (s, Done (Some reg)) ->
      closes (the_child reg) = true ->
      snd (run_asy E C body) = Done tt
      /\ dirs s = [workdir reg]
      /\ 1 <= count (is_rm (workdir reg)) (trace (fst (run_asy E C body))) <= 2
      /\ (forall d, In (Rm d) (trace (fst (run_asy E C body))) -> d = workdir reg)
      /\ ((forall h, rm E h (workdir reg) = inr tt) ->
          ~ In (workdir reg) (dirs (fst (run_asy E C body))))).
Proof.
  split; intros s reg Hsetup Hcloses.
  - destruct (render_sound E C body) as (_ & _ & _ & _ & H).
    rewrite Hsetup in H. exact (H reg eq_refl Hcloses).
  - destruct (asy_sound E C body) as (_ & _ & _ & _ & H).
    rewrite Hsetup in H. exact (H reg eq_refl Hcloses).
Qed.

Lemma workspace_released_witness :
  1 <= count (is_rm "/tmp/asy-Ab12Cd")
             (trace (fst (run_asy host cfg
                                  (request [("code", JStr "draw(unitcircle);")]))))
    <= 2
  /\ ~ In "/tmp/asy-Ab12Cd"
          (dirs (fst (run_asy host cfg
                              (request [("code", JStr "draw(unitcircle);")])))).
Proof.
  destruct (proj2 (workspace_released host cfg
                     (request [("code", JStr "draw(unitcircle);")]))
                  (fst (asy_setup host cfg
                          (request [("code", JStr "draw(unitcircle);")]) init))
                  (Registered
                     (Child [Err "rendering"; Out "done"] (Exits (Some 0%Z)))
                     "/tmp/asy-Ab12Cd"
                     (asy_listener host "/tmp/asy-Ab12Cd" "png" "png" "out"))
                  eq_refl eq_refl)
    as (_ & _ & Hcount & _ & Hgone).
  split; [exact Hcount | apply Hgone; intros h; reflexivity].
Defined.

(** C1 (as stated) fails.  On a host with a full disk the source cannot be
    written: the request is answered 500 by the outer [catch], [cleanup] is
    never called and the scratch directory is still there when the request
    has ended.  On a host where the tool leaves no artifact, [cleanup] is
    called twice for the one request. *)
Lemma workspace_not_removed_once :
  (dirs (fst (run_render (disk_full host) cfg
                         (request [("code", JStr "class S(Scene): pass")])))
   = ["/tmp/manim-Ab12Cd"]
   /\ count (is_rm "/tmp/manim-Ab12Cd")
            (trace (fst (run_render (disk_full host) cfg
                                    (request [("code", JStr "class S(Scene): pass")]))))
      = 0
   /\ snd (run_render (disk_full host) cfg
                      (request [("code", JStr "class S(Scene): pass")]))
      = Done tt)
  /\ count (is_rm "/tmp/manim-Ab12Cd")
           (trace (fst (run_render (no_artifact host) cfg
                                   (request [("code", JStr "class S(Scene): pass")]))))
     = 2.
Proof. repeat split. Qed.

(** ** The order of the steps *)

Ltac sent_statuses :=
  let x := fresh "x" in
  let Hin := fresh "Hin" in
  intros x Hin; cbn [In app] in Hin;
  repeat match type of Hin with
         | _ \/ _ => destruct Hin as [Hin|Hin]
         end;
  first [ contradiction
        | discriminate Hin
        | inversion Hin; subst; cbn; auto ].

Lemma availability_settles (r : exn + child) (e : exn) :
  availability r <> Rejected e.
Proof.
  destruct r as [x|c]; simpl; [discriminate|].
  destruct (ending_of c); discriminate.
Qed.

Ltac never_rejected :=
  match goal with
  | H : availability _ = Rejected _ |- _ =>
      exfalso; exact (availability_settles _ _ H)
  end.

Ltac close_refusal :=
  first
    [ congruence
    | never_rejected
    | repeat split; first [ reflexivity | sent_statuses ] ].

(** A request with a valid source text and a selector out of its set never
    gets as far as the scratch directory: it probes as its source text
    demands and is refused. *)
Lemma render_try_invalid E C code scene format quality :
  bad_code code = false ->
  render_selectors format quality = false ->
  let '(s, r) := try_catch (render_try E C code scene format quality)
                           server_error init in
  match r with
  | Done (Some _) | Thrown _ => False
  | _ =>
      count is_probe (trace s) = (if latex_re (text_of code) then 2 else 0)
      /\ count is_mkdtemp (trace s) = 0
      /\ count is_spawn (trace s) = 0
      /\ forall x, In (Send x) (trace s) -> status x = 400 \/ status x = 422
  end.
Proof.
  intros Hcode Hsel. unfold render_selectors in Hsel.
  unfold render_try. rewrite Hcode.
  apply andb_false_iff in Hsel. destruct Hsel as [Hq|Hf].
  - rewrite Hq. exec_setup; close_refusal.
  - rewrite Hf. exec_setup; close_refusal.
Qed.

Lemma asy_try_invalid E C code format :
  bad_code code = false ->
  asy_selector format = false ->
  let '(s, r) := try_catch (asy_try E C code format) server_error init in
  match r with
  | Done (Some _) | Thrown _ => False
  | _ =>
      count is_probe (trace s) = 1
      /\ count is_mkdtemp (trace s) = 0
      /\ count is_spawn (trace s) = 0
      /\ forall x, In (Send x) (trace s) -> status x = 400 \/ status x = 422
  end.
Proof.
  intros Hcode Hsel. unfold asy_selector in Hsel.
  unfold asy_try. rewrite Hcode, Hsel. exec_setup; close_refusal.
Qed.

Lemma render_invalid_run E C body :
  bad_code (field body "code") = false ->
  render_selectors (default (field body "format") (JStr "mp4"))
                   (default (field body "quality") (JStr "ql")) = false ->
  count is_probe (trace (fst (run_render E C body)))
  = (if latex_re (text_of (field body "code")) then 2 else 0)
  /\ count is_mkdtemp (trace (fst (run_render E C body))) = 0
  /\ count is_spawn (trace (fst (run_render E C body))) = 0
  /\ forall x, In (Send x) (trace (fst (run_render E C body))) ->
               status x = 400 \/ status x = 422.
Proof.
  intros Hcode Hsel.
  pose proof (render_try_invalid E C _ (default (field body "scene") (JStr "GeneratedScene"))
                                 _ _ Hcode Hsel) as H.
  unfold run_render, post_render, render_setup, bind.
  destruct (try_catch _ _ init) as [s r].
  destruct r as [[reg|]|e|]; try contradiction; exact H.
Qed.

Lemma asy_invalid_run E C body :
  bad_code (field body "code") = false ->
  asy_selector (default (field body "format") (JStr "png")) = false ->
  count is_probe (trace (fst (run_asy E C body))) = 1
  /\ count is_mkdtemp (trace (fst (run_asy E C body))) = 0
  /\ count is_spawn (trace (fst (run_asy E C body))) = 0
  /\ forall x, In (Send x) (trace (fst (run_asy E C body))) ->
               status x = 400 \/ status x = 422.
Proof.
  intros Hcode Hsel.
  pose proof (asy_try_invalid E C _ _ Hcode Hsel) as H.
  unfold run_asy, post_asy, asy_setup, bind.
  destruct (try_catch _ _ init) as [s r].
  destruct r as [[reg|]|e|]; try contradiction; exact H.
Qed.

(** C6 (as stated) fails.  A POST /render request whose quality selector is
    out of its set, and a POST /asy request whose format is, have their
    probes run before the selector is looked at: the 400 comes after them. *)
Lemma probes_before_selector_validation :
  render_selectors (JStr "mp4") (JStr "zz") = false
  /\ trace (fst (run_render host cfg
                            (request [("code", JStr "t = Tex(r'a')");
                                      ("quality", JStr "zz")])))
     = [Probe "latex" ["--version"]; Probe "dvisvgm" ["--version"];
        Send (reply 400 bad_quality)]
  /\ asy_selector (JStr "pdf") = false
  /\ trace (fst (run_asy host cfg
                         (request [("code", JStr "draw(unitcircle);");
                                   ("format", JStr "pdf")])))
     = [Probe "asy" ["--version"]; Send (reply 400 bad_asy_format)].
Proof. repeat split. Qed.

(** ** Normalisation of the selectors *)





Ltac sent_not_400 :=
  let x := fresh "x" in
  let Hin := fresh "Hin" in
  intros x Hin; cbn [In app] in Hin;
  repeat match type of Hin with
         | _ \/ _ => destruct Hin as [Hin|Hin]
         end;
  first [ contradiction
        | discriminate Hin
        | inversion Hin; subst; cbn; discriminate ].




(** ** The proxies *)

(** C5.  Both proxy routes.  Without a configured upstream the answer is
    500 [MANIM_SERVICE_URL not configured] and no request is made.
    Otherwise one request is made, a POST of the serialised body to the
    address of the route, and:
    - a [fetch] that fails is answered 502 with [String(e?.message || e)],
      the message of the error or, when it has none, the error as text;
    - an upstream status outside 200-299 whose body can be read is
      answered 502 around the upstream status and body, the body parsed as
      JSON when it parses and as raw text otherwise;
    - an upstream status in 200-299 whose bytes can be read is answered
      200 with those bytes unchanged, their length, and the content type
      the upstream declared ([application/octet-stream] when it declared
      none). *)
Theorem proxy_relays JSON_parse JSON_stringify target fetch
        path upstream_error unreachable handler body :
  (path, upstream_error, unreachable, handler)
  = ("/render", "Upstream manim error", "Failed to reach manim service",
     Proxy.manim_proxy JSON_parse JSON_stringify target fetch)
  \/ (path, upstream_error, unreachable, handler)
     = ("/asy", "Upstream asymptote error", "Failed to reach asymptote service",
        Proxy.asy_proxy JSON_parse JSON_stringify target fetch) ->
  let rq := {| Proxy.url := Proxy.strip_slash (string_of target) ++ path;
               Proxy.method := "POST";
               Proxy.req_headers := [("Content-Type", "application/json")];
               Proxy.req_body := JSON_stringify (Proxy.or_empty body) |} in
  ((target = None \/ target = Some "") ->
   handler body
   = ([], {| status := 500; headers := [];
             content := Json (JObj [("error",
                                     JStr "MANIM_SERVICE_URL not configured")]) |}))
  /\ (forall t, target = Some t -> t <> "" ->
      fst (handler body) = [rq]
      /\ (forall e,
             fetch rq = inl e ->
             snd (handler body)
             = {| status := 502; headers := [];
                  content :=
                    Json (JObj [("error", JStr unreachable);
                                ("details",
                                 JStr (if message e =? "" then shown e
                                       else message e))]) |})
      /\ (forall r text,
             fetch rq = inr r ->
             Proxy.up_status r < 200 \/ 299 < Proxy.up_status r ->
             Proxy.up_text r = inr text ->
             snd (handler body)
             = {| status := 502; headers := [];
                  content :=
                    Json (JObj [("error", JStr upstream_error);
                                ("status", JNum (Z.of_nat (Proxy.up_status r)));
                                ("body", match JSON_parse text with
                                         | Some v => v
                                         | None => JStr text
                                         end)]) |})
      /\ (forall r buf,
             fetch rq = inr r ->
             200 <= Proxy.up_status r <= 299 ->
             Proxy.up_bytes r = inr buf ->
             snd (handler body)
             = {| status := 200;
                  headers :=
                    [("Content-Type",
                      JStr (match Proxy.up_content_type r with
                            | Some ct =>
                                if ct =? "" then "application/octet-stream" else ct
                            | None => "application/octet-stream"
                            end));
                     ("Content-Length", JNum (Z.of_nat (String.length buf)))];
                  content := Binary buf |})).
Proof.
  intros Hroute rq. subst rq.
  assert (Hok : forall r, 200 <= Proxy.up_status r <= 299 -> Proxy.ok r = true).
  { intros r [H1 H2]. unfold Proxy.ok. apply andb_true_iff.
    split; apply Nat.leb_le; assumption. }
  assert (Hbad : forall r, Proxy.up_status r < 200 \/ 299 < Proxy.up_status r ->
                           Proxy.ok r = false).
  { intros r H. unfold Proxy.ok. apply andb_false_iff.
    destruct H as [H|H]; [left|right]; apply Nat.leb_gt; exact H. }
  destruct Hroute as [Hroute|Hroute]; inversion Hroute; subst; clear Hroute;
    [unfold Proxy.manim_proxy | unfold Proxy.asy_proxy].
  all: split; [intros [->| ->]; reflexivity|].
  all: intros t -> Hne; apply String.eqb_neq in Hne;
    unfold falsy; rewrite Hne; cbn [fst snd string_of].
  all: split; [reflexivity|]; split; [|split].
  all: try (intros e He; unfold Proxy.forwarded; cbn [string_of];
            rewrite He; reflexivity).
  all: try (intros r text Hr Hst Htext; unfold Proxy.forwarded; cbn [string_of];
            rewrite Hr; cbn [Proxy.and_then];
            rewrite (Hbad r Hst); cbn [negb]; rewrite Htext; reflexivity).
  all: intros r buf Hr Hst Hbytes; unfold Proxy.forwarded; cbn [string_of];
    rewrite Hr; cbn [Proxy.and_then];
    rewrite (Hok r Hst); cbn [negb]; rewrite Hbytes; reflexivity.
Qed.

Lemma proxy_relays_witness :
  snd (Proxy.manim_proxy sample_parse sample_stringify
                         (Some "http://render.internal:8787/") refusing
                         (request [("code", JStr "")]))
  = {| status := 502; headers := [];
       content := Json (JObj [("error", JStr "Upstream manim error");
                              ("status", JNum 400); ("body", JObj [])]) |}
  /\ snd (Proxy.asy_proxy sample_parse sample_stringify
                          (Some "http://render.internal:8787/") rendering
                          (request [("code", JStr "draw(unitcircle);")]))
     = {| status := 200;
          headers := [("Content-Type", JStr "video/mp4");
                      ("Content-Length", JNum 14)];
          content := Binary "artifact bytes" |}
  /\ Proxy.manim_proxy sample_parse sample_stringify None rendering None
     = ([], {| status := 500; headers := [];
               content := Json (JObj [("error",
                                       JStr "MANIM_SERVICE_URL not configured")]) |}).
Proof.
  split; [|split].
  - apply (proj1 (proj2 (proj2 (proj2 (proxy_relays sample_parse sample_stringify
             (Some "http://render.internal:8787/") refusing
             "/render" "Upstream manim error" "Failed to reach manim service" _
             (request [("code", JStr "")]) (or_introl eq_refl))
             "http://render.internal:8787/" eq_refl ltac:(discriminate))))
            _ "{}" eq_refl ltac:(right; cbn; lia) eq_refl).
  - apply (proj2 (proj2 (proj2 (proj2 (proxy_relays sample_parse sample_stringify
             (Some "http://render.internal:8787/") rendering
             "/asy" "Upstream asymptote error" "Failed to reach asymptote service" _
             (request [("code", JStr "draw(unitcircle);")]) (or_intror eq_refl))
             "http://render.internal:8787/" eq_refl ltac:(discriminate))))
            _ "artifact bytes" eq_refl ltac:(cbn; lia) eq_refl).
  - apply (proj1 (proxy_relays sample_parse sample_stringify None rendering
             "/render" "Upstream manim error" "Failed to reach manim service" _
             None (or_introl eq_refl))).
    left. reflexivity.
Defined.

(** C10.  The proxy routes validate nothing: whatever the inbound body,
    the one request they make carries [JSON.stringify(req.body || {})], so
    that a missing body, like an empty object, goes upstream as the empty
    object; and no answer of a proxy route has status 400. *)
Theorem proxy_forwards_any_body JSON_parse JSON_stringify target fetch body :
  (falsy target = false ->
   fst (Proxy.manim_proxy JSON_parse JSON_stringify target fetch body)
   = [{| Proxy.url := Proxy.strip_slash (string_of target) ++ "/render";
         Proxy.method := "POST";
         Proxy.req_headers := [("Content-Type", "application/json")];
         Proxy.req_body := JSON_stringify (Proxy.or_empty body) |}]
   /\ fst (Proxy.asy_proxy JSON_parse JSON_stringify target fetch body)
      = [{| Proxy.url := Proxy.strip_slash (string_of target) ++ "/asy";
            Proxy.method := "POST";
            Proxy.req_headers := [("Content-Type", "application/json")];
            Proxy.req_body := JSON_stringify (Proxy.or_empty body) |}])
  /\ Proxy.or_empty None = JObj []
  /\ Proxy.or_empty (Some (JObj [])) = JObj []
  /\ (forall fields, Proxy.or_empty (Some (JObj fields)) = JObj fields)
  /\ status (snd (Proxy.manim_proxy JSON_parse JSON_stringify target fetch body)) <> 400
  /\ status (snd (Proxy.asy_proxy JSON_parse JSON_stringify target fetch body)) <> 400.
Proof.
  split; [|split; [|split; [|split; [|split]]]]; try reflexivity.
  - intros Hcfg. unfold Proxy.manim_proxy, Proxy.asy_proxy. rewrite Hcfg.
    split; reflexivity.
  - unfold Proxy.manim_proxy. destruct (falsy target); [discriminate|].
    cbn [snd]. destruct (fetch _) as [e|r]; [discriminate|].
    cbn [Proxy.and_then]. destruct (negb (Proxy.ok r)).
    + destruct (Proxy.up_text r); discriminate.
    + destruct (Proxy.up_bytes r); discriminate.
  - unfold Proxy.asy_proxy. destruct (falsy target); [discriminate|].
    cbn [snd]. destruct (fetch _) as [e|r]; [discriminate|].
    cbn [Proxy.and_then]. destruct (negb (Proxy.ok r)).
    + destruct (Proxy.up_text r); discriminate.
    + destruct (Proxy.up_bytes r); discriminate.
Qed.

Lemma proxy_forwards_any_body_witness :
  fst (Proxy.manim_proxy sample_parse sample_stringify
                         (Some "http://render.internal:8787/") refusing None)
  = [{| Proxy.url := "http://render.internal:8787/render";
        Proxy.method := "POST";
        Proxy.req_headers := [("Content-Type", "application/json")];
        Proxy.req_body := "{}" |}].
Proof.
  apply (proj1 (proj1 (proxy_forwards_any_body sample_parse sample_stringify
                         (Some "http://render.internal:8787/") refusing None)
                      eq_refl)).
Defined.

(* ===================================================================== *)
(** * Further properties of the code *)
(* ===================================================================== *)

(** ** Strings *)

Lemma append_assoc (a b c : string) : (a ++ b) ++ c = a ++ (b ++ c).
Proof. induction a as [|x a IH]; simpl; [reflexivity | rewrite IH; reflexivity]. Qed.

Lemma append_nil_r (a : string) : a ++ "" = a.
Proof. induction a as [|x a IH]; simpl; [reflexivity | rewrite IH; reflexivity]. Qed.

Lemma length_append (a b : string) :
  String.length (a ++ b) = String.length a + String.length b.
Proof. induction a as [|x a IH]; simpl; [reflexivity | rewrite IH; reflexivity]. Qed.

Lemma substring_all (b : string) : substring 0 (String.length b) b = b.
Proof. induction b as [|x b IH]; simpl; [reflexivity | rewrite IH; reflexivity]. Qed.

Lemma substring_skip (a b : string) (m : nat) :
  substring (String.length a) m (a ++ b) = substring 0 m b.
Proof. induction a as [|x a IH]; simpl; [reflexivity | exact IH]. Qed.

Lemma endsWith_append (a b : string) : endsWith (a ++ b) b = true.
Proof.
  unfold endsWith. rewrite length_append.
  replace (String.length a + String.length b - String.length b)
    with (String.length a) by lia.
  rewrite substring_skip, substring_all, String.eqb_refl, andb_true_r.
  apply Nat.leb_le. lia.
Qed.

(** ** The locators, against the tree itself *)

Lemma in_traversal_here cur entries name :
  In (File name) entries -> In (name, path_join cur name) (traversal cur entries).
Proof.
  induction entries as [|e rest IH]; intros Hin; [contradiction|].
  destruct Hin as [->|Hin].
  - left. reflexivity.
  - destruct e as [n|n ch|n]; cbn [traversal].
    + right. exact (IH Hin).
    + apply in_or_app. left. exact (IH Hin).
    + exact (IH Hin).
Qed.

Lemma in_traversal_below cur entries d children v :
  In (Dir d children) entries ->
  In v (traversal (path_join cur d) children) ->
  In v (traversal cur entries).
Proof.
  induction entries as [|e rest IH]; intros Hin Hv; [contradiction|].
  destruct Hin as [->|Hin].
  - cbn [traversal]. apply in_or_app. right. rewrite subtree_dir. exact Hv.
  - destruct e as [n|n ch|n]; cbn [traversal].
    + right. exact (IH Hin Hv).
    + apply in_or_app. left. exact (IH Hin Hv).
    + exact (IH Hin Hv).
Qed.

Lemma file_at_traversal cur entries name p :
  file_at cur entries name p -> In (name, p) (traversal cur entries).
Proof.
  induction 1 as [cur entries name Hin | cur entries d children name p Hin _ IH].
  - apply in_traversal_here. exact Hin.
  - eapply in_traversal_below; eauto.
Qed.

Lemma file_at_cons cur e rest name p :
  file_at cur rest name p -> file_at cur (e :: rest) name p.
Proof.
  intros H. destruct H as [cur entries name Hn | cur entries d ch name p Hd Hp].
  - apply file_here. right. exact Hn.
  - eapply file_below; [right; exact Hd | exact Hp].
Qed.

Lemma traversal_file_at_aux (children : list dirent) :
  Forall (fun e => forall cur v, In v (subtree cur e) ->
                   forall d ch, e = Dir d ch ->
                   file_at (path_join cur d) ch (fst v) (snd v)) children ->
  forall cur v, In v (traversal cur children) -> file_at cur children (fst v) (snd v).
Proof.
  induction 1 as [|e rest He _ IH]; intros cur v Hin; simpl in Hin; [contradiction|].
  destruct e as [n|n ch|n].
  - destruct Hin as [<-|Hin]; [|apply file_at_cons; exact (IH cur v Hin)].
    apply file_here. left. reflexivity.
  - apply in_app_or in Hin.
    destruct Hin as [Hin|Hin]; [apply file_at_cons; exact (IH cur v Hin)|].
    eapply file_below; [left; reflexivity|].
    exact (He cur v Hin n ch eq_refl).
  - apply file_at_cons. exact (IH cur v Hin).
Qed.

Lemma subtree_file_at e :
  forall cur v, In v (subtree cur e) ->
  forall d ch, e = Dir d ch -> file_at (path_join cur d) ch (fst v) (snd v).
Proof.
  induction e as [n|n|n children IH] using dirent_nested_ind;
    intros cur v Hin d ch Heq; try discriminate.
  inversion Heq; subst. rewrite subtree_dir in Hin.
  apply traversal_file_at_aux; assumption.
Qed.

Lemma traversal_file_at cur entries v :
  In v (traversal cur entries) -> file_at cur entries (fst v) (snd v).
Proof.
  apply traversal_file_at_aux. apply Forall_forall. intros e _. apply subtree_file_at.
Qed.

Lemma file_at_inside cur entries name p :
  file_at cur entries name p ->
  inside cur p /\ endsWith p ("/" ++ name) = true.
Proof.
  induction 1 as [cur entries name Hin | cur entries d children name p Hin _ [[rest ->] IHe]].
  - split; [exists name; reflexivity | apply endsWith_append].
  - split; [|exact IHe].
    exists (d ++ "/" ++ rest). unfold path_join.
    rewrite !append_assoc. reflexivity.
Qed.

Lemma findFileRecursive_traversal dir root name :
  findFileRecursive dir root name
  = option_map snd (find (fun v : visit => fst v =? name) (traversal dir root)).
Proof.
  unfold findFileRecursive. rewrite walk_file_spec.
  unfold order. cbn [flat_map fst snd]. rewrite app_nil_r. reflexivity.
Qed.

Lemma findAsyOutput_traversal dir root ext stem :
  findAsyOutput dir root ext stem
  = match find (fun v : visit => includes (preferred stem ext) (fst v))
               (traversal dir root) with
    | Some v => Some (snd v)
    | None =>
        option_map snd
          (find (fun v : visit => endsWith (fst v) ("." ++ ext)) (traversal dir root))
    end.
Proof.
  unfold findAsyOutput. rewrite walk_asy_spec.
  unfold order. cbn [flat_map fst snd]. rewrite app_nil_r.
  destruct (find _ (traversal dir root)); [reflexivity|].
  cbn [app]. apply first_or_null_find. intros v. apply traversal_paths.
Qed.

(** X1.  What [findFileRecursive] returns is the path of a regular file of
    the tree that bears exactly the name asked for: it lies under the
    directory walked and ends in a slash and that name.  Directories and
    entries that are not regular files are never returned. *)
Theorem findFileRecursive_sound dir root name p :
  findFileRecursive dir root name = Some p ->
  file_at dir root name p /\ inside dir p /\ endsWith p ("/" ++ name) = true.
Proof.
  rewrite findFileRecursive_traversal. intros H.
  destruct (find _ (traversal dir root)) as [[n q]|] eqn:Hfind; [|discriminate].
  inversion H; subst. apply find_some in Hfind. destruct Hfind as [Hin Hname].
  cbn [fst snd] in *. apply String.eqb_eq in Hname. subst n.
  apply traversal_file_at in Hin. cbn [fst snd] in Hin.
  split; [exact Hin | exact (file_at_inside _ _ _ _ Hin)].
Qed.

Lemma findFileRecursive_sound_witness :
  file_at "/tmp/manim-Ab12Cd" rendered "out.mp4"
          "/tmp/manim-Ab12Cd/media/videos/scene/480p15/out.mp4".
Proof.
  apply (findFileRecursive_sound "/tmp/manim-Ab12Cd" rendered "out.mp4"
           "/tmp/manim-Ab12Cd/media/videos/scene/480p15/out.mp4").
  reflexivity.
Defined.

(** X2.  The walk of [findFileRecursive] is exhaustive: it returns [null]
    exactly when no regular file of that name lies anywhere in the tree,
    however deep. *)
Theorem findFileRecursive_null_iff_absent dir root name :
  findFileRecursive dir root name = None <-> (forall p, ~ file_at dir root name p).
Proof.
  rewrite findFileRecursive_traversal. split.
  - intros H p Hp. apply file_at_traversal in Hp.
    destruct (find _ (traversal dir root)) as [v|] eqn:Hfind; [discriminate|].
    pose proof (find_none _ _ Hfind _ Hp) as Hno. cbn [fst] in Hno.
    rewrite String.eqb_refl in Hno. discriminate.
  - intros H. destruct (find _ (traversal dir root)) as [[n q]|] eqn:Hfind; [|reflexivity].
    exfalso. apply find_some in Hfind. destruct Hfind as [Hin Hname].
    cbn [fst] in Hname. apply String.eqb_eq in Hname. subst n.
    apply traversal_file_at in Hin. exact (H q Hin).
Qed.

Lemma preferred_ends_with stem ext n :
  includes (preferred stem ext) n = true -> endsWith n ("." ++ ext) = true.
Proof.
  unfold includes, preferred. cbn [existsb]. rewrite orb_false_r.
  intros H. apply orb_true_iff in H. destruct H as [H|H];
    [|apply orb_true_iff in H; destruct H as [H|H]];
    apply String.eqb_eq in H; subst n.
  - apply endsWith_append.
  - change (stem ++ "-0." ++ ext) with (stem ++ "-0" ++ "." ++ ext).
    rewrite <- append_assoc. apply endsWith_append.
  - change (stem ++ "-1." ++ ext) with (stem ++ "-1" ++ "." ++ ext).
    rewrite <- append_assoc. apply endsWith_append.
Qed.

(** X3.  [findAsyOutput] returns [null] exactly when no regular file
    anywhere in the tree has a name ending in a dot and the extension: the
    three preferred names end that way themselves, so a file that matches
    is never missed. *)
Theorem findAsyOutput_null_iff_absent dir root ext stem :
  findAsyOutput dir root ext stem = None
  <-> (forall n p, file_at dir root n p -> endsWith n ("." ++ ext) = false).
Proof.
  rewrite findAsyOutput_traversal. split.
  - intros H n p Hp. apply file_at_traversal in Hp.
    destruct (find _ (traversal dir root)) as [v|] eqn:Hpref; [discriminate|].
    destruct (find (fun v : visit => endsWith (fst v) ("." ++ ext)) (traversal dir root))
      as [v|] eqn:Hext; [discriminate|].
    exact (find_none _ _ Hext _ Hp).
  - intros H.
    destruct (find _ (traversal dir root)) as [[n q]|] eqn:Hpref.
    + exfalso. apply find_some in Hpref. destruct Hpref as [Hin Hn]. cbn [fst] in Hn.
      apply traversal_file_at in Hin. cbn [fst snd] in Hin.
      apply preferred_ends_with in Hn. rewrite (H n q Hin) in Hn. discriminate.
    + destruct (find (fun v : visit => endsWith (fst v) ("." ++ ext)) (traversal dir root))
        as [[n q]|] eqn:Hext; [|reflexivity].
      exfalso. apply find_some in Hext. destruct Hext as [Hin Hn]. cbn [fst] in Hn.
      apply traversal_file_at in Hin. cbn [fst snd] in Hin.
      rewrite (H n q Hin) in Hn. discriminate.
Qed.

(** X4.  What [findAsyOutput] returns is the path of a regular file of
    the tree, under the directory walked, whose name ends in a dot and the
    extension; and when the tree holds a file with one of the three
    preferred names anywhere, the file returned bears a preferred name,
    wherever the other files with the extension stand. *)
Theorem findAsyOutput_sound dir root ext stem p :
  findAsyOutput dir root ext stem = Some p ->
  exists n,
    file_at dir root n p
    /\ inside dir p
    /\ endsWith n ("." ++ ext) = true
    /\ ((exists m q, file_at dir root m q /\ includes (preferred stem ext) m = true) ->
        includes (preferred stem ext) n = true).
Proof.
  rewrite findAsyOutput_traversal. intros H.
  destruct (find _ (traversal dir root)) as [[n q]|] eqn:Hpref.
  - inversion H; subst. apply find_some in Hpref. destruct Hpref as [Hin Hn].
    cbn [fst snd] in *. apply traversal_file_at in Hin. cbn [fst snd] in Hin.
    exists n. split; [exact Hin|]. split; [exact (proj1 (file_at_inside _ _ _ _ Hin))|].
    split; [exact (preferred_ends_with _ _ _ Hn) | intros _; exact Hn].
  - destruct (find (fun v : visit => endsWith (fst v) ("." ++ ext)) (traversal dir root))
      as [[n q]|] eqn:Hext; [|discriminate].
    inversion H; subst. apply find_some in Hext. destruct Hext as [Hin Hn].
    cbn [fst snd] in *. apply traversal_file_at in Hin. cbn [fst snd] in Hin.
    exists n. split; [exact Hin|]. split; [exact (proj1 (file_at_inside _ _ _ _ Hin))|].
    split; [exact Hn|].
    intros (m & q' & Hm & Hpm). exfalso.
    apply file_at_traversal in Hm.
    pose proof (find_none _ _ Hpref _ Hm) as Hno. cbn [fst] in Hno.
    rewrite Hpm in Hno. discriminate.
Qed.

Lemma findAsyOutput_sound_witness :
  exists n,
    file_at "/tmp/asy-Ab12Cd" [File "fig.svg"; Dir "d" [File "out-1.svg"]] n
            "/tmp/asy-Ab12Cd/d/out-1.svg"
    /\ endsWith n ".svg" = true.
Proof.
  destruct (findAsyOutput_sound "/tmp/asy-Ab12Cd"
              [File "fig.svg"; Dir "d" [File "out-1.svg"]] "svg" "out"
              "/tmp/asy-Ab12Cd/d/out-1.svg" eq_refl) as (n & Hn & _ & He & _).
  exists n. split; [exact Hn | exact He].
Defined.

(** ** The command a render route runs *)

Lemma falsy_path_join a b : falsy (Some (path_join a b)) = false.
Proof. unfold falsy. apply String.eqb_neq. apply path_join_nonempty. Qed.

Ltac absurd_venv :=
  match goal with
  | H : falsy (Some (path_join _ _)) = true |- _ =>
      rewrite falsy_path_join in H; discriminate H
  end.

Ltac absurd_bool :=
  match goal with
  | H : false = true |- _ => discriminate H
  | H : true = false |- _ => discriminate H
  end.

Ltac registered_with pre :=
  exists pre; unfold venv_bin, manim_args; cbn [app forallb];
  split; [reflexivity|];
  split; [reflexivity|];
  split; [apply andb_true_iff; split; assumption|];
  split; [assumption|];
  split; [reflexivity|];
  eexists; eexists; cbn [app];
  split; [reflexivity|];
  split; [eassumption|];
  try match goal with
      | H : stat _ _ _ = _ |- _ => rewrite H
      end; reflexivity.

(** What the [try] block of POST /render has done when it leaves a child
    behind. *)
Lemma render_setup_registered E C code scene format quality :
  let '(s, r) := try_catch (render_try E C code scene format quality)
                           server_error init in
  match r with
  | Done (Some reg) =>
      let work := workdir reg in
      let fmt := toLowerCase (String_ format) in
      let args := manim_args (toLowerCase (String_ quality)) fmt work scene in
      exists pre,
        forallb is_probe pre = true
        /\ bad_code code = false
        /\ render_selectors format quality = true
        /\ mkdtemp E pre (path_join (tmpdir C) "manim-") = inr work
        /\ listener reg = render_listener E work fmt
        /\ exists cmd argv,
            let written :=
              (pre ++ [Mkdtemp (path_join (tmpdir C) "manim-");
                       WriteFile (path_join work "scene.py") (text_of code)])%list in
            let looked :=
              (written ++ (if falsy (MANIM_BIN C) then [Stat (venv_bin C)] else []))%list in
            trace s = (looked ++ [Spawn cmd argv work])%list
            /\ spawn E looked cmd argv work = inr (the_child reg)
            /\ (cmd, argv)
               = (if falsy (MANIM_BIN C) then
                    match stat E written (venv_bin C) with
                    | inr _ => (venv_bin C, args)
                    | inl _ => (PYTHON_BIN C, JStr "-m" :: JStr "manim" :: args)
                    end
                  else (string_of (MANIM_BIN C), args))
  | _ => True
  end.
Proof.
  exec_setup; try exact I; try absurd_venv; try absurd_bool.
  all: cbn [app] in *.
  all: first [ solve [registered_with (@nil effect)]
             | solve [registered_with [Probe "latex" ["--version"];
                                       Probe "dvisvgm" ["--version"]]] ].
Qed.

(** What the [try] block of POST /asy has done when it leaves a child
    behind. *)
Lemma asy_setup_registered E C code format :
  let '(s, r) := try_catch (asy_try E C code format) server_error init in
  match r with
  | Done (Some reg) =>
      let work := workdir reg in
      let fmt := toLowerCase (String_ format) in
      let args := asy_args fmt work in
      let written :=
        [Probe (ASY_BIN C) ["--version"]; Mkdtemp (path_join (tmpdir C) "asy-");
         WriteFile (path_join work "main.asy") (text_of code)] in
      bad_code code = false
      /\ asy_selector format = true
      /\ availability (probe E [] (ASY_BIN C) ["--version"]) = Fulfilled true
      /\ mkdtemp E [Probe (ASY_BIN C) ["--version"]] (path_join (tmpdir C) "asy-")
         = inr work
      /\ listener reg
         = asy_listener E work fmt (if fmt =? "svg" then "svg" else "png") "out"
      /\ exists useXvfb cmd argv,
          availability (probe E written (XVFB_BIN C) ["--help"]) = Fulfilled useXvfb
          /\ trace s
             = (written ++ [Probe (XVFB_BIN C) ["--help"]; Spawn cmd argv work])%list
          /\ spawn E (written ++ [Probe (XVFB_BIN C) ["--help"]]) cmd argv work
             = inr (the_child reg)
          /\ (cmd, argv)
             = (if useXvfb then (XVFB_BIN C, xvfb_args (ASY_BIN C) args)
                else (ASY_BIN C, args))
  | _ => True
  end.
Proof.
  exec_setup; try exact I; try absurd_bool; try never_rejected.
  all: cbn [app] in *.
  all: unfold asy_args, xvfb_args, asy_selector.
  all: split; [reflexivity|].
  all: split; [assumption|].
  all: split; [reflexivity|].
  all: split; [assumption|].
  all: split; [reflexivity|].
  all: eexists; eexists; eexists.
  all: split; [first [eassumption | reflexivity]|].
  all: split; [reflexivity|].
  all: split; [eassumption | reflexivity].
Qed.




(** X6.  The command POST /asy runs, once it gets as far as the spawn.
    The display wrapper is probed just before the spawn, after the source
    text has been written; when the probe finds it the command is the
    wrapper around the vector-graphics tool, otherwise the tool itself, on
    the same arguments, in the scratch directory. *)
Theorem asy_command_choice E C body s reg :
  asy_setup E C body init = (s, Done (Some reg)) ->
  let work := workdir reg in
  let args :=
    asy_args (toLowerCase (String_ (default (field body "format") (JStr "png")))) work in
  exists pre useXvfb cmd argv,
    trace s = (pre ++ [Probe (XVFB_BIN C) ["--help"]; Spawn cmd argv work])%list
    /\ In (WriteFile (path_join work "main.asy") (text_of (field body "code"))) pre
    /\ snd (cmdExists E (XVFB_BIN C) ["--help"] (set_trace pre init))
       = Done (Fulfilled useXvfb)
    /\ (cmd, argv)
       = (if useXvfb then (XVFB_BIN C, xvfb_args (ASY_BIN C) args)
          else (ASY_BIN C, args)).
Proof.
  intros Hsetup work args.
  pose proof (asy_setup_registered E C (field body "code")
                (default (field body "format") (JStr "png"))) as H.
  unfold asy_setup in Hsetup. rewrite Hsetup in H.
  destruct H as (_ & _ & _ & _ & _ & useXvfb & cmd & argv & Hx & Htrace & _ & Hcmd).
  fold work in Htrace, Hcmd, Hx. fold args in Hcmd.
  eexists. exists useXvfb, cmd, argv. split; [exact Htrace|]. split; [|split].
  - right. right. left. reflexivity.
  - rewrite cmdExists_eq. cbn [snd set_trace trace]. rewrite Hx. reflexivity.
  - exact Hcmd.
Qed.

Lemma asy_command_choice_witness :
  exists pre,
    trace (fst (asy_setup host cfg (request [("code", JStr "draw(unitcircle);")]) init))
    = (pre ++ [Probe "xvfb-run" ["--help"];
               Spawn "xvfb-run"
                     (xvfb_args "asy" (asy_args "png" "/tmp/asy-Ab12Cd"))
                     "/tmp/asy-Ab12Cd"])%list.
Proof.
  destruct (asy_command_choice host cfg (request [("code", JStr "draw(unitcircle);")])
              (fst (asy_setup host cfg
                      (request [("code", JStr "draw(unitcircle);")]) init))
              (Registered (Child [Err "rendering"; Out "done"] (Exits (Some 0%Z)))
                          "/tmp/asy-Ab12Cd"
                          (asy_listener host "/tmp/asy-Ab12Cd" "png" "png" "out"))
              eq_refl)
    as (pre & useXvfb & cmd & argv & Htrace & _ & Hx & Hcmd).
  rewrite cmdExists_eq in Hx. cbn in Hx. inversion Hx; subst useXvfb.
  inversion Hcmd; subst. exists pre. exact Htrace.
Defined.

(** ** What the listeners do with the child's end *)

Lemma substring_split (s : string) :
  forall k, k <= String.length s ->
            s = substring 0 k s ++ substring k (String.length s - k) s.
Proof.
  induction s as [|c s IH]; intros k Hk.
  - destruct k; reflexivity.
  - destruct k as [|k].
    + cbn [substring append String.length Nat.sub]. rewrite substring_all. reflexivity.
    + cbn [substring append String.length Nat.sub]. cbn [String.length] in Hk.
      f_equal. apply IH. lia.
Qed.

Lemma endsWith_split (s suffix : string) :
  endsWith s suffix = true -> exists a, s = a ++ suffix.
Proof.
  unfold endsWith. intros H. apply andb_true_iff in H. destruct H as [Hlen Heq].
  apply Nat.leb_le in Hlen. apply String.eqb_eq in Heq.
  exists (substring 0 (String.length s - String.length suffix) s).
  pose proof (substring_split s (String.length s - String.length suffix)) as H.
  replace (String.length s - (String.length s - String.length suffix))
    with (String.length suffix) in H by lia.
  rewrite Heq in H. apply H. lia.
Qed.

Lemma file_at_path cur entries name p :
  file_at cur entries name p -> exists at_, p = path_join at_ name.
Proof.
  induction 1 as [cur entries name _ | cur entries d children name p _ _ IH].
  - exists cur. reflexivity.
  - exact IH.
Qed.

Lemma found_file_artifact work root name :
  falsy (findFileRecursive work root name) = false ->
  inside work (string_of (findFileRecursive work root name))
  /\ endsWith (string_of (findFileRecursive work root name)) ("/" ++ name) = true.
Proof.
  rewrite findFileRecursive_traversal.
  destruct (find _ (traversal work root)) as [[n p]|] eqn:Hfind; [|discriminate].
  intros _. apply find_some in Hfind. destruct Hfind as [Hin Hn].
  cbn [fst] in Hn. apply String.eqb_eq in Hn. subst n.
  apply traversal_file_at in Hin. cbn [fst snd option_map string_of] in *.
  exact (file_at_inside _ _ _ _ Hin).
Qed.

Lemma found_asy_artifact work root ext stem :
  falsy (findAsyOutput work root ext stem) = false ->
  asy_artifact work ext (string_of (findAsyOutput work root ext stem)).
Proof.
  rewrite findAsyOutput_traversal.
  assert (Hfile : forall n p, In (n, p) (traversal work root) ->
                              endsWith n ("." ++ ext) = true ->
                              asy_artifact work ext p).
  { intros n p Hin Hn. apply traversal_file_at in Hin. cbn [fst snd] in Hin.
    split; [exact (proj1 (file_at_inside _ _ _ _ Hin))|].
    destruct (file_at_path _ _ _ _ Hin) as [at_ ->].
    destruct (endsWith_split _ _ Hn) as [a ->].
    unfold path_join.
    replace (at_ ++ "/" ++ a ++ "." ++ ext) with ((at_ ++ "/" ++ a) ++ "." ++ ext)
      by (rewrite append_assoc; reflexivity).
    apply endsWith_append. }
  destruct (find (fun v : visit => includes (preferred stem ext) (fst v))
                 (traversal work root)) as [[n p]|] eqn:Hpref.
  - intros _. apply find_some in Hpref. destruct Hpref as [Hin Hn].
    cbn [fst snd string_of] in *. exact (Hfile n p Hin (preferred_ends_with _ _ _ Hn)).
  - destruct (find (fun v : visit => endsWith (fst v) ("." ++ ext)) (traversal work root))
      as [[n p]|] eqn:Hext; [|discriminate].
    intros _. apply find_some in Hext. destruct Hext as [Hin Hn].
    cbn [fst snd option_map string_of] in *. exact (Hfile n p Hin Hn).
Qed.

Lemma concat_cons (d : string) (l : list string) :
  String.concat "" (d :: l) = d ++ String.concat "" l.
Proof.
  destruct l; cbn [String.concat append]; [rewrite append_nil_r|]; reflexivity.
Qed.

Lemma absorb_streams (out : list chunk) :
  forall o e, absorb out (o, e) = (o ++ stdout_of out, e ++ stderr_of out).
Proof.
  unfold absorb, stdout_of, stderr_of.
  induction out as [|k out IH]; intros o e.
  - cbn. rewrite !append_nil_r. reflexivity.
  - destruct k as [d|d]; cbn [fold_left flat_map app fst snd]; rewrite IH.
    + rewrite concat_cons, append_assoc. reflexivity.
    + rewrite concat_cons, append_assoc. reflexivity.
Qed.

Ltac artifact_found :=
  first
    [ apply found_asy_artifact; eassumption
    | match goal with
      | H : falsy (findFileRecursive ?w ?r ?n) = false |- _ =>
          exact (found_file_artifact w r n H)
      end ].

Ltac one_confined :=
  cbn [confined reply status];
  first
    [ reflexivity
    | left; reflexivity
    | artifact_found
    | right; do 3 eexists; split; [artifact_found|]; split; [eassumption|reflexivity] ].

Ltac each_confined :=
  lazymatch goal with
  | |- Forall _ [] => constructor
  | |- Forall _ (_ :: _) => constructor; [one_confined | each_confined]
  end.

Ltac close_confined :=
  first
    [ absurd_code
    | eexists; split;
      [ repeat rewrite <- app_assoc; cbn [app];
        first [ reflexivity | symmetry; apply app_nil_r ]
      | each_confined ] ].

(** What the listeners of POST /render add to the trace, whatever the
    child does. *)
Lemma render_listen_confined E work fmt c t d o e :
  let '(s', r) :=
    listen (render_listener E work fmt) c
           {| trace := t; dirs := d; responded := false; stdout := o; stderr := e |} in
  exists tail,
    trace s' = (t ++ tail)%list
    /\ Forall (confined E work (render_type fmt)
                 (fun f => inside work f
                           /\ endsWith f ("/" ++ (if fmt =? "gif" then "out.gif"
                                                  else "out.mp4")) = true))
              tail.
Proof.
  destruct c as [out en]. unfold listen. unfold bind at 1.
  rewrite events_eq. cbn [output ending_of].
  rewrite deliver_output by reflexivity.
  generalize (fst (absorb out (o, e))) (snd (absorb out (o, e))). intros o' e'.
  unfold render_type.
  destruct en as [code|err errno|]; exec; close_confined.
Qed.

Lemma asy_listen_confined E work fmt ext stem c t d o e :
  let '(s', r) :=
    listen (asy_listener E work fmt ext stem) c
           {| trace := t; dirs := d; responded := false; stdout := o; stderr := e |} in
  exists tail,
    trace s' = (t ++ tail)%list
    /\ Forall (confined E work (asy_type fmt) (asy_artifact work ext)) tail.
Proof.
  destruct c as [out en]. unfold listen. unfold bind at 1.
  rewrite events_eq. cbn [output ending_of].
  rewrite deliver_output by reflexivity.
  generalize (fst (absorb out (o, e))) (snd (absorb out (o, e))). intros o' e'.
  unfold asy_type.
  destruct en as [code|err errno|]; exec; close_confined.
Qed.

Lemma render_listen_exit E work fmt out code t d o e :
  code_is code 0 = false ->
  let '(s', r) :=
    listen (render_listener E work fmt) (Child out (Exits code))
           {| trace := t; dirs := d; responded := false; stdout := o; stderr := e |} in
  r = Done tt
  /\ trace s'
     = (t ++ [Send (reply 500 (JObj [("error", JStr "Manim render failed");
                                     ("code", code_json code);
                                     ("stdout", JStr (o ++ stdout_of out));
                                     ("stderr", JStr (e ++ stderr_of out))]));
              Rm work])%list.
Proof.
  intros Hcode. unfold listen. unfold bind at 1.
  rewrite events_eq. cbn [output ending_of].
  rewrite deliver_output by reflexivity. rewrite absorb_streams. cbn [fst snd].
  destruct code as [z|]; cbn [code_is] in Hcode; exec; try congruence;
    (split; [reflexivity | repeat rewrite <- app_assoc; reflexivity]).
Qed.

Lemma asy_listen_exit E work fmt ext stem out code t d o e :
  code_is code 0 = false ->
  let '(s', r) :=
    listen (asy_listener E work fmt ext stem) (Child out (Exits code))
           {| trace := t; dirs := d; responded := false; stdout := o; stderr := e |} in
  r = Done tt
  /\ trace s'
     = (t ++ [Send (reply 500 (JObj [("error", JStr "Asymptote render failed");
                                     ("code", code_json code);
                                     ("stdout", JStr (o ++ stdout_of out));
                                     ("stderr", JStr (e ++ stderr_of out))]));
              Rm work])%list.
Proof.
  intros Hcode. unfold listen. unfold bind at 1.
  rewrite events_eq. cbn [output ending_of].
  rewrite deliver_output by reflexivity. rewrite absorb_streams. cbn [fst snd].
  destruct code as [z|]; cbn [code_is] in Hcode; exec; try congruence;
    (split; [reflexivity | repeat rewrite <- app_assoc; reflexivity]).
Qed.

Lemma render_listen_unstarted E work fmt out err errno t d o e :
  let '(s', r) :=
    listen (render_listener E work fmt) (Child out (SpawnFails err errno))
           {| trace := t; dirs := d; responded := false; stdout := o; stderr := e |} in
  r = Done tt
  /\ trace s'
     = (t ++ [Send (reply 500 (error_body "Failed to run manim" err));
              Rm work; Rm work])%list.
Proof.
  unfold listen. unfold bind at 1.
  rewrite events_eq. cbn [output ending_of].
  rewrite deliver_output by reflexivity.
  generalize (fst (absorb out (o, e))) (snd (absorb out (o, e))). intros o' e'.
  exec; try absurd_code;
    (split; [reflexivity | repeat rewrite <- app_assoc; reflexivity]).
Qed.

Lemma asy_listen_unstarted E work fmt ext stem out err errno t d o e :
  let '(s', r) :=
    listen (asy_listener E work fmt ext stem) (Child out (SpawnFails err errno))
           {| trace := t; dirs := d; responded := false; stdout := o; stderr := e |} in
  r = Done tt
  /\ trace s'
     = (t ++ [Send (reply 500 (error_body "Failed to run asymptote" err));
              Rm work; Rm work])%list.
Proof.
  unfold listen. unfold bind at 1.
  rewrite events_eq. cbn [output ending_of].
  rewrite deliver_output by reflexivity.
  generalize (fst (absorb out (o, e))) (snd (absorb out (o, e))). intros o' e'.
  exec; try absurd_code;
    (split; [reflexivity | repeat rewrite <- app_assoc; reflexivity]).
Qed.

(** The [try] blocks leave the two buffers empty and answer with no 200. *)
Lemma render_setup_untouched E C body :
  let '(s, r) := render_setup E C body init in
  stdout s = "" /\ stderr s = ""
  /\ forall x, In (Send x) (trace s) -> status x <> 200.
Proof.
  unfold render_setup.
  generalize (field body "code") (default (field body "scene") (JStr "GeneratedScene"))
             (default (field body "format") (JStr "mp4"))
             (default (field body "quality") (JStr "ql")).
  intros code scene format quality.
  exec_setup; try never_rejected;
    (split; [reflexivity|]; split; [reflexivity|]; sent_not_400).
Qed.

Lemma asy_setup_untouched E C body :
  let '(s, r) := asy_setup E C body init in
  stdout s = "" /\ stderr s = ""
  /\ forall x, In (Send x) (trace s) -> status x <> 200.
Proof.
  unfold asy_setup.
  generalize (field body "code") (default (field body "format") (JStr "png")).
  intros code format.
  exec_setup; try never_rejected;
    (split; [reflexivity|]; split; [reflexivity|]; sent_not_400).
Qed.

(** A request that leaves a child behind goes on with the listeners of its
    route, from the state its [try] block left. *)
Lemma render_run_registered E C body s reg :
  render_setup E C body init = (s, Done (Some reg)) ->
  run_render E C body
  = listen (render_listener E (workdir reg)
              (toLowerCase (String_ (default (field body "format") (JStr "mp4")))))
           (the_child reg)
           {| trace := trace s; dirs := dirs s; responded := false;
              stdout := ""; stderr := "" |}.
Proof.
  intros Hs.
  pose proof (render_setup_shape E C body) as H2.
  pose proof (render_setup_untouched E C body) as H3.
  rewrite Hs in H2, H3.
  pose proof (render_setup_registered E C (field body "code")
                (default (field body "scene") (JStr "GeneratedScene"))
                (default (field body "format") (JStr "mp4"))
                (default (field body "quality") (JStr "ql"))) as H1.
  unfold run_render, post_render, bind. rewrite Hs.
  unfold render_setup in Hs. rewrite Hs in H1.
  destruct H1 as (pre & _ & _ & _ & _ & HL & _).
  destruct H2 as [Hresp _]. destruct H3 as (Hout & Herr & _).
  destruct s as [t d resp o e]. cbn [trace dirs responded stdout stderr] in *.
  subst resp o e. cbn [after_try]. rewrite HL. reflexivity.
Qed.

Lemma asy_run_registered E C body s reg :
  asy_setup E C body init = (s, Done (Some reg)) ->
  let fmt := toLowerCase (String_ (default (field body "format") (JStr "png"))) in
  run_asy E C body
  = listen (asy_listener E (workdir reg) fmt (if fmt =? "svg" then "svg" else "png") "out")
           (the_child reg)
           {| trace := trace s; dirs := dirs s; responded := false;
              stdout := ""; stderr := "" |}.
Proof.
  intros Hs fmt.
  pose proof (asy_setup_shape E C body) as H2.
  pose proof (asy_setup_untouched E C body) as H3.
  rewrite Hs in H2, H3.
  pose proof (asy_setup_registered E C (field body "code")
                (default (field body "format") (JStr "png"))) as H1.
  unfold run_asy, post_asy, bind. rewrite Hs.
  unfold asy_setup in Hs. rewrite Hs in H1.
  destruct H1 as (_ & _ & _ & _ & HL & _).
  destruct H2 as [Hresp _]. destruct H3 as (Hout & Herr & _).
  destruct s as [t d resp o e]. cbn [trace dirs responded stdout stderr] in *.
  subst resp o e. cbn [after_try]. rewrite HL. reflexivity.
Qed.

(** A request that leaves no child behind ends where its [try] block
    ended. *)
Lemma run_unregistered (setup : M started) s r :
  setup init = (s, r) ->
  (forall reg, r <> Done (Some reg)) ->
  fst (bind setup (fun x => after_try x) init) = s.
Proof.
  intros Hs Hr. unfold bind. rewrite Hs.
  destruct r as [[reg|]|e|]; [exfalso; exact (Hr reg eq_refl)| | |]; reflexivity.
Qed.

(** X7.  POST /asy without the vector-graphics tool.  When the source text
    is a non-empty string and the probe for [ASY_BIN] resolves to [false],
    the request makes that one probe and answers 422 with the installation
    hints, whatever its format is: the format is not looked at, no
    scratch directory is made and nothing is spawned. *)
Theorem asy_compiler_missing E C body :
  bad_code (field body "code") = false ->
  snd (cmdExists E (ASY_BIN C) ["--version"] init) = Done (Fulfilled false) ->
  trace (fst (run_asy E C body))
  = [Probe (ASY_BIN C) ["--version"]; Send (reply 422 asy_missing)]
  /\ dirs (fst (run_asy E C body)) = []
  /\ snd (run_asy E C body) = Done tt.
Proof.
  intros Hcode Hprobe. rewrite cmdExists_eq in Hprobe.
  cbn [snd trace init] in Hprobe. inversion Hprobe as [Hav]. clear Hprobe.
  unfold run_asy, post_asy, asy_setup, asy_try. rewrite Hcode.
  unfold_setup. rewrite cmdExists_eq. cbn [trace set_trace app]. rewrite Hav.
  unfold_setup. repeat split.
Qed.

Lemma asy_compiler_missing_witness :
  trace (fst (run_asy (without "asy" host) cfg
                      (request [("code", JStr "draw(unitcircle);");
                                ("format", JStr "bmp")])))
  = [Probe "asy" ["--version"]; Send (reply 422 asy_missing)].
Proof.
  apply (asy_compiler_missing (without "asy" host) cfg
           (request [("code", JStr "draw(unitcircle);"); ("format", JStr "bmp")]));
    reflexivity.
Defined.

Lemma render_formats fmt :
  includes ["mp4"; "gif"] fmt = true ->
  (if fmt =? "gif" then "out.gif" else "out.mp4") = "out." ++ fmt.
Proof.
  unfold includes. cbn [existsb]. rewrite orb_false_r. intros H.
  apply orb_true_iff in H. destruct H as [H|H]; apply String.eqb_eq in H; subst fmt;
    reflexivity.
Qed.

Lemma asy_formats fmt :
  includes ["png"; "svg"] fmt = true ->
  (if fmt =? "svg" then "svg" else "png") = fmt.
Proof.
  unfold includes. cbn [existsb]. rewrite orb_false_r. intros H.
  apply orb_true_iff in H. destruct H as [H|H]; apply String.eqb_eq in H; subst fmt;
    reflexivity.
Qed.

(** X8.  A 200 of POST /render is the artifact and nothing else.  Every
    response with status 200 that a request hands to Express carries the
    bytes that [fs.readFile] gave for a file called [out.<fmt>] under the
    scratch directory of that request, with the content type of the
    format ([image/gif] for gif, [video/mp4] otherwise) and the length of
    those bytes; [fmt] is the lower-case format of the request. *)
Theorem render_success_is_artifact E C body r :
  In (Send r) (trace (fst (run_render E C body))) ->
  status r = 200 ->
  let fmt := toLowerCase (String_ (default (field body "format") (JStr "mp4"))) in
  exists s reg h f data,
    render_setup E C body init = (s, Done (Some reg))
    /\ render_artifact (workdir reg) fmt f
    /\ readFile E h f = inr data
    /\ r = artifact_response (render_type fmt) data.
Proof.
  intros Hin H200 fmt.
  pose proof (render_setup_untouched E C body) as Hu.
  pose proof (render_setup_registered E C (field body "code")
                (default (field body "scene") (JStr "GeneratedScene"))
                (default (field body "format") (JStr "mp4"))
                (default (field body "quality") (JStr "ql"))) as Hreg.
  fold (render_setup E C body) in Hreg.
  destruct (render_setup E C body init) as [s o] eqn:Hs.
  destruct Hu as (_ & _ & Hno).
  assert (Hother : (forall reg, o <> Done (Some reg)) -> False).
  { intros Hr. unfold run_render, post_render in Hin.
    rewrite (run_unregistered _ _ _ Hs Hr) in Hin. exact (Hno r Hin H200). }
  destruct o as [[reg|]|e|]; try (exfalso; apply Hother; intros reg'; discriminate).
  clear Hother.
  destruct Hreg as (pre & _ & _ & Hsel & _).
  unfold render_selectors in Hsel. apply andb_true_iff in Hsel. destruct Hsel as [_ Hfmt].
  rewrite (render_run_registered _ _ _ _ _ Hs) in Hin.
  pose proof (render_listen_confined E (workdir reg) fmt (the_child reg)
                                     (trace s) (dirs s) "" "") as HL.
  fold fmt in Hin.
  destruct (listen _ _ _) as [s' r'].
  destruct HL as (tail & Htr & Hall). cbn [fst] in Hin. rewrite Htr in Hin.
  apply in_app_or in Hin. destruct Hin as [Hin|Hin]; [exfalso; exact (Hno r Hin H200)|].
  rewrite Forall_forall in Hall. specialize (Hall _ Hin). cbn [confined] in Hall.
  destruct Hall as [H500|(h & f & data & Hart & Hread & ->)]; [congruence|].
  exists s, reg, h, f, data. split; [reflexivity|].
  split; [|split; [exact Hread|reflexivity]].
  rewrite (render_formats fmt Hfmt) in Hart. exact Hart.
Qed.

Lemma render_success_is_artifact_witness :
  exists s reg h f data,
    render_setup host cfg (request [("code", JStr "class S(Scene): pass")]) init
    = (s, Done (Some reg))
    /\ render_artifact (workdir reg) "mp4" f
    /\ readFile host h f = inr data
    /\ artifact_response "video/mp4" "artifact bytes"
       = artifact_response (render_type "mp4") data.
Proof.
  apply (render_success_is_artifact host cfg
           (request [("code", JStr "class S(Scene): pass")])
           (artifact_response "video/mp4" "artifact bytes")).
  - vm_compute. do 6 right. left. reflexivity.
  - reflexivity.
Defined.

(** X9.  A 200 of POST /asy is the artifact and nothing else.  Every
    response with status 200 carries the bytes that [fs.readFile] gave for
    a file under the scratch directory of that request whose name ends in
    a dot and the lower-case format, with the content type of the format
    ([image/svg+xml] for svg, [image/png] otherwise) and the length of
    those bytes. *)
Theorem asy_success_is_artifact E C body r :
  In (Send r) (trace (fst (run_asy E C body))) ->
  status r = 200 ->
  let fmt := toLowerCase (String_ (default (field body "format") (JStr "png"))) in
  exists s reg h f data,
    asy_setup E C body init = (s, Done (Some reg))
    /\ asy_artifact (workdir reg) fmt f
    /\ readFile E h f = inr data
    /\ r = artifact_response (asy_type fmt) data.
Proof.
  intros Hin H200 fmt.
  pose proof (asy_setup_untouched E C body) as Hu.
  pose proof (asy_setup_registered E C (field body "code")
                (default (field body "format") (JStr "png"))) as Hreg.
  fold (asy_setup E C body) in Hreg.
  destruct (asy_setup E C body init) as [s o] eqn:Hs.
  destruct Hu as (_ & _ & Hno).
  assert (Hother : (forall reg, o <> Done (Some reg)) -> False).
  { intros Hr. unfold run_asy, post_asy in Hin.
    rewrite (run_unregistered _ _ _ Hs Hr) in Hin. exact (Hno r Hin H200). }
  destruct o as [[reg|]|e|]; try (exfalso; apply Hother; intros reg'; discriminate).
  clear Hother.
  destruct Hreg as (_ & Hfmt & _).
  unfold asy_selector in Hfmt. fold fmt in Hfmt.
  rewrite (asy_run_registered _ _ _ _ _ Hs) in Hin.
  fold fmt in Hin. rewrite (asy_formats fmt Hfmt) in Hin.
  pose proof (asy_listen_confined E (workdir reg) fmt fmt "out" (the_child reg)
                                  (trace s) (dirs s) "" "") as HL.
  destruct (listen _ _ _) as [s' r'].
  destruct HL as (tail & Htr & Hall). cbn [fst] in Hin. rewrite Htr in Hin.
  apply in_app_or in Hin. destruct Hin as [Hin|Hin]; [exfalso; exact (Hno r Hin H200)|].
  rewrite Forall_forall in Hall. specialize (Hall _ Hin). cbn [confined] in Hall.
  destruct Hall as [H500|(h & f & data & Hart & Hread & ->)]; [congruence|].
  exists s, reg, h, f, data. split; [reflexivity|].
  split; [exact Hart|split; [exact Hread|reflexivity]].
Qed.

Lemma asy_success_is_artifact_witness :
  exists s reg h f data,
    asy_setup host cfg (request [("code", JStr "draw(unitcircle);");
                                 ("format", JStr "SVG")]) init
    = (s, Done (Some reg))
    /\ asy_artifact (workdir reg) "svg" f
    /\ readFile host h f = inr data
    /\ artifact_response "image/svg+xml" "artifact bytes"
       = artifact_response (asy_type "svg") data.
Proof.
  apply (asy_success_is_artifact host cfg
           (request [("code", JStr "draw(unitcircle);"); ("format", JStr "SVG")])
           (artifact_response "image/svg+xml" "artifact bytes")).
  - vm_compute. do 7 right. left. reflexivity.
  - reflexivity.
Defined.







(** X12.  A renderer that exits with a code other than 0, or is killed by
    a signal, is reported once and in full.  POST /render then answers
    500 with the exit code ([null] for a signal), with all that the child
    wrote on its standard output, in the order written, and all that it
    wrote on its standard error; it removes the scratch directory once
    and never looks for an artifact. *)
Theorem render_failure_reported E C body s reg code :
  render_setup E C body init = (s, Done (Some reg)) ->
  ending_of (the_child reg) = Exits code ->
  code_is code 0 = false ->
  trace (fst (run_render E C body))
  = (trace s
     ++ [Send (reply 500
                 (JObj [("error", JStr "Manim render failed");
                        ("code", code_json code);
                        ("stdout", JStr (stdout_of (output (the_child reg))));
                        ("stderr", JStr (stderr_of (output (the_child reg))))]));
         Rm (workdir reg)])%list
  /\ snd (run_render E C body) = Done tt.
Proof.
  intros Hs Hend Hcode. rewrite (render_run_registered _ _ _ _ _ Hs).
  destruct (the_child reg) as [out en]. cbn [ending_of output] in *. subst en.
  pose proof (render_listen_exit E (workdir reg)
                (toLowerCase (String_ (default (field body "format") (JStr "mp4"))))
                out code (trace s) (dirs s) "" "" Hcode) as HL.
  destruct (listen _ _ _) as [s' r']. destruct HL as [Hr Htr].
  split; [exact Htr | exact Hr].
Qed.

Lemma render_failure_reported_witness :
  sent (trace (fst (run_render (crashing host) cfg
                               (request [("code", JStr "class S(Scene): pass")]))))
  = [reply 500 (JObj [("error", JStr "Manim render failed");
                      ("code", JNum 1);
                      ("stdout", JStr "Manim Community v0.18.");
                      ("stderr", JStr "Traceback: NameError")])].
Proof.
  rewrite (proj1 (render_failure_reported (crashing host) cfg
             (request [("code", JStr "class S(Scene): pass")])
             (fst (render_setup (crashing host) cfg
                     (request [("code", JStr "class S(Scene): pass")]) init))
             (Registered (Child [Out "Manim Community v0.18"; Err "Traceback: ";
                                 Out "."; Err "NameError"]
                                (Exits (Some 1%Z)))
                         "/tmp/manim-Ab12Cd"
                         (render_listener (crashing host) "/tmp/manim-Ab12Cd" "mp4"))
             (Some 1%Z) eq_refl eq_refl eq_refl)).
  reflexivity.
Defined.

(** X13.  The same for POST /asy: a vector-graphics tool that exits with a
    code other than 0, or is killed by a signal, is answered 500 with the
    code, the standard output and the standard error of the child; the
    scratch directory is removed once and no artifact is looked for. *)
Theorem asy_failure_reported E C body s reg code :
  asy_setup E C body init = (s, Done (Some reg)) ->
  ending_of (the_child reg) = Exits code ->
  code_is code 0 = false ->
  trace (fst (run_asy E C body))
  = (trace s
     ++ [Send (reply 500
                 (JObj [("error", JStr "Asymptote render failed");
                        ("code", code_json code);
                        ("stdout", JStr (stdout_of (output (the_child reg))));
                        ("stderr", JStr (stderr_of (output (the_child reg))))]));
         Rm (workdir reg)])%list
  /\ snd (run_asy E C body) = Done tt.
Proof.
  intros Hs Hend Hcode. rewrite (asy_run_registered _ _ _ _ _ Hs).
  destruct (the_child reg) as [out en]. cbn [ending_of output] in *. subst en.
  match goal with
  | |- context [listen (asy_listener E ?w ?f ?x ?st) _ _] =>
      pose proof (asy_listen_exit E w f x st out code (trace s) (dirs s) "" "" Hcode)
        as HL
  end.
  destruct (listen _ _ _) as [s' r']. destruct HL as [Hr Htr].
  split; [exact Htr | exact Hr].
Qed.

Lemma asy_failure_reported_witness :
  sent (trace (fst (run_asy (crashing host) cfg
                            (request [("code", JStr "draw(unitcircle);")]))))
  = [reply 500 (JObj [("error", JStr "Asymptote render failed");
                      ("code", JNum 1);
                      ("stdout", JStr "Manim Community v0.18.");
                      ("stderr", JStr "Traceback: NameError")])].
Proof.
  rewrite (proj1 (asy_failure_reported (crashing host) cfg
             (request [("code", JStr "draw(unitcircle);")])
             (fst (asy_setup (crashing host) cfg
                     (request [("code", JStr "draw(unitcircle);")]) init))
             (Registered (Child [Out "Manim Community v0.18"; Err "Traceback: ";
                                 Out "."; Err "NameError"]
                                (Exits (Some 1%Z)))
                         "/tmp/asy-Ab12Cd"
                         (asy_listener (crashing host) "/tmp/asy-Ab12Cd" "png" "png" "out"))
             (Some 1%Z) eq_refl eq_refl eq_refl)).
  reflexivity.
Defined.

(** X14.  A renderer that cannot be started is reported once.  Node then
    emits ['error'] and ['close']; POST /render answers 500 with
    [String(err)] from the first, the second finds the request answered
    and sends nothing, and each of the two removes the scratch directory.
    No artifact is looked for. *)
Theorem render_unstarted_reported E C body s reg err errno :
  render_setup E C body init = (s, Done (Some reg)) ->
  ending_of (the_child reg) = SpawnFails err errno ->
  trace (fst (run_render E C body))
  = (trace s
     ++ [Send (reply 500 (JObj [("error", JStr "Failed to run manim");
                                ("details", JStr (shown err))]));
         Rm (workdir reg); Rm (workdir reg)])%list
  /\ snd (run_render E C body) = Done tt.
Proof.
  intros Hs Hend. rewrite (render_run_registered _ _ _ _ _ Hs).
  destruct (the_child reg) as [out en]. cbn [ending_of output] in *. subst en.
  pose proof (render_listen_unstarted E (workdir reg)
                (toLowerCase (String_ (default (field body "format") (JStr "mp4"))))
                out err errno (trace s) (dirs s) "" "") as HL.
  destruct (listen _ _ _) as [s' r']. destruct HL as [Hr Htr].
  split; [exact Htr | exact Hr].
Qed.

Lemma render_unstarted_reported_witness :
  sent (trace (fst (run_render (no_renderer host) cfg
                               (request [("code", JStr "class S(Scene): pass")]))))
  = [reply 500 (JObj [("error", JStr "Failed to run manim");
                      ("details", JStr "Error: spawn python3 ENOENT")])].
Proof.
  rewrite (proj1 (render_unstarted_reported (no_renderer host) cfg
             (request [("code", JStr "class S(Scene): pass")])
             (fst (render_setup (no_renderer host) cfg
                     (request [("code", JStr "class S(Scene): pass")]) init))
             (Registered (Child [] (SpawnFails (enoent "spawn python3") 2))
                         "/tmp/manim-Ab12Cd"
                         (render_listener (no_renderer host) "/tmp/manim-Ab12Cd" "mp4"))
             (enoent "spawn python3") 2 eq_refl eq_refl)).
  reflexivity.
Defined.

(** X15.  The same for POST /asy: a vector-graphics tool that cannot be
    started is answered 500 with [String(err)] by the ['error'] listener,
    the ['close'] listener sends nothing, and the scratch directory is
    removed by each of the two. *)
Theorem asy_unstarted_reported E C body s reg err errno :
  asy_setup E C body init = (s, Done (Some reg)) ->
  ending_of (the_child reg) = SpawnFails err errno ->
  trace (fst (run_asy E C body))
  = (trace s
     ++ [Send (reply 500 (JObj [("error", JStr "Failed to run asymptote");
                                ("details", JStr (shown err))]));
         Rm (workdir reg); Rm (workdir reg)])%list
  /\ snd (run_asy E C body) = Done tt.
Proof.
  intros Hs Hend. rewrite (asy_run_registered _ _ _ _ _ Hs).
  destruct (the_child reg) as [out en]. cbn [ending_of output] in *. subst en.
  match goal with
  | |- context [listen (asy_listener E ?w ?f ?x ?st) _ _] =>
      pose proof (asy_listen_unstarted E w f x st out err errno (trace s) (dirs s) "" "")
        as HL
  end.
  destruct (listen _ _ _) as [s' r']. destruct HL as [Hr Htr].
  split; [exact Htr | exact Hr].
Qed.

Lemma asy_unstarted_reported_witness :
  sent (trace (fst (run_asy (no_renderer host) cfg
                            (request [("code", JStr "draw(unitcircle);")]))))
  = [reply 500 (JObj [("error", JStr "Failed to run asymptote");
                      ("details", JStr "Error: spawn xvfb-run ENOENT")])].
Proof.
  rewrite (proj1 (asy_unstarted_reported (no_renderer host) cfg
             (request [("code", JStr "draw(unitcircle);")])
             (fst (asy_setup (no_renderer host) cfg
                     (request [("code", JStr "draw(unitcircle);")]) init))
             (Registered (Child [] (SpawnFails (enoent "spawn xvfb-run") 2))
                         "/tmp/asy-Ab12Cd"
                         (asy_listener (no_renderer host) "/tmp/asy-Ab12Cd" "png" "png" "out"))
             (enoent "spawn xvfb-run") 2 eq_refl eq_refl)).
  reflexivity.
Defined.

(** ** The upstream address of the proxies *)

Lemma strip_slash_append (t : string) : Proxy.strip_slash (t ++ "/") = t.
Proof.
  induction t as [|c t IH]; [reflexivity|].
  cbn [append Proxy.strip_slash].
  replace (t ++ "/" =? "") with false by (destruct t; reflexivity).
  rewrite andb_false_r, IH. reflexivity.
Qed.

Lemma strip_slash_cases (t : string) :
  Proxy.strip_slash t = t \/ t = Proxy.strip_slash t ++ "/".
Proof.
  induction t as [|c t IH]; [left; reflexivity|].
  cbn [Proxy.strip_slash].
  destruct (Ascii.eqb c "/" && (t =? "")) eqn:Hlast.
  - right. apply andb_true_iff in Hlast. destruct Hlast as [Hc Ht].
    apply Ascii.eqb_eq in Hc. apply String.eqb_eq in Ht. subst. reflexivity.
  - destruct IH as [IH|IH]; [left; rewrite IH; reflexivity|].
    right. cbn [append]. rewrite <- IH. reflexivity.
Qed.

Lemma strip_slash_none (t : string) :
  endsWith t "/" = false -> Proxy.strip_slash t = t.
Proof.
  intros H. destruct (strip_slash_cases t) as [Heq|Heq]; [exact Heq|].
  rewrite Heq, endsWith_append in H. discriminate.
Qed.

(** X17.  One trailing slash of [MANIM_SERVICE_URL] makes no difference.
    For an address that is not empty and does not end in a slash, both
    proxy routes make the same request and give the same answer whether
    the address is configured as it is or with a slash after it; the
    request goes to the address followed by [/render] or by [/asy]. *)
Theorem proxy_trailing_slash JSON_parse JSON_stringify fetch t body :
  t <> "" ->
  endsWith t "/" = false ->
  Proxy.manim_proxy JSON_parse JSON_stringify (Some (t ++ "/")) fetch body
  = Proxy.manim_proxy JSON_parse JSON_stringify (Some t) fetch body
  /\ Proxy.asy_proxy JSON_parse JSON_stringify (Some (t ++ "/")) fetch body
     = Proxy.asy_proxy JSON_parse JSON_stringify (Some t) fetch body
  /\ map Proxy.url (fst (Proxy.manim_proxy JSON_parse JSON_stringify (Some t) fetch body))
     = [t ++ "/render"]
  /\ map Proxy.url (fst (Proxy.asy_proxy JSON_parse JSON_stringify (Some t) fetch body))
     = [t ++ "/asy"].
Proof.
  intros Hne Hend.
  assert (H1 : falsy (Some t) = false) by (apply String.eqb_neq; exact Hne).
  assert (H2 : falsy (Some (t ++ "/")) = false) by (destruct t; reflexivity).
  unfold Proxy.manim_proxy, Proxy.asy_proxy, Proxy.forwarded.
  rewrite H1, H2. cbn [string_of fst map Proxy.url].
  rewrite strip_slash_append, (strip_slash_none t Hend).
  repeat split.
Qed.

Lemma proxy_trailing_slash_witness :
  Proxy.manim_proxy sample_parse sample_stringify
                    (Some ("http://render.internal:8787" ++ "/")) rendering
                    (request [("code", JStr "class S(Scene): pass")])
  = Proxy.manim_proxy sample_parse sample_stringify
                      (Some "http://render.internal:8787") rendering
                      (request [("code", JStr "class S(Scene): pass")]).
Proof.
  apply (proxy_trailing_slash sample_parse sample_stringify rendering
           "http://render.internal:8787"
           (request [("code", JStr "class S(Scene): pass")])).
  - discriminate.
  - reflexivity.
Defined.

(** X18.  The three statuses of a proxy route.  A proxy route answers 500
    exactly when no upstream is configured, 200 exactly when the upstream
    answered with a status in 200-299 and its bytes could be read, and 502
    in every other case: an upstream that cannot be reached, that answers
    outside 200-299, or whose body cannot be read. *)
Theorem proxy_statuses JSON_parse JSON_stringify target fetch body handler path :
  (handler, path) = (Proxy.manim_proxy JSON_parse JSON_stringify target fetch, "/render")
  \/ (handler, path) = (Proxy.asy_proxy JSON_parse JSON_stringify target fetch, "/asy") ->
  let r := snd (handler body) in
  let rq := Proxy.forwarded JSON_stringify target path body in
  (status r = 500 <-> falsy target = true)
  /\ (status r = 200 <->
      falsy target = false
      /\ exists u buf, fetch rq = inr u /\ Proxy.ok u = true /\ Proxy.up_bytes u = inr buf)
  /\ (status r = 200 \/ status r = 500 \/ status r = 502).
Proof.
  intros Hroute r rq. subst r rq.
  destruct Hroute as [Hroute|Hroute]; inversion Hroute; subst handler path; clear Hroute.
  all: unfold Proxy.manim_proxy, Proxy.asy_proxy.
  all: destruct (falsy target) eqn:Hcfg; cbn [snd];
    [ split; [split; reflexivity|];
      split; [split; [discriminate | intros [H _]; discriminate H]|];
      right; left; reflexivity |].
  all: destruct (fetch _) as [e|u] eqn:Hfetch; cbn [Proxy.and_then];
    [ split; [split; discriminate|];
      split; [split; [discriminate | intros [_ (u & buf & H & _)]; discriminate H]|];
      right; right; reflexivity |].
  all: destruct (Proxy.ok u) eqn:Hok; cbn [negb].
  all: try (destruct (Proxy.up_bytes u) as [e|buf] eqn:Hbytes; cbn [Proxy.and_then];
            [ split; [split; discriminate|];
              split; [split; [discriminate
                             | intros [_ (u' & buf & H & _ & Hb)];
                               inversion H; subst u'; rewrite Hbytes in Hb; discriminate Hb]|];
              right; right; reflexivity
            | split; [split; discriminate|];
              split; [split; [intros _; split; [reflexivity|];
                              exists u, buf; repeat split; assumption
                             | reflexivity]|];
              left; reflexivity ]).
  all: destruct (Proxy.up_text u) as [e|text]; cbn [Proxy.and_then];
    (split; [split; discriminate|];
     split; [split; [discriminate
                    | intros [_ (u' & buf & H & Hok' & _)];
                      inversion H; subst u'; rewrite Hok in Hok'; discriminate Hok']|];
     right; right; reflexivity).
Qed.

Lemma proxy_statuses_witness :
  status (snd (Proxy.asy_proxy sample_parse sample_stringify
                               (Some "http://render.internal:8787") refusing
                               (request [("code", JStr "draw(unitcircle);")])))
  = 502.
Proof.
  destruct (proj2 (proj2 (proxy_statuses sample_parse sample_stringify
                            (Some "http://render.internal:8787") refusing
                            (request [("code", JStr "draw(unitcircle);")])
                            _ "/asy" (or_intror eq_refl))))
    as [H|[H|H]]; [discriminate H | discriminate H | exact H].
Defined.

(** ** The [PATH] of the render service *)

Lemma prefix_append (t x : string) : prefix t (t ++ x) = true.
Proof.
  induction t as [|c t IH]; [destruct x; reflexivity|].
  cbn [append prefix]. destruct (ascii_dec c c) as [_|Hne]; [exact IH|].
  exfalso. apply Hne. reflexivity.
Qed.

Lemma occurs_append (t x : string) : occurs t (t ++ x) = true.
Proof.
  pose proof (prefix_append t x) as H.
  destruct (t ++ x); cbn [occurs]; rewrite H; reflexivity.
Qed.

Lemma no_colon_cons c t :
  occurs ":" (String c t) = false -> Ascii.eqb c ":" = false /\ occurs ":" t = false.
Proof.
  cbn [occurs prefix]. intros H. apply orb_false_iff in H. destruct H as [Hp Ht].
  split; [|exact Ht].
  destruct (ascii_dec ":" c) as [<-|Hne].
  - destruct t; discriminate Hp.
  - apply Ascii.eqb_neq. intros ->. apply Hne. reflexivity.
Qed.

Lemma path_entries_prepend (t p : string) :
  occurs ":" t = false -> path_entries (t ++ ":" ++ p) = t :: path_entries p.
Proof.
  induction t as [|c t IH]; intros H; [reflexivity|].
  apply no_colon_cons in H. destruct H as [Hc Ht].
  change (String c t ++ ":" ++ p) with (String c (t ++ ":" ++ p)).
  cbn [path_entries]. rewrite Hc, (IH Ht). reflexivity.
Qed.

(** X19.  The [PATH] of the render service after start-up.  When [PATH]
    is set and not empty, the text of the TeX directory ([TEXBIN], or
    [/Library/TeX/texbin] when that is unset or empty) occurs in the
    [PATH] the service runs with, which ends with the [PATH] it was
    started with, so that nothing of it is lost, and which a second pass
    leaves as it is.  The test is [PATH.includes(TEXBIN)], on the text:
    when the text already occurs, be it inside a longer entry, the [PATH]
    is unchanged; when it does not, the [PATH] becomes [TEXBIN], a colon
    and the old [PATH], and then [TEXBIN], if it holds no colon, is the
    first entry, before the old ones. *)
Theorem texbin_on_path environ p :
  environ "PATH" = Some p ->
  p <> "" ->
  exists p',
    path_after environ = Some p'
    /\ occurs (TEXBIN environ) p' = true
    /\ endsWith p' p = true
    /\ (occurs (TEXBIN environ) p = true -> p' = p)
    /\ (occurs (TEXBIN environ) p = false ->
        p' = TEXBIN environ ++ ":" ++ p
        /\ (occurs ":" (TEXBIN environ) = false ->
            path_entries p' = TEXBIN environ :: path_entries p))
    /\ path_after (with_path environ (Some p')) = Some p'.
Proof.
  intros Hpath Hne. apply String.eqb_neq in Hne.
  assert (Hidem : forall q, occurs (TEXBIN environ) q = true ->
                            path_after (with_path environ (Some q)) = Some q).
  { intros q Hq. unfold path_after, with_path, TEXBIN in *. cbn.
    rewrite Hq, andb_false_r. reflexivity. }
  unfold path_after. rewrite Hpath, Hne. cbn [negb andb].
  destruct (occurs (TEXBIN environ) p) eqn:Hocc; cbn [negb].
  - exists p. split; [reflexivity|]. split; [exact Hocc|].
    split; [exact (endsWith_append "" p)|]. split; [reflexivity|].
    split; [discriminate|]. exact (Hidem p Hocc).
  - exists (TEXBIN environ ++ ":" ++ p). split; [reflexivity|].
    split; [apply occurs_append|].
    split; [|split; [discriminate|split]].
    + replace (TEXBIN environ ++ ":" ++ p) with ((TEXBIN environ ++ ":") ++ p)
        by (rewrite append_assoc; reflexivity).
      apply endsWith_append.
    + intros _. split; [reflexivity|]. apply path_entries_prepend.
    + apply Hidem. apply occurs_append.
Qed.

Lemma texbin_on_path_witness :
  path_after (fun k => if k =? "PATH" then Some "/usr/local/bin:/usr/bin" else None)
  = Some "/Library/TeX/texbin:/usr/local/bin:/usr/bin"
  /\ path_entries "/Library/TeX/texbin:/usr/local/bin:/usr/bin"
     = ["/Library/TeX/texbin"; "/usr/local/bin"; "/usr/bin"].
Proof.
  destruct (texbin_on_path
              (fun k => if k =? "PATH" then Some "/usr/local/bin:/usr/bin" else None)
              "/usr/local/bin:/usr/bin" eq_refl ltac:(discriminate))
    as (p' & H1 & _ & _ & _ & H2 & _).
  destruct (H2 eq_refl) as [-> H3]. split; [exact H1 | exact (H3 eq_refl)].
Defined.

(** The test is on the text: a [TEXBIN] that is part of a longer entry
    leaves the [PATH] as it is, and is then no entry of it. *)
Example texbin_inside_an_entry :
  let environ := fun k => if k =? "PATH" then Some "/usr/bin:/bin"
                          else if k =? "TEXBIN" then Some "/usr" else None in
  path_after environ = Some "/usr/bin:/bin"
  /\ path_entries "/usr/bin:/bin" = ["/usr/bin"; "/bin"].
Proof. split; reflexivity. Qed.

(** ** The share store *)

Lemma makeId_from_acc draws len :
  forall k s, Share.makeId_from draws len k s = s ++ Share.makeId_from draws len k "".
Proof.
  induction len as [|len IH]; intros k s; cbn [Share.makeId_from].
  - rewrite append_nil_r. reflexivity.
  - rewrite (IH (S k) (s ++ _)), (IH (S k) ("" ++ _)).
    cbn [append]. rewrite append_assoc. reflexivity.
Qed.

Lemma char_at_in_range i :
  i < 36 ->
  exists c, Share.char_at i = String c ""
            /\ existsb (Ascii.eqb c) (Share.units Share.chars) = true.
Proof.
  intros Hi.
  do 36 (destruct i as [|i]; [eexists; split; reflexivity|]).
  lia.
Qed.

Lemma units_append a b : Share.units (a ++ b) = (Share.units a ++ Share.units b)%list.
Proof.
  induction a as [|c a IH]; [reflexivity|]. cbn [append Share.units app]. rewrite IH.
  reflexivity.
Qed.

Lemma makeId_from_shape draws len :
  forall k,
    (forall i, k <= i < k + len -> draws i < 36) ->
    String.length (Share.makeId_from draws len k "") = len
    /\ alphanumeric (Share.makeId_from draws len k "") = true.
Proof.
  induction len as [|len IH]; intros k Hdraws; [split; reflexivity|].
  cbn [Share.makeId_from]. rewrite makeId_from_acc.
  destruct (char_at_in_range (draws k)) as (c & Hc & Hin); [apply Hdraws; lia|].
  destruct (IH (S k)) as [Hlen Hal]; [intros i Hi; apply Hdraws; lia|].
  cbn [append]. rewrite Hc. cbn [append String.length].
  split; [rewrite Hlen; reflexivity|].
  unfold alphanumeric in *. cbn [Share.units forallb]. rewrite Hin, Hal. reflexivity.
Qed.

(** X20.  [makeId] yields an identifier of the length asked for, made of
    lower-case letters and digits only, so that it holds no separator and
    no dot, and it uses up as many draws as it has characters.  This rests
    on [Math.random] giving a number below 1, that is, on every index
    drawn lying below the 36 characters. *)
Theorem makeId_alphanumeric draws len w :
  (forall i, Share.drawn w <= i < Share.drawn w + len -> draws i < 36) ->
  let '(id, w') := Share.makeId draws len w in
  String.length id = len
  /\ alphanumeric id = true
  /\ ~ In "/"%char (Share.units id) /\ ~ In "."%char (Share.units id)
  /\ Share.drawn w' = Share.drawn w + len
  /\ Share.files w' = Share.files w.
Proof.
  intros Hdraws. unfold Share.makeId.
  destruct (makeId_from_shape draws len (Share.drawn w) Hdraws) as [Hlen Hal].
  split; [exact Hlen|]. split; [exact Hal|].
  assert (Hnot : forall c, existsb (Ascii.eqb c) (Share.units Share.chars) = false ->
                           ~ In c (Share.units (Share.makeId_from draws len (Share.drawn w) ""))).
  { intros c Hc Hin. unfold alphanumeric in Hal. rewrite forallb_forall in Hal.
    rewrite (Hal c Hin) in Hc. discriminate. }
  split; [apply Hnot; reflexivity|]. split; [apply Hnot; reflexivity|].
  split; reflexivity.
Qed.

Lemma makeId_alphanumeric_witness :
  let '(id, w') := Share.makeId sample_draws 10 empty_world in
  String.length id = 10
  /\ alphanumeric id = true
  /\ ~ In "/"%char (Share.units id) /\ ~ In "."%char (Share.units id)
  /\ Share.drawn w' = 10
  /\ Share.files w' = [].
Proof.
  apply (makeId_alphanumeric sample_draws 10 empty_world).
  intros i _. unfold sample_draws. apply Nat.mod_upper_bound. discriminate.
Defined.

Lemma access_files w fs k p :
  Share.files w = fs ->
  Share.access {| Share.files := fs; Share.drawn := k |} p = Share.access w p.
Proof. intros <-. reflexivity. Qed.

Lemma avoid_collisions_spec draws dir w k rounds :
  forall j0,
  exists j,
    j0 <= j <= j0 + rounds
    /\ Share.avoid_collisions dir draws rounds (Share.candidate draws k j0)
         {| Share.files := Share.files w; Share.drawn := k + 10 * (j0 + 1) |}
       = (Share.candidate draws k j,
          {| Share.files := Share.files w; Share.drawn := k + 10 * (j + 1) |})
    /\ (forall i, j0 <= i < j ->
                  Share.access w (Share.share_file dir (Share.candidate draws k i)) = true)
    /\ (j < j0 + rounds ->
        Share.access w (Share.share_file dir (Share.candidate draws k j)) = false).
Proof.
  induction rounds as [|n IH]; intros j0.
  - exists j0. split; [lia|]. split; [reflexivity|]. split; intros; lia.
  - cbn [Share.avoid_collisions]. rewrite (access_files w) by reflexivity.
    destruct (Share.access w (Share.share_file dir (Share.candidate draws k j0))) eqn:Hacc.
    + destruct (IH (S j0)) as (j & Hj & Hrun & Hbefore & Hlast).
      exists j. split; [lia|]. split; [|split].
      * unfold Share.makeId. cbn [Share.files Share.drawn].
        replace (k + 10 * (j0 + 1) + 10) with (k + 10 * (S j0 + 1)) by lia.
        replace (Share.makeId_from draws 10 (k + 10 * (j0 + 1)) "")
          with (Share.candidate draws k (S j0))
          by (unfold Share.candidate; f_equal; lia).
        exact Hrun.
      * intros i Hi. destruct (Nat.eq_dec i j0) as [->|Hne]; [exact Hacc|].
        apply Hbefore. lia.
      * intros Hlt. apply Hlast. lia.
    + exists j0. split; [lia|]. split; [reflexivity|]. split; [intros; lia|].
      intros _. exact Hacc.
Qed.

(** What POST /api/share does with a body whose [md] is a string. *)
Lemma post_share_spec stringify dir draws now werr rq w md :
  field (Share.body rq) "md" = Some (JStr md) ->
  exists j,
    j <= 5
    /\ (forall i, i < j ->
                  Share.access w (Share.share_file dir
                                    (Share.candidate draws (Share.drawn w) i)) = true)
    /\ (j < 5 ->
        Share.access w (Share.share_file dir
                          (Share.candidate draws (Share.drawn w) j)) = false)
    /\ Share.post_share stringify dir draws now werr rq w
       = let id := Share.candidate draws (Share.drawn w) j in
         match werr (Share.share_file dir id) with
         | Some e =>
             ({| Share.files := Share.files w;
                 Share.drawn := Share.drawn w + 10 * (j + 1) |},
              reply 500 (JObj [("error", JStr "Failed to create share");
                               ("details", JStr (Proxy.describe e))]))
         | None =>
             ({| Share.files :=
                   (Share.share_file dir id, stringify (Share.payload_of now rq md))
                     :: Share.files w;
                 Share.drawn := Share.drawn w + 10 * (j + 1) |},
              reply 200 (JObj [("id", JStr id);
                               ("url", JStr (Share.reqBaseUrl rq ++ "/s/" ++ id))]))
         end.
Proof.
  intros Hmd.
  destruct (avoid_collisions_spec draws dir w (Share.drawn w) 5 0)
    as (j & Hj & Hrun & Hbefore & Hlast).
  exists j. split; [lia|]. split; [intros i Hi; apply Hbefore; lia|].
  split; [intros Hlt; apply Hlast; lia|].
  unfold Share.post_share. rewrite Hmd. unfold Share.makeId at 1.
  replace (Share.makeId_from draws 10 (Share.drawn w) "")
    with (Share.candidate draws (Share.drawn w) 0)
    by (unfold Share.candidate; f_equal; lia).
  replace (Share.drawn w + 10) with (Share.drawn w + 10 * (0 + 1)) by lia.
  rewrite Hrun. cbv zeta.
  destruct (werr _); reflexivity.
Qed.

(** X21.  The identifier of a share.  For a body whose [md] is a string,
    POST /api/share draws identifiers of ten characters one after the
    other and takes the first that names no stored share, giving up after
    five: the sixth is taken unchecked.  The share is written under that
    identifier, on top of the files that were there, and answered 200 with
    the identifier and its address; when the write fails nothing is stored
    and the answer is 500 with the description of the failure. *)
Theorem share_identifier stringify dir draws now werr rq w md :
  field (Share.body rq) "md" = Some (JStr md) ->
  let '(w', r) := Share.post_share stringify dir draws now werr rq w in
  exists j,
    let id := Share.candidate draws (Share.drawn w) j in
    j <= 5
    /\ (forall i, i < j ->
                  Share.access w (Share.share_file dir
                                    (Share.candidate draws (Share.drawn w) i)) = true)
    /\ (j < 5 -> Share.access w (Share.share_file dir id) = false)
    /\ Share.drawn w' = Share.drawn w + 10 * (j + 1)
    /\ match werr (Share.share_file dir id) with
       | None =>
           Share.files w'
           = (Share.share_file dir id, stringify (Share.payload_of now rq md))
               :: Share.files w
           /\ r = reply 200 (JObj [("id", JStr id);
                                   ("url", JStr (Share.reqBaseUrl rq ++ "/s/" ++ id))])
       | Some e =>
           Share.files w' = Share.files w
           /\ r = reply 500 (JObj [("error", JStr "Failed to create share");
                                   ("details", JStr (Proxy.describe e))])
       end.
Proof.
  intros Hmd.
  destruct (post_share_spec stringify dir draws now werr rq w md Hmd)
    as (j & Hj & Hbefore & Hlast & ->).
  cbv zeta.
  destruct (werr (Share.share_file dir (Share.candidate draws (Share.drawn w) j))) eqn:Hw;
    exists j; cbv zeta; rewrite Hw; repeat split; assumption.
Qed.

Lemma share_identifier_witness :
  snd (Share.post_share sample_stringify "/tmp/edugen-shares" sample_draws
                        "2025-01-01T00:00:00.000Z" (fun _ => None)
                        sample_share empty_world)
  = reply 200 (JObj [("id", JStr "dkry5cjqx4");
                     ("url", JStr "https://edugen.example/s/dkry5cjqx4")]).
Proof.
  pose proof (share_identifier sample_stringify "/tmp/edugen-shares" sample_draws
                "2025-01-01T00:00:00.000Z" (fun _ => None)
                sample_share empty_world "# Notes" eq_refl) as H.
  destruct (Share.post_share _ _ _ _ _ _ _) as [w' r].
  destruct H as (j & Hj & Hbefore & _ & _ & _ & Hr).
  destruct j as [|j]; [exact Hr|].
  specialize (Hbefore 0 (Nat.lt_0_succ j)). discriminate Hbefore.
Defined.

Lemma append_cancel_l (a x y : string) : a ++ x = a ++ y -> x = y.
Proof.
  induction a as [|c a IH]; intros H; [exact H|].
  cbn [append] in H. inversion H. auto.
Qed.

Lemma append_cancel_r (b : string) : forall x y, x ++ b = y ++ b -> x = y.
Proof.
  induction x as [|c x IH]; intros y H.
  - destruct y as [|d y]; [reflexivity|].
    apply (f_equal String.length) in H. cbn [append String.length] in H.
    rewrite length_append in H. lia.
  - destruct y as [|d y].
    + apply (f_equal String.length) in H. cbn [append String.length] in H.
      rewrite length_append in H. lia.
    + cbn [append] in H. inversion H. f_equal. auto.
Qed.

Lemma segments_nonempty (s : string) : Share.segments s <> [].
Proof.
  destruct s as [|c s]; cbn [Share.segments]; [discriminate|].
  destruct (Ascii.eqb c "/"); [discriminate|].
  destruct (Share.segments s); discriminate.
Qed.

Lemma segments_plain (x : string) :
  Share.plain x = true -> Share.segments x = [x].
Proof.
  induction x as [|c x IH]; intros H; [reflexivity|].
  cbn [Share.plain] in H. apply andb_true_iff in H. destruct H as [Hc Hx].
  cbn [Share.segments]. apply negb_true_iff in Hc. rewrite Hc, (IH Hx). reflexivity.
Qed.

Lemma segments_append_plain (a x : string) :
  Share.plain x = true ->
  Share.segments (a ++ "/" ++ x) = (Share.segments a ++ [x])%list.
Proof.
  intros Hx. induction a as [|c a IH].
  - cbn [append Share.segments]. rewrite (segments_plain x Hx). reflexivity.
  - change (String c a ++ "/" ++ x) with (String c (a ++ "/" ++ x)).
    cbn [Share.segments]. rewrite IH.
    destruct (Ascii.eqb c "/"); [reflexivity|].
    pose proof (segments_nonempty a) as Hne.
    destruct (Share.segments a) as [|seg more]; [contradiction|reflexivity].
Qed.

Lemma plain_append (a b : string) :
  Share.plain (a ++ b) = Share.plain a && Share.plain b.
Proof.
  induction a as [|c a IH]; [reflexivity|].
  cbn [append Share.plain]. rewrite IH, andb_assoc. reflexivity.
Qed.

Lemma longer_differs (a b : string) :
  String.length b < String.length a -> (a =? b) = false.
Proof.
  intros H. apply String.eqb_neq. intros ->. lia.
Qed.

Lemma concat_snoc (l : list string) (x : string) :
  String.concat "/" (l ++ [x])
  = match l with
    | [] => x
    | _ :: _ => String.concat "/" l ++ "/" ++ x
    end.
Proof.
  induction l as [|a l IH]; [reflexivity|].
  destruct l as [|b l]; [reflexivity|].
  change (String.concat "/" ((a :: b :: l) ++ [x]))
    with (a ++ "/" ++ String.concat "/" ((b :: l) ++ [x])).
  rewrite IH.
  change (String.concat "/" (a :: b :: l)) with (a ++ "/" ++ String.concat "/" (b :: l)).
  rewrite !append_assoc. reflexivity.
Qed.

Lemma last_unit_append (a b : string) :
  b <> "" -> Share.last_unit (a ++ b) = Share.last_unit b.
Proof.
  intros Hb. induction a as [|c a IH]; [reflexivity|].
  cbn [append]. destruct (a ++ b) as [|d rest] eqn:Hab.
  - destruct a; [cbn in Hab; contradiction|discriminate Hab].
  - cbn [Share.last_unit]. exact IH.
Qed.

(** For an identifier that holds no separator, [path.join] has nothing to
    normalise in it: the file of the share is the identifier and [.json]
    after a prefix that [SHARE_DIR] alone decides. *)
Lemma share_file_plain (dir : string) :
  exists prefix,
    forall id, Share.plain id = true ->
               Share.share_file dir id = prefix ++ id ++ ".json".
Proof.
  assert (Hreg : forall id, (id ++ ".json" =? "") = false
                            /\ (id ++ ".json" =? ".") = false
                            /\ (id ++ ".json" =? "..") = false).
  { intros id. repeat split; apply longer_differs; rewrite length_append;
      cbn [String.length]; lia. }
  assert (Hlast : forall a id, Share.is_slash (Share.last_unit (a ++ id ++ ".json")) = false).
  { intros a id. rewrite <- append_assoc, last_unit_append by discriminate. reflexivity. }
  assert (Hplain : forall id, Share.plain id = true -> Share.plain (id ++ ".json") = true).
  { intros id H. rewrite plain_append, H. reflexivity. }
  unfold Share.share_file, Share.join.
  destruct (dir =? "") eqn:Hdir.
  - exists "". intros id Hid. destruct (Hreg id) as (He & _ & _). rewrite He.
    unfold Share.normalize, Share.normalizeString. rewrite He.
    rewrite (segments_plain _ (Hplain id Hid)). cbn [fold_left].
    unfold Share.resolve_segment. destruct (Hreg id) as (-> & -> & ->).
    cbn [orb rev app String.concat]. rewrite He.
    pose proof (Hlast "" id) as Hl. change ("" ++ id ++ ".json") with (id ++ ".json") in Hl.
    rewrite Hl.
    replace (Share.is_slash (String.get 0 (id ++ ".json"))) with false; [reflexivity|].
    destruct id as [|c id]; [reflexivity|].
    cbn [Share.plain] in Hid. apply andb_true_iff in Hid. destruct Hid as [Hc _].
    apply negb_true_iff in Hc. cbn. rewrite Hc. reflexivity.
  - set (absolute := Share.is_slash (String.get 0 dir)).
    set (kept := fold_left (Share.resolve_segment (negb absolute)) (Share.segments dir) []).
    exists ((if absolute then "/" else "")
            ++ match rev kept with
               | [] => ""
               | _ :: _ => String.concat "/" (rev kept) ++ "/"
               end).
    intros id Hid. destruct (Hreg id) as (He & Hdot & Hdots). rewrite He.
    set (path := dir ++ "/" ++ id ++ ".json").
    assert (F1 : (path =? "") = false).
    { apply longer_differs. unfold path. rewrite !length_append. cbn [String.length]. lia. }
    assert (F2 : Share.is_slash (String.get 0 path) = absolute).
    { unfold absolute, path. destruct dir; [discriminate Hdir|reflexivity]. }
    assert (F3 : Share.is_slash (Share.last_unit path) = false).
    { unfold path.
      replace (dir ++ "/" ++ id ++ ".json") with ((dir ++ "/") ++ id ++ ".json")
        by (rewrite append_assoc; reflexivity).
      apply Hlast. }
    assert (F4 : Share.normalizeString path (negb absolute)
                 = match rev kept with
                   | [] => id ++ ".json"
                   | _ :: _ => String.concat "/" (rev kept) ++ "/" ++ id ++ ".json"
                   end).
    { unfold Share.normalizeString, path.
      rewrite (segments_append_plain dir _ (Hplain id Hid)).
      rewrite fold_left_app. fold kept. cbn [fold_left].
      unfold Share.resolve_segment. rewrite He, Hdot, Hdots. cbn [orb rev].
      apply concat_snoc. }
    unfold Share.normalize. rewrite F1, F2, F3, F4.
    assert (Hp : forall w, (w ++ id ++ ".json" =? "") = false).
    { intros w. apply longer_differs. rewrite !length_append. cbn [String.length]. lia. }
    destruct (rev kept) as [|k0 ks].
    + rewrite He. destruct absolute; reflexivity.
    + replace (String.concat "/" (k0 :: ks) ++ "/" ++ id ++ ".json")
        with ((String.concat "/" (k0 :: ks) ++ "/") ++ id ++ ".json")
        by (rewrite append_assoc; reflexivity).
      rewrite Hp. destruct absolute; reflexivity.
Qed.

Lemma share_file_inj dir a b :
  Share.plain a = true -> Share.plain b = true ->
  Share.share_file dir a = Share.share_file dir b -> a = b.
Proof.
  intros Ha Hb H. destruct (share_file_plain dir) as [prefix Hfile].
  rewrite (Hfile a Ha), (Hfile b Hb) in H.
  apply append_cancel_l in H. exact (append_cancel_r _ _ _ H).
Qed.

Lemma char_at_plain (i : nat) : Share.plain (Share.char_at i) = true.
Proof.
  do 36 (destruct i as [|i]; [reflexivity|]). reflexivity.
Qed.

Lemma makeId_from_plain draws len :
  forall k, Share.plain (Share.makeId_from draws len k "") = true.
Proof.
  induction len as [|len IH]; intros k; [reflexivity|].
  cbn [Share.makeId_from]. rewrite makeId_from_acc, plain_append.
  cbn [append]. rewrite char_at_plain, IH. reflexivity.
Qed.

(** X22.  A share can be read back.  When POST /api/share answers 200,
    the body of the request had a string [md], the answer names an
    identifier and the address [<base>/s/<id>], and GET /s/<id>.json on
    the store it leaves answers 200 with the content type of JSON and the
    very text that was stored: the serialised payload, with the [md] of
    the request, the four groups of assets (each replaced by the empty
    object when it is not an object), the time of creation and version 1.
    An identifier that [path.join] resolves to another file is answered
    as it was before; so is, in particular, every other identifier that
    holds no separator.  (An identifier with separators may resolve to the
    file of the new share, and is then answered with it.) *)
Theorem share_round_trip stringify dir draws now werr rq w w' r :
  Share.post_share stringify dir draws now werr rq w = (w', r) ->
  status r = 200 ->
  exists md id,
    field (Share.body rq) "md" = Some (JStr md)
    /\ r = reply 200 (JObj [("id", JStr id);
                            ("url", JStr (Share.reqBaseUrl rq ++ "/s/" ++ id))])
    /\ Share.get_share dir id w'
       = {| status := 200;
            headers := [("Content-Type", JStr "application/json")];
            content :=
              Binary (stringify
                        (JObj [("md", JStr md);
                               ("images",
                                Share.object_or_empty (field (Share.body rq) "images"));
                               ("videos",
                                Share.object_or_empty (field (Share.body rq) "videos"));
                               ("interactive",
                                Share.object_or_empty (field (Share.body rq) "interactive"));
                               ("sizes",
                                Share.object_or_empty (field (Share.body rq) "sizes"));
                               ("createdAt", JStr now);
                               ("version", JNum 1)])) |}
    /\ (forall other,
           Share.share_file dir other <> Share.share_file dir id ->
           Share.get_share dir other w' = Share.get_share dir other w)
    /\ (forall other,
           Share.plain other = true -> other <> id ->
           Share.get_share dir other w' = Share.get_share dir other w).
Proof.
  intros Hrun H200.
  destruct (field (Share.body rq) "md") as [v|] eqn:Hmd;
    [destruct v as [| | |md| |]|];
    try (unfold Share.post_share in Hrun; rewrite Hmd in Hrun;
         inversion Hrun; subst; discriminate H200).
  destruct (post_share_spec stringify dir draws now werr rq w md Hmd)
    as (j & _ & _ & _ & Heq).
  rewrite Hrun in Heq. cbv zeta in Heq.
  destruct (werr _) as [e|]; inversion Heq; subst; [discriminate H200|].
  exists md, (Share.candidate draws (Share.drawn w) j).
  assert (Hother : forall other,
             Share.share_file dir other
             <> Share.share_file dir (Share.candidate draws (Share.drawn w) j) ->
             Share.get_share dir other
               {| Share.files :=
                    (Share.share_file dir (Share.candidate draws (Share.drawn w) j),
                     stringify (Share.payload_of now rq md)) :: Share.files w;
                  Share.drawn := Share.drawn w + 10 * (j + 1) |}
             = Share.get_share dir other w).
  { intros other Hne. unfold Share.get_share, Share.readFile.
    cbn [Share.files Share.header].
    destruct (Share.share_file dir (Share.candidate draws (Share.drawn w) j)
              =? Share.share_file dir other) eqn:Hsame; [|reflexivity].
    apply String.eqb_eq in Hsame. exfalso. apply Hne. symmetry. exact Hsame. }
  split; [reflexivity|]. split; [reflexivity|]. split; [|split].
  - unfold Share.get_share, Share.readFile. cbn [Share.files Share.header].
    rewrite String.eqb_refl. reflexivity.
  - exact Hother.
  - intros other Hplain Hne. apply Hother. intros Hsame. apply Hne.
    apply (share_file_inj dir); [exact Hplain | apply makeId_from_plain | exact Hsame].
Qed.

Lemma share_round_trip_witness :
  exists id,
    Share.get_share "/tmp/edugen-shares" id
      (fst (Share.post_share sample_stringify "/tmp/edugen-shares" sample_draws
                             "2025-01-01T00:00:00.000Z" (fun _ => None)
                             sample_share empty_world))
    = {| status := 200;
         headers := [("Content-Type", JStr "application/json")];
         content :=
           Binary (sample_stringify
                     (JObj [("md", JStr "# Notes"); ("images", JObj []);
                            ("videos", JObj []); ("interactive", JObj []);
                            ("sizes", JObj [("fig1", JNum 320)]);
                            ("createdAt", JStr "2025-01-01T00:00:00.000Z");
                            ("version", JNum 1)])) |}.
Proof.
  destruct (share_round_trip sample_stringify "/tmp/edugen-shares" sample_draws
              "2025-01-01T00:00:00.000Z" (fun _ => None) sample_share empty_world
              _ _ eq_refl eq_refl) as (md & id & Hmd & _ & Hget & _).
  inversion Hmd; subst md. exists id. exact Hget.
Defined.

(** [path.join] normalises what it joins, so that an identifier with
    separators can name the file of another share: it is not found before
    that share is made, and is answered with it afterwards. *)
Example identifier_with_separators :
  Share.share_file "/tmp/edugen-shares" "a/../dkry5cjqx4"
  = "/tmp/edugen-shares/dkry5cjqx4.json"
  /\ status (Share.get_share "/tmp/edugen-shares" "a/../dkry5cjqx4" empty_world) = 404
  /\ status (Share.get_share "/tmp/edugen-shares" "a/../dkry5cjqx4"
               (fst (Share.post_share sample_stringify "/tmp/edugen-shares" sample_draws
                                      "2025-01-01T00:00:00.000Z" (fun _ => None)
                                      sample_share empty_world)))
     = 200.
Proof. repeat split. Qed.

Example join_normalises :
  Share.join "/tmp//x/" "./y/../z.json" = "/tmp/x/z.json"
  /\ Share.join "rel" "../../a.json" = "../a.json"
  /\ Share.join "/" "../a.json" = "/a.json"
  /\ Share.join "a/" "b/" = "a/b/"
  /\ Share.join "" "" = "."
  /\ Share.join "a" ".." = ".".
Proof. repeat split. Qed.

(** X23.  POST /api/share asks for [md] by type only.  The answer is 400
    exactly when the body has no [md] or an [md] that is not a string; an
    empty string is a string and is shared.  A refused request draws no
    identifier and leaves the store as it was. *)
Theorem share_requires_md stringify dir draws now werr rq w :
  (status (snd (Share.post_share stringify dir draws now werr rq w)) = 400
   <-> is_string (field (Share.body rq) "md") = false)
  /\ (is_string (field (Share.body rq) "md") = false ->
      Share.post_share stringify dir draws now werr rq w = (w, Share.missing_md))
  /\ (field (Share.body rq) "md" = Some (JStr "") ->
      status (snd (Share.post_share stringify dir draws now werr rq w)) <> 400).
Proof.
  assert (Hstr : forall md, field (Share.body rq) "md" = Some (JStr md) ->
                            status (snd (Share.post_share stringify dir draws now werr rq w))
                            <> 400).
  { intros md Hmd.
    destruct (post_share_spec stringify dir draws now werr rq w md Hmd)
      as (j & _ & _ & _ & ->).
    cbv zeta. destruct (werr _); discriminate. }
  assert (Hnot : is_string (field (Share.body rq) "md") = false ->
                 Share.post_share stringify dir draws now werr rq w
                 = (w, Share.missing_md)).
  { intros H. unfold Share.post_share.
    destruct (field (Share.body rq) "md") as [[| | |md| |]|]; try reflexivity.
    discriminate H. }
  split; [split|split].
  - intros H400. destruct (field (Share.body rq) "md") as [[| | |md| |]|] eqn:Hmd;
      try reflexivity.
    exfalso. exact (Hstr md eq_refl H400).
  - intros H. rewrite (Hnot H). reflexivity.
  - exact Hnot.
  - apply Hstr.
Qed.

(** ** A child that exits with 0 *)

Lemma found_file_truthy work root name f :
  findFileRecursive work root name = Some f -> falsy (Some f) = false.
Proof.
  intros H. destruct (falsy (Some f)) eqn:Hf; [|reflexivity].
  unfold falsy in Hf. apply String.eqb_eq in Hf. subst f.
  rewrite findFileRecursive_traversal in H.
  destruct (find _ (traversal work root)) as [[n p]|] eqn:Hfind; [|discriminate].
  cbn [option_map snd] in H. inversion H; subst p.
  apply find_some in Hfind. destruct Hfind as [Hin _].
  apply traversal_file_at in Hin. cbn [fst snd] in Hin.
  destruct (proj1 (file_at_inside _ _ _ _ Hin)) as [rest Hrest].
  exfalso. exact (path_join_nonempty _ _ (eq_sym Hrest)).
Qed.

Lemma found_asy_truthy work root ext stem f :
  findAsyOutput work root ext stem = Some f -> falsy (Some f) = false.
Proof.
  intros H. destruct (falsy (Some f)) eqn:Hf; [|reflexivity].
  unfold falsy in Hf. apply String.eqb_eq in Hf. subst f.
  assert (Hin : exists n, In (n, "") (traversal work root)).
  { rewrite findAsyOutput_traversal in H.
    destruct (find (fun v : visit => includes (preferred stem ext) (fst v))
                   (traversal work root)) as [[n p]|] eqn:Hpref.
    - inversion H; subst. apply find_some in Hpref. exists n. exact (proj1 Hpref).
    - destruct (find (fun v : visit => endsWith (fst v) ("." ++ ext)) (traversal work root))
        as [[n p]|] eqn:Hext; [|discriminate].
      cbn [option_map snd] in H. inversion H; subst.
      apply find_some in Hext. exists n. exact (proj1 Hext). }
  destruct Hin as [n Hin]. apply traversal_file_at in Hin. cbn [fst snd] in Hin.
  destruct (proj1 (file_at_inside _ _ _ _ Hin)) as [rest Hrest].
  exfalso. exact (path_join_nonempty _ _ (eq_sym Hrest)).
Qed.

Ltac same_listing :=
  match goal with
  | H : readdir ?E ?t ?w = _, H' : readdir ?E ?t ?w = _ |- _ =>
      rewrite H in H'; inversion H'; subst; clear H'
  end.

Ltac same_read :=
  match goal with
  | H : readFile ?E ?t ?f = _, H' : readFile ?E ?t ?f = _ |- _ =>
      rewrite H in H'; inversion H'; subst; clear H'
  end.

Ltac close_zero :=
  repeat match goal with
         | H : inr _ = inr _ |- _ => inversion H; subst; clear H
         end;
  try same_listing;
  first
    [ match goal with
      | H : (_ =? _)%Z = false |- _ => discriminate H
      end
    | congruence
    | match goal with
      | Hfound : ?loc = Some ?f, H : falsy ?loc = true |- _ =>
          rewrite Hfound in H;
          first [ rewrite (found_file_truthy _ _ _ _ Hfound) in H
                | rewrite (found_asy_truthy _ _ _ _ _ Hfound) in H ];
          discriminate H
      end
    | match goal with
      | Hfound : ?loc = None, H : falsy ?loc = false |- _ =>
          rewrite Hfound in H; discriminate H
      end
    | try match goal with
          | Hfound : ?loc = Some _ |- _ => rewrite Hfound in *
          end;
      cbn [string_of] in *; try same_read;
      first [ congruence
            | split; [reflexivity | repeat rewrite <- app_assoc; reflexivity] ] ].

Lemma render_listen_missing E work fmt out t d o e root :
  readdir E t work = inr root ->
  findFileRecursive work root (if fmt =? "gif" then "out.gif" else "out.mp4") = None ->
  let '(s', r) :=
    listen (render_listener E work fmt) (Child out (Exits (Some 0%Z)))
           {| trace := t; dirs := d; responded := false; stdout := o; stderr := e |} in
  r = Done tt
  /\ trace s'
     = (t ++ [Walk work;
              Send (reply 500 (JObj [("error", JStr "Output not found");
                                     ("stdout", JStr (o ++ stdout_of out));
                                     ("stderr", JStr (e ++ stderr_of out))]));
              Rm work; Rm work])%list.
Proof.
  intros Hread. unfold listen. unfold bind at 1.
  rewrite events_eq. cbn [output ending_of].
  rewrite deliver_output by reflexivity. rewrite absorb_streams. cbn [fst snd].
  exec; intros Hfound; close_zero.
Qed.

Lemma render_listen_found E work fmt out t d o e root f data :
  readdir E t work = inr root ->
  findFileRecursive work root (if fmt =? "gif" then "out.gif" else "out.mp4") = Some f ->
  readFile E (t ++ [Walk work]) f = inr data ->
  let '(s', r) :=
    listen (render_listener E work fmt) (Child out (Exits (Some 0%Z)))
           {| trace := t; dirs := d; responded := false; stdout := o; stderr := e |} in
  r = Done tt
  /\ trace s'
     = (t ++ [Walk work; ReadFile f;
              Send (artifact_response (render_type fmt) data); Rm work])%list.
Proof.
  intros Hread. unfold listen. unfold bind at 1.
  rewrite events_eq. cbn [output ending_of].
  rewrite deliver_output by reflexivity.
  generalize (fst (absorb out (o, e))) (snd (absorb out (o, e))). intros o' e'.
  unfold render_type, artifact_response.
  exec; intros Hfound Hdata; close_zero.
Qed.

Lemma asy_listen_missing E work fmt ext stem out t d o e root :
  readdir E t work = inr root ->
  findAsyOutput work root ext stem = None ->
  let '(s', r) :=
    listen (asy_listener E work fmt ext stem) (Child out (Exits (Some 0%Z)))
           {| trace := t; dirs := d; responded := false; stdout := o; stderr := e |} in
  r = Done tt
  /\ trace s'
     = (t ++ [Walk work;
              Send (reply 500 (JObj [("error", JStr "Output not found");
                                     ("stdout", JStr (o ++ stdout_of out));
                                     ("stderr", JStr (e ++ stderr_of out))]));
              Rm work; Rm work])%list.
Proof.
  intros Hread. unfold listen. unfold bind at 1.
  rewrite events_eq. cbn [output ending_of].
  rewrite deliver_output by reflexivity. rewrite absorb_streams. cbn [fst snd].
  exec; intros Hfound; close_zero.
Qed.

Lemma asy_listen_found E work fmt ext stem out t d o e root f data :
  readdir E t work = inr root ->
  findAsyOutput work root ext stem = Some f ->
  readFile E (t ++ [Walk work]) f = inr data ->
  let '(s', r) :=
    listen (asy_listener E work fmt ext stem) (Child out (Exits (Some 0%Z)))
           {| trace := t; dirs := d; responded := false; stdout := o; stderr := e |} in
  r = Done tt
  /\ trace s'
     = (t ++ [Walk work; ReadFile f;
              Send (artifact_response (asy_type fmt) data); Rm work])%list.
Proof.
  intros Hread. unfold listen. unfold bind at 1.
  rewrite events_eq. cbn [output ending_of].
  rewrite deliver_output by reflexivity.
  generalize (fst (absorb out (o, e))) (snd (absorb out (o, e))). intros o' e'.
  unfold asy_type, artifact_response.
  exec; intros Hfound Hdata; close_zero.
Qed.

(** X24.  POST /render, from a clean exit to the artifact.  When the
    renderer exits with 0, the walk of the scratch directory finds a file
    called [out.<fmt>] and that file can be read, the request lists the
    directory, reads that file, answers with its bytes under the content
    type of the format and removes the directory once, in that order;
    this is so whether or not [res.send] throws. *)
Theorem render_delivers E C body s reg root f data :
  render_setup E C body init = (s, Done (Some reg)) ->
  let work := workdir reg in
  let fmt := toLowerCase (String_ (default (field body "format") (JStr "mp4"))) in
  ending_of (the_child reg) = Exits (Some 0%Z) ->
  readdir E (trace s) work = inr root ->
  findFileRecursive work root ("out." ++ fmt) = Some f ->
  readFile E (trace s ++ [Walk work]) f = inr data ->
  trace (fst (run_render E C body))
  = (trace s ++ [Walk work; ReadFile f;
                 Send (artifact_response (render_type fmt) data); Rm work])%list
  /\ snd (run_render E C body) = Done tt.
Proof.
  intros Hs work fmt Hend Hread Hfound Hdata.
  pose proof (render_setup_registered E C (field body "code")
                (default (field body "scene") (JStr "GeneratedScene"))
                (default (field body "format") (JStr "mp4"))
                (default (field body "quality") (JStr "ql"))) as Hreg.
  fold (render_setup E C body) in Hreg. rewrite Hs in Hreg.
  destruct Hreg as (pre & _ & _ & Hsel & _).
  unfold render_selectors in Hsel. apply andb_true_iff in Hsel. destruct Hsel as [_ Hfmt].
  fold fmt in Hfmt. rewrite <- (render_formats fmt Hfmt) in Hfound.
  rewrite (render_run_registered _ _ _ _ _ Hs). fold fmt work.
  destruct (the_child reg) as [out en]. cbn [ending_of output] in *. subst en.
  pose proof (render_listen_found E work fmt out (trace s) (dirs s) "" "" root f data
                                  Hread Hfound Hdata) as HL.
  destruct (listen _ _ _) as [s' r']. destruct HL as [Hr Htr].
  split; [exact Htr | exact Hr].
Qed.

Lemma render_delivers_witness :
  sent (trace (fst (run_render host cfg
                               (request [("code", JStr "class S(Scene): pass");
                                         ("format", JStr "MP4")]))))
  = [artifact_response "video/mp4" "artifact bytes"].
Proof.
  rewrite (proj1 (render_delivers host cfg
             (request [("code", JStr "class S(Scene): pass"); ("format", JStr "MP4")])
             (fst (render_setup host cfg
                     (request [("code", JStr "class S(Scene): pass");
                               ("format", JStr "MP4")]) init))
             (Registered (Child [Err "rendering"; Out "done"] (Exits (Some 0%Z)))
                         "/tmp/manim-Ab12Cd"
                         (render_listener host "/tmp/manim-Ab12Cd" "mp4"))
             rendered "/tmp/manim-Ab12Cd/media/videos/scene/480p15/out.mp4"
             "artifact bytes" eq_refl eq_refl eq_refl eq_refl eq_refl)).
  reflexivity.
Defined.

(** X25.  POST /render, from a clean exit to no artifact.  When the
    renderer exits with 0 and the walk of the scratch directory finds no
    file called [out.<fmt>], the request answers 500 [Output not found]
    with all the child wrote on its two streams, reads no file, and calls
    [cleanup] twice: once where it answers and once in [finally]. *)
Theorem render_missing_output E C body s reg root :
  render_setup E C body init = (s, Done (Some reg)) ->
  let work := workdir reg in
  let fmt := toLowerCase (String_ (default (field body "format") (JStr "mp4"))) in
  ending_of (the_child reg) = Exits (Some 0%Z) ->
  readdir E (trace s) work = inr root ->
  findFileRecursive work root ("out." ++ fmt) = None ->
  trace (fst (run_render E C body))
  = (trace s
     ++ [Walk work;
         Send (reply 500
                 (JObj [("error", JStr "Output not found");
                        ("stdout", JStr (stdout_of (output (the_child reg))));
                        ("stderr", JStr (stderr_of (output (the_child reg))))]));
         Rm work; Rm work])%list
  /\ snd (run_render E C body) = Done tt.
Proof.
  intros Hs work fmt Hend Hread Hfound.
  pose proof (render_setup_registered E C (field body "code")
                (default (field body "scene") (JStr "GeneratedScene"))
                (default (field body "format") (JStr "mp4"))
                (default (field body "quality") (JStr "ql"))) as Hreg.
  fold (render_setup E C body) in Hreg. rewrite Hs in Hreg.
  destruct Hreg as (pre & _ & _ & Hsel & _).
  unfold render_selectors in Hsel. apply andb_true_iff in Hsel. destruct Hsel as [_ Hfmt].
  fold fmt in Hfmt. rewrite <- (render_formats fmt Hfmt) in Hfound.
  rewrite (render_run_registered _ _ _ _ _ Hs). fold fmt work.
  destruct (the_child reg) as [out en]. cbn [ending_of output] in *. subst en.
  pose proof (render_listen_missing E work fmt out (trace s) (dirs s) "" "" root
                                    Hread Hfound) as HL.
  destruct (listen _ _ _) as [s' r']. destruct HL as [Hr Htr].
  split; [exact Htr | exact Hr].
Qed.

Lemma render_missing_output_witness :
  sent (trace (fst (run_render (no_artifact host) cfg
                               (request [("code", JStr "class S(Scene): pass")]))))
  = [reply 500 (JObj [("error", JStr "Output not found");
                      ("stdout", JStr "done");
                      ("stderr", JStr "rendering")])].
Proof.
  rewrite (proj1 (render_missing_output (no_artifact host) cfg
             (request [("code", JStr "class S(Scene): pass")])
             (fst (render_setup (no_artifact host) cfg
                     (request [("code", JStr "class S(Scene): pass")]) init))
             (Registered (Child [Err "rendering"; Out "done"] (Exits (Some 0%Z)))
                         "/tmp/manim-Ab12Cd"
                         (render_listener (no_artifact host) "/tmp/manim-Ab12Cd" "mp4"))
             [File "main.asy"; File "scene.py"]
             eq_refl eq_refl eq_refl eq_refl)).
  reflexivity.
Defined.

(** X26.  POST /asy, from a clean exit to the artifact.  When the tool
    exits with 0, [findAsyOutput] finds a file for the extension of the
    format and that file can be read, the request lists the scratch
    directory, reads that file, answers with its bytes under the content
    type of the format and removes the directory once, in that order. *)
Theorem asy_delivers E C body s reg root f data :
  asy_setup E C body init = (s, Done (Some reg)) ->
  let work := workdir reg in
  let fmt := toLowerCase (String_ (default (field body "format") (JStr "png"))) in
  ending_of (the_child reg) = Exits (Some 0%Z) ->
  readdir E (trace s) work = inr root ->
  findAsyOutput work root fmt "out" = Some f ->
  readFile E (trace s ++ [Walk work]) f = inr data ->
  trace (fst (run_asy E C body))
  = (trace s ++ [Walk work; ReadFile f;
                 Send (artifact_response (asy_type fmt) data); Rm work])%list
  /\ snd (run_asy E C body) = Done tt.
Proof.
  intros Hs work fmt Hend Hread Hfound Hdata.
  pose proof (asy_setup_registered E C (field body "code")
                (default (field body "format") (JStr "png"))) as Hreg.
  fold (asy_setup E C body) in Hreg. rewrite Hs in Hreg.
  destruct Hreg as (_ & Hfmt & _).
  unfold asy_selector in Hfmt. fold fmt in Hfmt.
  rewrite (asy_run_registered _ _ _ _ _ Hs). fold fmt work.
  rewrite (asy_formats fmt Hfmt).
  destruct (the_child reg) as [out en]. cbn [ending_of output] in *. subst en.
  pose proof (asy_listen_found E work fmt fmt "out" out (trace s) (dirs s) "" "" root f data
                               Hread Hfound Hdata) as HL.
  destruct (listen _ _ _) as [s' r']. destruct HL as [Hr Htr].
  split; [exact Htr | exact Hr].
Qed.

Lemma asy_delivers_witness :
  sent (trace (fst (run_asy host cfg
                            (request [("code", JStr "draw(unitcircle);");
                                      ("format", JStr "svg")]))))
  = [artifact_response "image/svg+xml" "artifact bytes"].
Proof.
  rewrite (proj1 (asy_delivers host cfg
             (request [("code", JStr "draw(unitcircle);"); ("format", JStr "svg")])
             (fst (asy_setup host cfg
                     (request [("code", JStr "draw(unitcircle);");
                               ("format", JStr "svg")]) init))
             (Registered (Child [Err "rendering"; Out "done"] (Exits (Some 0%Z)))
                         "/tmp/asy-Ab12Cd"
                         (asy_listener host "/tmp/asy-Ab12Cd" "svg" "svg" "out"))
             rendered "/tmp/asy-Ab12Cd/out.svg"
             "artifact bytes" eq_refl eq_refl eq_refl eq_refl eq_refl)).
  reflexivity.
Defined.

(** X27.  POST /asy, from a clean exit to no artifact.  When the tool
    exits with 0 and [findAsyOutput] finds nothing for the extension of
    the format, the request answers 500 [Output not found] with all the
    child wrote on its two streams, reads no file, and calls [cleanup]
    twice. *)
Theorem asy_missing_output E C body s reg root :
  asy_setup E C body init = (s, Done (Some reg)) ->
  let work := workdir reg in
  let fmt := toLowerCase (String_ (default (field body "format") (JStr "png"))) in
  ending_of (the_child reg) = Exits (Some 0%Z) ->
  readdir E (trace s) work = inr root ->
  findAsyOutput work root fmt "out" = None ->
  trace (fst (run_asy E C body))
  = (trace s
     ++ [Walk work;
         Send (reply 500
                 (JObj [("error", JStr "Output not found");
                        ("stdout", JStr (stdout_of (output (the_child reg))));
                        ("stderr", JStr (stderr_of (output (the_child reg))))]));
         Rm work; Rm work])%list
  /\ snd (run_asy E C body) = Done tt.
Proof.
  intros Hs work fmt Hend Hread Hfound.
  pose proof (asy_setup_registered E C (field body "code")
                (default (field body "format") (JStr "png"))) as Hreg.
  fold (asy_setup E C body) in Hreg. rewrite Hs in Hreg.
  destruct Hreg as (_ & Hfmt & _).
  unfold asy_selector in Hfmt. fold fmt in Hfmt.
  rewrite (asy_run_registered _ _ _ _ _ Hs). fold fmt work.
  rewrite (asy_formats fmt Hfmt).
  destruct (the_child reg) as [out en]. cbn [ending_of output] in *. subst en.
  pose proof (asy_listen_missing E work fmt fmt "out" out (trace s) (dirs s) "" "" root
                                 Hread Hfound) as HL.
  destruct (listen _ _ _) as [s' r']. destruct HL as [Hr Htr].
  split; [exact Htr | exact Hr].
Qed.

Lemma asy_missing_output_witness :
  sent (trace (fst (run_asy (no_artifact host) cfg
                            (request [("code", JStr "draw(unitcircle);")]))))
  = [reply 500 (JObj [("error", JStr "Output not found");
                      ("stdout", JStr "done");
                      ("stderr", JStr "rendering")])].
Proof.
  rewrite (proj1 (asy_missing_output (no_artifact host) cfg
             (request [("code", JStr "draw(unitcircle);")])
             (fst (asy_setup (no_artifact host) cfg
                     (request [("code", JStr "draw(unitcircle);")]) init))
             (Registered (Child [Err "rendering"; Out "done"] (Exits (Some 0%Z)))
                         "/tmp/asy-Ab12Cd"
                         (asy_listener (no_artifact host) "/tmp/asy-Ab12Cd" "png" "png" "out"))
             [File "main.asy"; File "scene.py"]
             eq_refl eq_refl eq_refl eq_refl)).
  reflexivity.
Defined.

(* ===================================================================== *)
(** * The whole of a request *)
(* ===================================================================== *)

(** ** The order of its steps *)

Lemma render_setup_steps E C body :
  let '(s, r) := render_setup E C body init in
  stepwise (trace s) = true
  /\ match r with
     | Done (Some _) => forallb (fun n => (n <=? 5)%nat) (map step (trace s)) = true
     | _ => True
     end.
Proof.
  unfold render_setup.
  generalize (field body "code") (default (field body "scene") (JStr "GeneratedScene"))
             (default (field body "format") (JStr "mp4"))
             (default (field body "quality") (JStr "ql")).
  intros code scene format quality.
  exec_setup; (split; [reflexivity | first [exact I | reflexivity]]).
Qed.

Lemma asy_setup_steps E C body :
  let '(s, r) := asy_setup E C body init in
  stepwise (trace s) = true
  /\ match r with
     | Done (Some _) => forallb (fun n => (n <=? 5)%nat) (map step (trace s)) = true
     | _ => True
     end.
Proof.
  unfold asy_setup.
  generalize (field body "code") (default (field body "format") (JStr "png")).
  intros code format.
  exec_setup; (split; [reflexivity | first [exact I | reflexivity]]).
Qed.

Lemma closing_steps work tail :
  closing work tail ->
  stepwise tail = true
  /\ forallb (fun n => (6 <=? n)%nat) (map step tail) = true.
Proof.
  intros H. destruct H; split; reflexivity.
Qed.

Lemma stepwise_app (t tail : list effect) :
  stepwise t = true ->
  forallb (fun n => (n <=? 5)%nat) (map step t) = true ->
  stepwise tail = true ->
  forallb (fun n => (6 <=? n)%nat) (map step tail) = true ->
  stepwise (t ++ tail) = true.
Proof.
  unfold stepwise. rewrite map_app. apply nondecreasing_app.
Qed.

Lemma render_steps E C body : stepwise (trace (fst (run_render E C body))) = true.
Proof.
  pose proof (render_setup_steps E C body) as Hsteps.
  destruct (render_setup E C body init) as [s r] eqn:Hs.
  destruct Hsteps as [Hord Hle].
  assert (Hother : (forall reg, r <> Done (Some reg)) ->
                   stepwise (trace (fst (run_render E C body))) = true).
  { intros Hr. unfold run_render, post_render.
    rewrite (run_unregistered _ _ _ Hs Hr). exact Hord. }
  destruct r as [[reg|]|e|]; try (apply Hother; intros reg'; discriminate).
  rewrite (render_run_registered _ _ _ _ _ Hs).
  match goal with
  | |- context [listen (render_listener E ?w ?f) ?c _] =>
      pose proof (render_listen_shape E w f c (trace s) (dirs s) "" "") as HL
  end.
  destruct (listen _ _ _) as [s' r']. cbn [fst].
  destruct r' as [[]|e|].
  - destruct HL as (_ & (tail & -> & Htail) & _).
    destruct (closing_steps _ _ Htail) as [Ht1 Ht2].
    apply stepwise_app; assumption.
  - contradiction.
  - destruct HL as [_ ->]. exact Hord.
Qed.

Lemma asy_steps E C body : stepwise (trace (fst (run_asy E C body))) = true.
Proof.
  pose proof (asy_setup_steps E C body) as Hsteps.
  destruct (asy_setup E C body init) as [s r] eqn:Hs.
  destruct Hsteps as [Hord Hle].
  assert (Hother : (forall reg, r <> Done (Some reg)) ->
                   stepwise (trace (fst (run_asy E C body))) = true).
  { intros Hr. unfold run_asy, post_asy.
    rewrite (run_unregistered _ _ _ Hs Hr). exact Hord. }
  destruct r as [[reg|]|e|]; try (apply Hother; intros reg'; discriminate).
  rewrite (asy_run_registered _ _ _ _ _ Hs).
  match goal with
  | |- context [listen (asy_listener E ?w ?f ?x ?st) ?c _] =>
      pose proof (asy_listen_shape E w f x st c (trace s) (dirs s) "" "") as HL
  end.
  destruct (listen _ _ _) as [s' r']. cbn [fst].
  destruct r' as [[]|e|].
  - destruct HL as (_ & (tail & -> & Htail) & _).
    destruct (closing_steps _ _ Htail) as [Ht1 Ht2].
    apply stepwise_app; assumption.
  - contradiction.
  - destruct HL as [_ ->]. exact Hord.
Qed.

(** C6 (as amended).  In every run of POST /render and POST /asy the
    effects come in the order probe for a required tool, acquisition of the
    scratch directory, write of the source, choice of the command (the
    look for the bundled binary, the probe for the display wrapper),
    spawn, walk for the artifact, read, response, release: no effect of a
    later step comes before an effect of an earlier one, each effect being
    classed by what it is and not by where it stands.  The validation of
    the source text comes before everything: a request it refuses performs
    nothing but its 400 response.  The validation of the selectors comes
    after the probe for the required tool and before the acquisition: a
    request with a valid source text and a selector out of its set still
    makes the probes its route and source text demand (two on POST /render
    when the source text matches the typesetting pattern and none
    otherwise, one on POST /asy), and creates no scratch directory and
    spawns no renderer. *)
Theorem steps_in_order E C body :
  (stepwise (trace (fst (run_render E C body))) = true
   /\ stepwise (trace (fst (run_asy E C body))) = true)
  /\ (bad_code (field body "code") = true ->
      trace (fst (run_render E C body)) = [Send (reply 400 missing_code)]
      /\ trace (fst (run_asy E C body)) = [Send (reply 400 missing_code)])
  /\ (bad_code (field body "code") = false ->
      render_selectors (default (field body "format") (JStr "mp4"))
                       (default (field body "quality") (JStr "ql")) = false ->
      count is_probe (trace (fst (run_render E C body)))
      = (if latex_re (text_of (field body "code")) then 2 else 0)
      /\ count is_mkdtemp (trace (fst (run_render E C body))) = 0
      /\ count is_spawn (trace (fst (run_render E C body))) = 0)
  /\ (bad_code (field body "code") = false ->
      asy_selector (default (field body "format") (JStr "png")) = false ->
      count is_probe (trace (fst (run_asy E C body))) = 1
      /\ count is_mkdtemp (trace (fst (run_asy E C body))) = 0
      /\ count is_spawn (trace (fst (run_asy E C body))) = 0).
Proof.
  split; [|split; [|split]].
  - split; [apply render_steps | apply asy_steps].
  - intros H. rewrite (render_bad_code E C body H), (asy_bad_code E C body H).
    split; reflexivity.
  - intros Hcode Hsel.
    destruct (render_invalid_run E C body Hcode Hsel) as (P & M & S & _).
    repeat split; assumption.
  - intros Hcode Hsel.
    destruct (asy_invalid_run E C body Hcode Hsel) as (P & M & S & _).
    repeat split; assumption.
Qed.

Lemma steps_in_order_witness :
  count is_probe
        (trace (fst (run_render (without "latex" host) cfg
                                (request [("code", JStr "t = Tex(r'a')");
                                          ("format", JStr "webm")]))))
  = 2
  /\ count is_mkdtemp
           (trace (fst (run_asy host cfg
                                (request [("code", JStr "draw(unitcircle);");
                                          ("format", JStr "pdf")]))))
     = 0
  /\ trace (fst (run_render host cfg (request [("quality", JStr "ql")])))
     = [Send (reply 400 missing_code)]
  /\ stepwise (trace (fst (run_asy host cfg
                                   (request [("code", JStr "draw(unitcircle);")]))))
     = true.
Proof.
  split; [|split; [|split]].
  - apply (proj1 (proj2 (proj2 (steps_in_order (without "latex" host) cfg
             (request [("code", JStr "t = Tex(r'a')"); ("format", JStr "webm")]))))
            eq_refl eq_refl).
  - apply (proj2 (proj2 (proj2 (steps_in_order host cfg
             (request [("code", JStr "draw(unitcircle);"); ("format", JStr "pdf")]))))
            eq_refl eq_refl).
  - apply (proj1 (proj2 (steps_in_order host cfg (request [("quality", JStr "ql")])))
            eq_refl).
  - apply (proj2 (proj1 (steps_in_order host cfg
             (request [("code", JStr "draw(unitcircle);")])))).
Defined.

(** The order is one of the effects themselves: the probe for the display
    wrapper moved before the acquisition, or the probes for the
    typesetting tools moved after the write, would break it. *)
Example stepwise_tells_the_probes_apart :
  stepwise [Probe "asy" ["--version"]; Probe "xvfb-run" ["--help"]; Mkdtemp "/tmp/asy-"]
  = false
  /\ stepwise [Mkdtemp "/tmp/manim-"; WriteFile "/tmp/manim-Ab12Cd/scene.py" "";
               Probe "latex" ["--version"]; Probe "dvisvgm" ["--version"]]
     = false
  /\ trace (fst (run_asy host cfg (request [("code", JStr "draw(unitcircle);")])))
     = [Probe "asy" ["--version"]; Mkdtemp "/tmp/asy-";
        WriteFile "/tmp/asy-Ab12Cd/main.asy" "draw(unitcircle);";
        Probe "xvfb-run" ["--help"];
        Spawn "xvfb-run"
              [JStr "-a"; JStr "-s"; JStr "-screen 0 1280x1024x24 -ac +extension GLX";
               JStr "asy"; JStr "-f"; JStr "png"; JStr "-tex"; JStr "pdflatex";
               JStr "-o"; JStr "out"; JStr "/tmp/asy-Ab12Cd/main.asy"]
              "/tmp/asy-Ab12Cd";
        Walk "/tmp/asy-Ab12Cd"; ReadFile "/tmp/asy-Ab12Cd/out.png";
        Send (artifact_response "image/png" "artifact bytes");
        Rm "/tmp/asy-Ab12Cd"].
Proof. repeat split. Qed.

(** ** Its one response *)

Lemma availability_forever (r : exn + child) :
  availability r = Forever -> exists c, r = inr c /\ closes c = false.
Proof.
  destruct r as [e|c]; cbn [availability]; [discriminate|].
  intros H. exists c. split; [reflexivity|].
  unfold closes. destruct (ending_of c); try discriminate H. reflexivity.
Qed.

Ltac probe_hangs Hprobes :=
  match goal with
  | H : availability (probe ?E ?h ?cmd ?args) = Forever |- _ =>
      let c := fresh "c" in
      let Hc := fresh "Hc" in
      let Hopen := fresh "Hopen" in
      destruct (availability_forever _ H) as (c & Hc & Hopen);
      rewrite (Hprobes h cmd args c Hc) in Hopen; discriminate Hopen
  end.

(** When every probe comes to an end, the [try] block of a route does. *)
Lemma render_setup_settles E C body :
  (forall h cmd args c, probe E h cmd args = inr c -> closes c = true) ->
  let '(s, r) := render_setup E C body init in r <> Pending.
Proof.
  intros Hprobes. unfold render_setup.
  generalize (field body "code") (default (field body "scene") (JStr "GeneratedScene"))
             (default (field body "format") (JStr "mp4"))
             (default (field body "quality") (JStr "ql")).
  intros code scene format quality.
  exec_setup; first [discriminate | probe_hangs Hprobes].
Qed.

Lemma asy_setup_settles E C body :
  (forall h cmd args c, probe E h cmd args = inr c -> closes c = true) ->
  let '(s, r) := asy_setup E C body init in r <> Pending.
Proof.
  intros Hprobes. unfold asy_setup.
  generalize (field body "code") (default (field body "format") (JStr "png")).
  intros code format.
  exec_setup; first [discriminate | probe_hangs Hprobes].
Qed.

Lemma run_unregistered_outcome (setup : M started) s r :
  setup init = (s, r) ->
  (forall reg, r <> Done (Some reg)) ->
  snd (bind setup (fun x => after_try x) init)
  = match r with
    | Done _ => Done tt
    | Thrown e => Thrown e
    | Pending => Pending
    end.
Proof.
  intros Hs Hr. unfold bind. rewrite Hs.
  destruct r as [[reg|]|e|]; [exfalso; exact (Hr reg eq_refl)| | |]; reflexivity.
Qed.

Lemma render_pending_silent E C body :
  snd (run_render E C body) = Pending ->
  count is_send (trace (fst (run_render E C body))) = 0.
Proof.
  pose proof (render_setup_shape E C body) as Hshape.
  destruct (render_setup E C body init) as [s r] eqn:Hs.
  destruct Hshape as [_ Hr].
  destruct r as [[reg|]|e|].
  - rewrite (render_run_registered _ _ _ _ _ Hs).
    match goal with
    | |- context [listen (render_listener E ?w ?f) ?c _] =>
        pose proof (render_listen_shape E w f c (trace s) (dirs s) "" "") as HL
    end.
    destruct (listen _ _ _) as [s' r']. cbn [fst snd]. intros ->.
    destruct HL as [_ ->]. exact (proj1 Hr).
  - unfold run_render, post_render.
    rewrite (run_unregistered_outcome _ _ _ Hs) by (intros reg; discriminate).
    discriminate.
  - contradiction.
  - unfold run_render, post_render. intros _.
    rewrite (run_unregistered _ _ _ Hs) by (intros reg; discriminate).
    exact (proj1 Hr).
Qed.

Lemma asy_pending_silent E C body :
  snd (run_asy E C body) = Pending ->
  count is_send (trace (fst (run_asy E C body))) = 0.
Proof.
  pose proof (asy_setup_shape E C body) as Hshape.
  destruct (asy_setup E C body init) as [s r] eqn:Hs.
  destruct Hshape as [_ Hr].
  destruct r as [[reg|]|e|].
  - rewrite (asy_run_registered _ _ _ _ _ Hs).
    match goal with
    | |- context [listen (asy_listener E ?w ?f ?x ?st) ?c _] =>
        pose proof (asy_listen_shape E w f x st c (trace s) (dirs s) "" "") as HL
    end.
    destruct (listen _ _ _) as [s' r']. cbn [fst snd]. intros ->.
    destruct HL as [_ ->]. exact (proj1 Hr).
  - unfold run_asy, post_asy.
    rewrite (run_unregistered_outcome _ _ _ Hs) by (intros reg; discriminate).
    discriminate.
  - contradiction.
  - unfold run_asy, post_asy. intros _.
    rewrite (run_unregistered _ _ _ Hs) by (intros reg; discriminate).
    exact (proj1 Hr).
Qed.

(** When every process the environment starts comes to an end, so does the
    request. *)
Lemma render_ends E C body :
  (forall h cmd args c, probe E h cmd args = inr c -> closes c = true) ->
  (forall h cmd argv cwd c, spawn E h cmd argv cwd = inr c -> closes c = true) ->
  snd (run_render E C body) = Done tt.
Proof.
  intros Hprobes Hspawns.
  pose proof (render_setup_settles E C body Hprobes) as Hsettles.
  pose proof (render_setup_shape E C body) as Hshape.
  pose proof (render_setup_registered E C (field body "code")
                (default (field body "scene") (JStr "GeneratedScene"))
                (default (field body "format") (JStr "mp4"))
                (default (field body "quality") (JStr "ql"))) as Hreg.
  fold (render_setup E C body) in Hreg.
  destruct (render_sound E C body) as (_ & _ & _ & _ & Hsound).
  destruct (render_setup E C body init) as [s r] eqn:Hs.
  destruct r as [[reg|]|e|].
  - destruct Hreg as (pre & _ & _ & _ & _ & _ & cmd & argv & _ & Hchild & _).
    exact (proj1 (Hsound reg eq_refl (Hspawns _ _ _ _ _ Hchild))).
  - unfold run_render, post_render.
    rewrite (run_unregistered_outcome _ _ _ Hs) by (intros reg; discriminate).
    reflexivity.
  - destruct Hshape as [_ []].
  - exfalso. apply Hsettles. reflexivity.
Qed.

Lemma asy_ends E C body :
  (forall h cmd args c, probe E h cmd args = inr c -> closes c = true) ->
  (forall h cmd argv cwd c, spawn E h cmd argv cwd = inr c -> closes c = true) ->
  snd (run_asy E C body) = Done tt.
Proof.
  intros Hprobes Hspawns.
  pose proof (asy_setup_settles E C body Hprobes) as Hsettles.
  pose proof (asy_setup_shape E C body) as Hshape.
  pose proof (asy_setup_registered E C (field body "code")
                (default (field body "format") (JStr "png"))) as Hreg.
  fold (asy_setup E C body) in Hreg.
  destruct (asy_sound E C body) as (_ & _ & _ & _ & Hsound).
  destruct (asy_setup E C body init) as [s r] eqn:Hs.
  destruct r as [[reg|]|e|].
  - destruct Hreg as (_ & _ & _ & _ & _ & useXvfb & cmd & argv & _ & _ & Hchild & _).
    exact (proj1 (Hsound reg eq_refl (Hspawns _ _ _ _ _ Hchild))).
  - unfold run_asy, post_asy.
    rewrite (run_unregistered_outcome _ _ _ Hs) by (intros reg; discriminate).
    reflexivity.
  - destruct Hshape as [_ []].
  - exfalso. apply Hsettles. reflexivity.
Qed.

(** C7 (as amended).  In every run of POST /render and of POST /asy at
    most one response is attempted and nothing is thrown past the
    handler: the [responded] flag keeps the ['close'] listener silent
    after the ['error'] listener has answered, and keeps the [catch]
    silent when [res.send] itself fails.  A request that has come to its
    end has had exactly one response, and one that has not has had none.
    Whenever every process the request starts, probe or renderer, comes
    to an end (it exits, is killed, or cannot be started), the request
    comes to its end, with exactly one response. *)
Theorem one_response E C body :
  (count is_send (trace (fst (run_render E C body))) <= 1
   /\ (forall e, snd (run_render E C body) <> Thrown e)
   /\ (snd (run_render E C body) = Done tt ->
       count is_send (trace (fst (run_render E C body))) = 1)
   /\ (snd (run_render E C body) = Pending ->
       count is_send (trace (fst (run_render E C body))) = 0)
   /\ ((forall h cmd args c, probe E h cmd args = inr c -> closes c = true) ->
       (forall h cmd argv cwd c, spawn E h cmd argv cwd = inr c -> closes c = true) ->
       snd (run_render E C body) = Done tt
       /\ count is_send (trace (fst (run_render E C body))) = 1))
  /\ (count is_send (trace (fst (run_asy E C body))) <= 1
      /\ (forall e, snd (run_asy E C body) <> Thrown e)
      /\ (snd (run_asy E C body) = Done tt ->
          count is_send (trace (fst (run_asy E C body))) = 1)
      /\ (snd (run_asy E C body) = Pending ->
          count is_send (trace (fst (run_asy E C body))) = 0)
      /\ ((forall h cmd args c, probe E h cmd args = inr c -> closes c = true) ->
          (forall h cmd argv cwd c, spawn E h cmd argv cwd = inr c -> closes c = true) ->
          snd (run_asy E C body) = Done tt
          /\ count is_send (trace (fst (run_asy E C body))) = 1)).
Proof.
  destruct (render_sound E C body) as (R1 & _ & R3 & R4 & _).
  destruct (asy_sound E C body) as (A1 & _ & A3 & A4 & _).
  split.
  - split; [exact R3|]. split; [exact R1|]. split; [exact R4|].
    split; [apply render_pending_silent|].
    intros Hprobes Hspawns.
    pose proof (render_ends E C body Hprobes Hspawns) as Hend.
    split; [exact Hend | exact (R4 Hend)].
  - split; [exact A3|]. split; [exact A1|]. split; [exact A4|].
    split; [apply asy_pending_silent|].
    intros Hprobes Hspawns.
    pose proof (asy_ends E C body Hprobes Hspawns) as Hend.
    split; [exact Hend | exact (A4 Hend)].
Qed.

Lemma one_response_witness :
  snd (run_render (no_renderer host) cfg
                  (request [("code", JStr "class S(Scene): pass")])) = Done tt
  /\ count is_send
           (trace (fst (run_render (no_renderer host) cfg
                                   (request [("code", JStr "class S(Scene): pass")]))))
     = 1.
Proof.
  apply (proj2 (proj2 (proj2 (proj2 (proj1 (one_response (no_renderer host) cfg
                                (request [("code", JStr "class S(Scene): pass")]))))))).
  - intros h cmd args c H. inversion H. reflexivity.
  - intros h cmd argv cwd c H. inversion H. reflexivity.
Defined.

(** C7 (as stated) fails.  The handlers set no time limit: a request whose
    renderer never exits is never answered, on either route. *)
Lemma renderer_that_never_exits_is_not_answered :
  (count is_send
         (trace (fst (run_render (hanging host) cfg
                                 (request [("code", JStr "class S(Scene): pass")]))))
   = 0
   /\ snd (run_render (hanging host) cfg
                      (request [("code", JStr "class S(Scene): pass")])) = Pending)
  /\ (count is_send
            (trace (fst (run_asy (hanging host) cfg
                                 (request [("code", JStr "draw(unitcircle);")]))))
      = 0
      /\ snd (run_asy (hanging host) cfg
                      (request [("code", JStr "draw(unitcircle);")])) = Pending).
Proof. repeat split. Qed.

(** ** Its selectors *)









